(** * Stock_App.py: the CryptoTracker dashboard

    A shallow embedding of [src/Stock_App.py] and the properties of its two
    fetch functions ([get_coins_list], [get_coin_history]) and of the
    statistics block of [main].

    The program is Python glue over four libraries.  What the program itself
    does is embedded line by line; what the libraries do is embedded as far as
    the program uses it:
    - [requests]: a GET either fails at transport level or yields a response
      with a status code and a body; [response.ok] and [response.json()];
    - [streamlit]: elements are appended to the page; [st.cache_data]
      memoises a function per argument tuple and replays the elements the
      call emitted;
    - [pandas]: a frame is an ordered list of named columns over the default
      index 0..n-1;
    - Python's [format] with the [.12f] presentation. *)

From Stdlib Require Import ZArith QArith Qcanon Qabs Qcabs Lia Ascii.
From stdpp Require Import base decidable option list strings gmap pretty.

Local Set Warnings "-register-all".
Local Open Scope string_scope.
Local Open Scope list_scope.
Local Open Scope Z_scope.

(** ** JSON values, as [json.loads] delivers them *)

(** A number is represented by its exact value: a Python [int] or a finite
    [float] is a rational.  An object is a [dict]: keys are unique and keep
    their insertion order. *)
Inductive json : Type :=
| JNull
| JBool (b : bool)
| JNum (q : Qc)
| JStr (s : string)
| JArr (items : list json)
| JObj (fields : list (string * json)).

Fixpoint assoc {A : Type} (k : string) (l : list (string * A)) : option A :=
  match l with
  | [] => None
  | (k', v) :: l' => if String.eqb k k' then Some v else assoc k l'
  end.

(** ** Outcomes of a call *)

Inductive exn : Type :=
| JSONDecodeError          (* response.json() on a body that is not JSON *)
| AttributeError           (* method lookup on a value that lacks it *)
| KeyError (key : string)
| TypeError
| ValueError
| OutOfBoundsDatetime      (* pandas: instant outside the Timestamp range *)
| RequestException.        (* requests: no response was obtained *)

(** A call returns, raises, or leaves the fragment of the libraries this
    development describes ([Unmodelled]: the value handed to pandas or
    streamlit has a shape whose treatment depends on library internals). *)
Inductive outcome (A : Type) : Type :=
| Returns (a : A)
| Raises (e : exn)
| Unmodelled.
Arguments Returns {A} a.
Arguments Raises {A} e.
Arguments Unmodelled {A}.

Definition obind {A B : Type} (o : outcome A) (k : A → outcome B) : outcome B :=
  match o with
  | Returns a => k a
  | Raises e => Raises e
  | Unmodelled => Unmodelled
  end.

(** ** The world the program runs in *)

Inductive pvalue : Type := PStr (s : string) | PInt (z : Z).

Record Request : Type := mkRequest {
  req_url : string;
  req_params : list (string * pvalue)
}.

(** [body] is what [response.json()] finds: [None] when the body is not a
    JSON document. *)
Record Response : Type := mkResponse {
  status_code : Z;
  body : option json
}.

(** [Response.ok] is [raise_for_status] not raising: the status is neither a
    client error (4xx) nor a server error (5xx). *)
Definition ok (response : Response) : bool :=
  negb ((400 <=? status_code response) && (status_code response <? 600)).

Definition response_json (response : Response) : outcome json :=
  match body response with
  | Some j => Returns j
  | None => Raises JSONDecodeError
  end.

Inductive date : Type := mkDate (year month day : Z).

Inductive cell : Type :=
| CNum (q : Qc)
| CTimestamp (ms : Z)      (* a datetime64 instant, in milliseconds *)
| CDate (d : date).

(** A frame: its columns in order, each with its values in index order. *)
Record DataFrame : Type := mkDataFrame {
  frame_columns : list (string * list cell)
}.

(** A plotly figure, as [px.line] builds it. *)
Record Figure : Type := mkFigure {
  fig_data : DataFrame;
  fig_x : string;
  fig_y : string;
  fig_title : string;
  fig_labels : list (string * string);
  fig_rangeslider_visible : bool
}.

(** What streamlit is asked to put on the page. *)
Inductive element : Type :=
| st_title (text : string)
| st_sidebar_header (text : string)
| st_sidebar_selectbox (label : string) (options : list string)
| st_sidebar_date_input (label : string) (value : date)
| st_spinner (text : string)
| st_plotly_chart (fig : Figure)
| st_metric (column : nat) (label value delta : string)
| st_error (text : string)
| st_info (text : string).

(** A cache entry of [st.cache_data]: the returned value and the elements
    the call emitted, which a cache hit replays. *)
Abbreviation entry V := (V * list element)%type (only parsing).

Record World : Type := mkWorld {
  (** the transport: what the n-th GET of the process yields *)
  transport : nat → Request → Response + exn;
  (** GETs issued so far *)
  gets : nat;
  (** elements on the page, oldest first *)
  page : list element;
  coins_cache : gmap () (entry json);
  history_cache : gmap (string * Z * Z) (entry DataFrame)
}.

(** ** Computations: state passing with outcomes *)

Definition App (A : Type) : Type := World → outcome A * World.

Definition ret {A : Type} (a : A) : App A := λ w, (Returns a, w).

Definition bind {A B : Type} (m : App A) (k : A → App B) : App B :=
  λ w, match m w with
       | (Returns a, w') => k a w'
       | (Raises e, w') => (Raises e, w')
       | (Unmodelled, w') => (Unmodelled, w')
       end.

Definition lift {A : Type} (o : outcome A) : App A := λ w, (o, w).

Declare Scope app_scope.
Delimit Scope app_scope with app.
Notation "x <~ m ;; k" := (bind m (λ x, k))
  (at level 100, m at next level, right associativity) : app_scope.
Notation "m ;;; k" := (bind m (λ _, k))
  (at level 100, right associativity) : app_scope.

(** [requests.get]: one more GET on the transport. *)
Definition requests_get (url : string) (params : list (string * pvalue)) : App Response :=
  λ w,
    let w' := mkWorld (transport w) (S (gets w)) (page w) (coins_cache w) (history_cache w) in
    match transport w (gets w) (mkRequest url params) with
    | inl response => (Returns response, w')
    | inr e => (Raises e, w')
    end.

(** A streamlit element call appends to the page. *)
Definition emit (e : element) : App () :=
  λ w, (Returns (), mkWorld (transport w) (gets w) (page w ++ [e]) (coins_cache w) (history_cache w)).

(** ** [st.cache_data] *)

Section cache_data.
Context {K V : Type} `{Countable K}.
Variable get_cache : World → gmap K (entry V).
Variable set_cache : gmap K (entry V) → World → World.

(** A hit returns the stored value and replays the stored elements without
    running the function.  A miss runs it; when it returns, the value is
    stored with the elements the run appended to the page.  A run that
    raises stores nothing. *)
Definition cache_data (f : K → App V) (args : K) : App V :=
  λ w,
    match get_cache w !! args with
    | Some (v, replay) =>
        (Returns v, mkWorld (transport w) (gets w) (page w ++ replay)
                            (coins_cache w) (history_cache w))
    | None =>
        match f args w with
        | (Returns v, w') =>
            let emitted := drop (length (page w)) (page w') in
            (Returns v, set_cache (<[args := (v, emitted)]> (get_cache w')) w')
        | (o, w') => (o, w')
        end
    end.
End cache_data.

Definition set_coins_cache (c : gmap () (entry json)) (w : World) : World :=
  mkWorld (transport w) (gets w) (page w) c (history_cache w).

Definition set_history_cache (c : gmap (string * Z * Z) (entry DataFrame)) (w : World) : World :=
  mkWorld (transport w) (gets w) (page w) (coins_cache w) c.

(** ** [get_coins_list] *)

Definition get_coins_list_body (_ : ()) : App json :=
  (let url := "https://api.coingecko.com/api/v3/coins/list" in
   response <~ requests_get url [] ;;
   if ok response then
     coins <~ lift (response_json response) ;;
     ret coins
   else
     emit (st_error "Error fetching the coins list.") ;;;
     ret (JArr []))%app.

Definition get_coins_list : App json :=
  cache_data coins_cache set_coins_cache get_coins_list_body ().

(** ** Calendar dates *)

(** The proleptic Gregorian date of a day number (days since 1970-01-01),
    as [datetime64] values convert to [datetime.date]. *)
Definition civil_from_days (days : Z) : date :=
  let z := days + 719468 in
  let era := z / 146097 in
  let doe := z - era * 146097 in
  let yoe := (doe - doe / 1460 + doe / 36524 - doe / 146096) / 365 in
  let doy := doe - (365 * yoe + yoe / 4 - yoe / 100) in
  let mp := (5 * doy + 2) / 153 in
  let d := doy - (153 * mp + 2) / 5 + 1 in
  let m := if mp <? 10 then mp + 3 else mp - 9 in
  let y := yoe + era * 400 in
  mkDate (if m <=? 2 then y + 1 else y) m d.

(** The day number of a date ([date.toordinal], shifted to the epoch). *)
Definition days_from_civil (d : date) : Z :=
  let '(mkDate year month day) := d in
  let y := if month <=? 2 then year - 1 else year in
  let era := y / 400 in
  let yoe := y - era * 400 in
  let mp := if month <=? 2 then month + 9 else month - 3 in
  let doy := (153 * mp + 2) / 5 + day - 1 in
  let doe := yoe * 365 + yoe / 4 - yoe / 100 + doy in
  era * 146097 + doe - 719468.

Definition ms_per_day : Z := 86400000.

(** [.dt.date] of an instant: the time of day is cut off.  The instants are
    naive, read as UTC, so no zone offset enters. *)
Definition date_of_ms (ms : Z) : date := civil_from_days (ms / ms_per_day).

(** [date <= date]: dates compare as (year, month, day). *)
Definition date_leb (a b : date) : bool :=
  let '(mkDate y1 m1 d1) := a in
  let '(mkDate y2 m2 d2) := b in
  (y1 <? y2) || ((y1 =? y2) && ((m1 <? m2) || ((m1 =? m2) && (d1 <=? d2)))).

(** [str(date)]: ISO format, zero padded. *)
Definition pad (width : nat) (s : string) : string :=
  String.concat "" (replicate (width - String.length s) "0") +:+ s.

Definition date_str (d : date) : string :=
  let '(mkDate year month day) := d in
  pad 4 (pretty year) +:+ "-" +:+ pad 2 (pretty month) +:+ "-" +:+ pad 2 (pretty day).

(** ** Order on numbers *)

Definition Qc_ltb (x y : Qc) : bool :=
  match (x ?= y)%Qc with Lt => true | _ => false end.

Definition Qc_is_int (q : Qc) : bool := (Qden q =? 1)%positive.

(** ** The pandas calls of the program *)

Definition df_names (df : DataFrame) : list string := (frame_columns df).*1.

(** Number of rows: the length of the index (of the first column; a frame
    without columns has none). *)
Definition df_len (df : DataFrame) : nat :=
  match frame_columns df with
  | [] => 0%nat
  | (_, c) :: _ => length c
  end.

(** [df.empty]: some axis has length 0. *)
Definition df_empty (df : DataFrame) : bool :=
  match frame_columns df with
  | [] => true
  | (_, c) :: _ => match c with [] => true | _ => false end
  end.

Definition row_of_json (row : json) : option (list cell) :=
  match row with
  | JArr items => mapM (λ j, match j with JNum q => Some (CNum q) | _ => None end) items
  | _ => None
  end.

(** [pd.DataFrame(data, columns=...)] for [data] a list of rows: described
    for rows that are lists of numbers, as many as there are column names. *)
Definition pd_DataFrame (data : json) (columns : list string) : outcome DataFrame :=
  match data with
  | JArr rows =>
      match mapM row_of_json rows with
      | Some rs =>
          if forallb (λ r, Nat.eqb (length r) (length columns)) rs
          then Returns (mkDataFrame
                 (imap (λ i c, (c, map (λ r, nth i r (CNum 0)) rs)) columns))
          else Unmodelled
      | None => Unmodelled
      end
  | _ => Unmodelled
  end.

(** [pd.DataFrame(columns=...)]: the named columns, no rows. *)
Definition pd_DataFrame_columns (columns : list string) : DataFrame :=
  mkDataFrame (map (λ c, (c, [])) columns).

(** [df[name]] *)
Definition df_getitem (df : DataFrame) (name : string) : outcome (list cell) :=
  match assoc name (frame_columns df) with
  | Some c => Returns c
  | None => Raises (KeyError name)
  end.

(** [df[name] = values]: replaces the column of that name where it stands,
    or adds it as the last column. *)
Fixpoint set_column (name : string) (values : list cell) (cols : list (string * list cell))
  : list (string * list cell) :=
  match cols with
  | [] => [(name, values)]
  | (n, c) :: cols' =>
      if String.eqb name n then (n, values) :: cols'
      else (n, c) :: set_column name values cols'
  end.

Definition df_setitem (df : DataFrame) (name : string) (values : list cell) : DataFrame :=
  mkDataFrame (set_column name values (frame_columns df)).

(** [df.drop(columns=names)]: every name must be a column. *)
Definition df_drop (df : DataFrame) (names : list string) : outcome DataFrame :=
  match List.find (λ n, negb (bool_decide (n ∈ df_names df))) names with
  | Some missing => Raises (KeyError missing)
  | None =>
      Returns (mkDataFrame
        (List.filter (λ nc, negb (bool_decide (nc.1 ∈ names))) (frame_columns df)))
  end.

(** A [datetime64[ns]] instant is a signed 64-bit count of nanoseconds;
    the lowest value is NaT. *)
Definition ns_in_bounds (ms : Z) : bool :=
  (- (2 ^ 63 - 1) <=? ms * 1000000) && (ms * 1000000 <=? 2 ^ 63 - 1).

Definition timestamp_of_cell (c : cell) : outcome cell :=
  match c with
  | CNum q =>
      if Qc_is_int q then
        if ns_in_bounds (Qnum q) then Returns (CTimestamp (Qnum q))
        else Raises OutOfBoundsDatetime
      else Unmodelled
  | _ => Unmodelled
  end.

Fixpoint omapM {A B : Type} (f : A → outcome B) (l : list A) : outcome (list B) :=
  match l with
  | [] => Returns []
  | a :: l' => obind (f a) (λ b, obind (omapM f l') (λ bs, Returns (b :: bs)))
  end.

(** [pd.to_datetime(series, unit='ms')] on whole numbers of milliseconds. *)
Definition to_datetime_ms (series : list cell) : outcome (list cell) :=
  omapM timestamp_of_cell series.

(** [series.dt.date] *)
Definition dt_date (series : list cell) : outcome (list cell) :=
  omapM (λ c, match c with
              | CTimestamp ms => Returns (CDate (date_of_ms ms))
              | _ => Raises AttributeError
              end) series.

(** [data.get(key, default)]: only a [dict] has the method. *)
Definition dict_get (data : json) (key : string) (default : json) : outcome json :=
  match data with
  | JObj fields => Returns (from_option id default (assoc key fields))
  | _ => Raises AttributeError
  end.

(** ** [get_coin_history] *)

Definition get_coin_history_body (args : string * Z * Z) : App DataFrame :=
  (let '(coin_id, from_timestamp, to_timestamp) := args in
   let url := "https://api.coingecko.com/api/v3/coins/" +:+ coin_id +:+ "/market_chart/range" in
   let params := [("vs_currency", PStr "usd");
                  ("from", PInt from_timestamp);
                  ("to", PInt to_timestamp)] in
   response <~ requests_get url params ;;
   if ok response then
     data <~ lift (response_json response) ;;
     prices <~ lift (dict_get data "prices" (JArr [])) ;;
     df <~ lift (pd_DataFrame prices ["timestamp"; "price"]) ;;
     timestamp <~ lift (df_getitem df "timestamp") ;;
     instants <~ lift (to_datetime_ms timestamp) ;;
     dates <~ lift (dt_date instants) ;;
     let df := df_setitem df "date" dates in
     lift (df_drop df ["timestamp"])
   else
     emit (st_error ("Error fetching the historical data for " +:+ coin_id +:+ ".")) ;;;
     ret (pd_DataFrame_columns ["date"; "price"]))%app.

Definition get_coin_history (coin_id : string) (from_timestamp to_timestamp : Z) : App DataFrame :=
  cache_data history_cache set_history_cache get_coin_history_body
    (coin_id, from_timestamp, to_timestamp).

(** ** Python's [format(x, '.12f')] *)

(** Nearest integer to [n / d], ties to the even one. *)
Definition round_half_even (n d : Z) : Z :=
  let quo := n / d in
  let rem := n mod d in
  if 2 * rem <? d then quo
  else if d <? 2 * rem then quo + 1
  else if Z.even quo then quo else quo + 1.

(** The last [width] decimal digits of [n], most significant first. *)
Definition digit_char (d : Z) : ascii := ascii_of_N (Z.to_N (48 + d)).

Fixpoint fixed_digits (width : nat) (n : Z) : string :=
  match width with
  | O => ""
  | S width' => fixed_digits width' (n / 10) +:+ String (digit_char (n mod 10)) ""
  end.

(** The exact value is rounded to 12 decimals; the sign is printed for
    every negative value, also one that rounds to zero.  The values meant
    are the finite binary64 values a price holds as a float, zero standing
    for [+0.0]; a price held as an integer is converted to binary64 before
    it is formatted. *)
Definition format_12f (x : Qc) : string :=
  let scaled := round_half_even (Z.abs (Qnum x) * 10 ^ 12) (Z.pos (Qden x)) in
  (if Qnum x <? 0 then "-" else "")
  +:+ pretty (scaled / 10 ^ 12) +:+ "." +:+ fixed_digits 12 (scaled mod 10 ^ 12).

(** ** Series statistics *)

Definition numbers_of (series : list cell) : option (list Qc) :=
  mapM (λ c, match c with CNum q => Some q | _ => None end) series.

(** The scan behind [argmax] and [argmin]: the position held moves only to
    a value that is strictly better than the one held, so among equal
    extremes the first stays. *)
Section scan.
Variable better : Qc → Qc → bool.

Fixpoint arg_scan (best : Qc) (best_i i : nat) (l : list Qc) : nat :=
  match l with
  | [] => best_i
  | x :: l' =>
      if better best x then arg_scan x i (S i) l'
      else arg_scan best best_i (S i) l'
  end.

Definition scan (best : Qc) (l : list Qc) : Qc :=
  fold_left (λ m x, if better m x then x else m) l best.
End scan.

Definition argmax_from : Qc → nat → nat → list Qc → nat :=
  arg_scan (λ best x, Qc_ltb best x).

Definition argmin_from : Qc → nat → nat → list Qc → nat :=
  arg_scan (λ best x, Qc_ltb x best).

(** [series.idxmax()], [series.idxmin()]: the index label of the extreme;
    over the default index the label is the position.  An empty series
    raises. *)
Definition idxmax (series : list cell) : outcome nat :=
  match numbers_of series with
  | Some [] => Raises ValueError
  | Some (x :: l) => Returns (argmax_from x 0 1 l)
  | None => Unmodelled
  end.

Definition idxmin (series : list cell) : outcome nat :=
  match numbers_of series with
  | Some [] => Raises ValueError
  | Some (x :: l) => Returns (argmin_from x 0 1 l)
  | None => Unmodelled
  end.

(** [series.max()], [series.min()] *)
Definition series_max (series : list cell) : outcome Qc :=
  match numbers_of series with
  | Some (x :: l) => Returns (scan (λ best y, Qc_ltb best y) x l)
  | _ => Unmodelled
  end.

Definition series_min (series : list cell) : outcome Qc :=
  match numbers_of series with
  | Some (x :: l) => Returns (scan (λ best y, Qc_ltb y best) x l)
  | _ => Unmodelled
  end.

(** [df.loc[label]]: the row with that index label, as name/value pairs. *)
Definition df_loc (df : DataFrame) (label : nat) : outcome (list (string * cell)) :=
  match mapM (λ nc : string * list cell, (λ v, (nc.1, v)) <$> nc.2 !! label) (frame_columns df) with
  | Some row => Returns row
  | None => Raises (KeyError (pretty label))
  end.

Definition row_getitem (row : list (string * cell)) (name : string) : outcome cell :=
  match assoc name row with
  | Some v => Returns v
  | None => Raises (KeyError name)
  end.

(** [px.line(df, x=..., y=..., title=..., labels=...)] *)
Definition px_line (df : DataFrame) (x y title : string) (labels : list (string * string))
  : outcome Figure :=
  if bool_decide (x ∈ df_names df) && bool_decide (y ∈ df_names df)
  then Returns (mkFigure df x y title labels false)
  else Raises ValueError.

Definition update_xaxes (fig : Figure) (rangeslider_visible : bool) : Figure :=
  mkFigure (fig_data fig) (fig_x fig) (fig_y fig) (fig_title fig) (fig_labels fig)
           rangeslider_visible.

(** ** [main] *)

(** The statistics block of [main], for a frame that is not empty. *)
Record Statistics : Type := mkStatistics {
  max_price_date : cell;
  min_price_date : cell;
  max_price : Qc;
  min_price : Qc;
  max_price_formatted : string;
  min_price_formatted : string
}.

Definition main_statistics (df : DataFrame) : outcome Statistics :=
  obind (df_getitem df "price") (λ price,
  obind (idxmax price) (λ imax,
  obind (df_loc df imax) (λ row_max,
  obind (row_getitem row_max "date") (λ max_price_date,
  obind (df_getitem df "price") (λ price,
  obind (idxmin price) (λ imin,
  obind (df_loc df imin) (λ row_min,
  obind (row_getitem row_min "date") (λ min_price_date,
  obind (df_getitem df "price") (λ price,
  obind (series_max price) (λ max_price,
  obind (df_getitem df "price") (λ price,
  obind (series_min price) (λ min_price,
  let max_price_formatted := format_12f max_price in
  let min_price_formatted := format_12f min_price in
  Returns (mkStatistics max_price_date min_price_date max_price min_price
                        max_price_formatted min_price_formatted))))))))))))).

(** What the user and the host supply to one run of the script. *)
Record Session : Type := mkSession {
  (** [datetime.now().date()] *)
  now_date : date;
  (** position picked in the select box *)
  picked_coin : nat;
  (** dates picked in the date inputs; [None]: the default is kept *)
  picked_start : option date;
  picked_end : option date;
  (** seconds east of UTC of the host's zone, at a local date and second
      of the day *)
  utcoffset : date → Z → Z
}.

(** Iterating a JSON value: a list yields its items, a dict its keys, a
    string its characters; nothing else iterates. *)
Definition py_iter (j : json) : outcome (list json) :=
  match j with
  | JArr items => Returns items
  | JObj fields => Returns (map (λ kv, JStr kv.1) fields)
  | JStr s => Returns (map (λ c, JStr (String c "")) (String.list_ascii_of_string s))
  | _ => Raises TypeError
  end.

(** [value[key]] with a string key: only a dict takes one. *)
Definition py_getitem (value : json) (key : string) : outcome json :=
  match value with
  | JObj fields =>
      match assoc key fields with
      | Some v => Returns v
      | None => Raises (KeyError key)
      end
  | _ => Raises TypeError
  end.

Definition py_truthy (value : json) : bool :=
  match value with
  | JNull => false
  | JBool b => b
  | JNum q => negb (Qnum q =? 0)
  | JStr s => negb (String.eqb s "")
  | JArr items => match items with [] => false | _ => true end
  | JObj fields => match fields with [] => false | _ => true end
  end.

(** [[coin["name"] for coin in coins]], for names that are strings. *)
Definition coin_name (coin : json) : outcome string :=
  obind (py_getitem coin "name") (λ name,
    match name with JStr s => Returns s | _ => Unmodelled end).

(** [st.sidebar.selectbox]: the option at the picked position, the first
    one by default, [None] when there is no option. *)
Definition selectbox (user : Session) (label : string) (options : list string)
  : App (option string) :=
  (emit (st_sidebar_selectbox label options) ;;;
   ret (match options !! picked_coin user with
        | Some o => Some o
        | None => head options
        end))%app.

Definition date_input (picked : option date) (label : string) (value : date) : App date :=
  (emit (st_sidebar_date_input label value) ;;;
   ret (default value picked))%app.

(** [next((coin["id"] for coin in coins if coin["name"] == selected), None)] *)
Fixpoint next_coin_id (selected_coin_name : option string) (coins : list json)
  : outcome (option json) :=
  match coins with
  | [] => Returns None
  | coin :: coins' =>
      obind (coin_name coin) (λ name,
        if bool_decide (Some name = selected_coin_name)
        then obind (py_getitem coin "id") (λ i, Returns (Some i))
        else next_coin_id selected_coin_name coins')
  end.

(** ** Binary64 arithmetic of [datetime.timestamp] *)

(** [floor (log2 |q|)], for [q] other than zero. *)
Definition floor_log2 (q : Q) : Z :=
  let a := Z.abs (Qnum q) in
  let d := Z.pos (Qden q) in
  if d <=? a then Z.log2 (a / d) else - Z.log2_up ((d + a - 1) / a).

(** The binary64 value nearest to [q], ties to the even significand: [q] is
    rounded to a multiple of the unit in the last place, which is
    [2^(e - 52)] for [2^e <= |q| < 2^(e + 1)], and [2^-1074] below
    [2^-1022].  Overflow to infinity, from [2^1024] on, is not described. *)
Definition round_binary64 (q : Q) : Q :=
  let ulp := Z.max (floor_log2 q) (-1022) - 52 in
  if ulp <=? 0
  then Qmake (round_half_even (Qnum q * 2 ^ (- ulp)) (Z.pos (Qden q))) (Z.to_pos (2 ^ (- ulp)))
  else inject_Z (round_half_even (Qnum q) (Z.pos (Qden q) * 2 ^ ulp) * 2 ^ ulp).

(** [datetime.timestamp()] of a naive datetime: [seconds + microsecond / 1e6]
    computed in binary64, where [seconds] are the whole seconds since the
    epoch (fewer than [2^53] for every date Python has, so binary64 holds
    them exactly). *)
Definition datetime_timestamp (seconds microsecond : Z) : Q :=
  round_binary64 (Qplus (inject_Z seconds) (round_binary64 (Qmake microsecond 1000000))).

(** [int(x)] of a float: the fraction is cut off, toward zero. *)
Definition py_int (x : Q) : Z := Z.quot (Qnum x) (Z.pos (Qden x)).

(** The whole seconds since the epoch of a naive local time on date [d],
    [second_of_day] seconds after midnight. *)
Definition local_timestamp (user : Session) (d : date) (second_of_day : Z) : Z :=
  days_from_civil d * 86400 + second_of_day - utcoffset user d second_of_day.

Definition main (user : Session) : App () :=
  (emit (st_title "CryptoTracker") ;;;
   emit (st_sidebar_header "Parameters") ;;;
   coins <~ get_coins_list ;;
   coin_list <~ lift (py_iter coins) ;;
   coin_names <~ lift (omapM coin_name coin_list) ;;
   selected_coin_name <~ selectbox user "Select a cryptocurrency" coin_names ;;
   selected_coin_id <~ lift (next_coin_id selected_coin_name coin_list) ;;
   let today := now_date user in
   start_date <~ date_input (picked_start user) "Start date"
                   (civil_from_days (days_from_civil today - 365)) ;;
   end_date <~ date_input (picked_end user) "End date" today ;;
   (* midnight, and 23:59:59.999999, each as a float cut to an integer *)
   let from_timestamp :=
     py_int (datetime_timestamp (local_timestamp user start_date 0) 0) in
   let to_timestamp :=
     py_int (datetime_timestamp (local_timestamp user end_date 86399) 999999) in
   if from_option py_truthy false selected_coin_id && date_leb start_date end_date then
     match selected_coin_id, selected_coin_name with
     | Some (JStr coin_id), Some name =>
         emit (st_spinner "Fetching data...") ;;;
         df <~ get_coin_history coin_id from_timestamp to_timestamp ;;
         if negb (df_empty df) then
           fig <~ lift (px_line df "date" "price"
                          ("Price of " +:+ name +:+ " from " +:+ date_str start_date
                           +:+ " to " +:+ date_str end_date)
                          [("price", "Price (USD)"); ("date", "Date")]) ;;
           let fig := update_xaxes fig true in
           emit (st_plotly_chart fig) ;;;
           stats <~ lift (main_statistics df) ;;
           match max_price_date stats, min_price_date stats with
           | CDate max_date, CDate min_date =>
               emit (st_metric 1 "Maximum Price" ("$" +:+ max_price_formatted stats)
                               ("Date: " +:+ date_str max_date)) ;;;
               emit (st_metric 2 "Minimum Price" ("$" +:+ min_price_formatted stats)
                               ("Date: " +:+ date_str min_date))
           | _, _ => lift Unmodelled
           end
         else
           emit (st_error "No data available for the selected cryptocurrency and date range.")
     | _, _ => lift Unmodelled
     end
   else
     emit (st_info "Please select a cryptocurrency and a valid date range where the start date is not after the end date."))%app.

(** ** Vocabulary of the specification *)

Definition coins_url : string := "https://api.coingecko.com/api/v3/coins/list".

Definition history_request (coin_id : string) (from_timestamp to_timestamp : Z) : Request :=
  mkRequest ("https://api.coingecko.com/api/v3/coins/" +:+ coin_id +:+ "/market_chart/range")
            [("vs_currency", PStr "usd"); ("from", PInt from_timestamp); ("to", PInt to_timestamp)].

Definition Qc_of_Z (z : Z) : Qc := Q2Qc (inject_Z z).

(** A price series: date/price points in order. *)
Abbreviation PriceSeries := (list (date * Qc)) (only parsing).

(** The frame [get_coin_history] builds for a series. *)
Definition frame_of_series (series : PriceSeries) : DataFrame :=
  mkDataFrame [("price", map (λ pt, CNum pt.2) series);
               ("date", map (λ pt, CDate pt.1) series)].

(** The [prices] array of a history response: [[timestamp_ms, price]] pairs. *)
Definition json_of_prices (rows : list (Z * Qc)) : json :=
  JArr (map (λ row, JArr [JNum (Qc_of_Z row.1); JNum row.2]) rows).

(** A coin descriptor with a non-empty [id] and a non-empty [name]. *)
Definition has_id_and_name (coin : json) : bool :=
  match py_getitem coin "id", py_getitem coin "name" with
  | Returns (JStr i), Returns (JStr n) => negb (String.eqb i "") && negb (String.eqb n "")
  | _, _ => false
  end.

(** Every frame held by the history cache has the columns [date] and
    [price] and no other. *)
Definition date_price_columns (df : DataFrame) : Prop :=
  df_names df ≡ₚ ["date"; "price"].

Definition history_cache_ok (w : World) : Prop :=
  ∀ args df replay, history_cache w !! args = Some (df, replay) → date_price_columns df.

(** A fresh process whose transport answers every GET with [response]. *)
Definition fresh_world (response : Response) : World :=
  mkWorld (λ _ _, inl response) 0 [] ∅ ∅.

(** The success branch of [get_coin_history], as a function of the response. *)
Definition history_of_response (response : Response) : outcome DataFrame :=
  obind (response_json response) (λ data,
  obind (dict_get data "prices" (JArr [])) (λ prices,
  obind (pd_DataFrame prices ["timestamp"; "price"]) (λ df,
  obind (df_getitem df "timestamp") (λ timestamp,
  obind (to_datetime_ms timestamp) (λ instants,
  obind (dt_date instants) (λ dates,
  df_drop (df_setitem df "date" dates) ["timestamp"])))))).


(** The catalog answer from the counterexample to non-empty names. *)
Definition blank_catalog : json :=
  JArr [JObj [("id", JStr ""); ("symbol", JStr ""); ("name", JStr "")]].

Definition bitcoin_catalog : json :=
  JArr [JObj [("id", JStr "bitcoin"); ("symbol", JStr "btc"); ("name", JStr "Bitcoin")]].

(** The history answer of the specification's example. *)
Definition example_prices : list (Z * Qc) :=
  [(1700000000000, Qc_of_Z 100); (1700086400000, Qc_of_Z 105)].

Definition example_history : Response :=
  mkResponse 200 (Some (JObj [("prices", json_of_prices example_prices)])).

(** A process whose transport answers the catalog request with one coin
    and every other request with the example history, and a user in a UTC
    zone who keeps every default. *)
Definition example_transport (n : nat) (request : Request) : Response + exn :=
  if String.eqb (req_url request) coins_url
  then inl (mkResponse 200 (Some bitcoin_catalog))
  else inl example_history.

Definition example_world : World := mkWorld example_transport 0 [] ∅ ∅.

Definition example_session : Session :=
  mkSession (mkDate 2023 11 20) 0 None None (λ _ _, 0).

(** [i] is the first position of [l] holding the extreme [m]: nothing in
    [l] is beyond [m] ([Rle]), and everything before [i] is strictly short
    of it ([Rlt]). *)
Definition first_extreme (Rle Rlt : Qc → Qc → Prop) (l : list Qc) (i : nat) (m : Qc) : Prop :=
  l !! i = Some m ∧
  (∀ k x, l !! k = Some x → Rle x m) ∧
  (∀ k x, (k < i)%nat → l !! k = Some x → Rlt x m).

(** A series whose maximum and minimum both occur twice. *)
Definition tied_series : list (date * Qc) :=
  [(mkDate 2023 11 14, Qc_of_Z 90); (mkDate 2023 11 15, Qc_of_Z 105);
   (mkDate 2023 11 16, Qc_of_Z 105); (mkDate 2023 11 17, Qc_of_Z 90)].

(** ** Reading a decimal string back *)

Definition digit_value (c : ascii) : option Z :=
  let n := Z.of_N (N_of_ascii c) in
  if (48 <=? n) && (n <=? 57) then Some (n - 48) else None.

(** The digits before the point, and what follows the point. *)
Fixpoint scan_int (acc : Z) (s : string) : option (Z * string) :=
  match s with
  | EmptyString => None
  | String c s' =>
      if Ascii.eqb c "." then Some (acc, s')
      else match digit_value c with
           | Some d => scan_int (acc * 10 + d) s'
           | None => None
           end
  end.

(** The digits after the point, and how many they are. *)
Fixpoint scan_frac (acc : Z) (count : nat) (s : string) : option (Z * nat) :=
  match s with
  | EmptyString => Some (acc, count)
  | String c s' =>
      match digit_value c with
      | Some d => scan_frac (acc * 10 + d) (S count) s'
      | None => None
      end
  end.

(** The number a string [digits.digits] denotes. *)
Definition unsigned_decimal_value (s : string) : option Qc :=
  match scan_int 0 s with
  | Some (i, rest) =>
      match scan_frac 0 0 rest with
      | Some (f, count) =>
          let scale := 10 ^ Z.of_nat count in
          Some (Q2Qc ((i * scale + f) # Z.to_pos scale))
      | None => None
      end
  | None => None
  end.

(** The number a string [[-]digits.digits] denotes.  [float(s)] is the
    binary64 value nearest to it. *)
Definition decimal_value (s : string) : option Qc :=
  match unsigned_decimal_value s with
  | Some v => Some v
  | None =>
      match s with
      | String "-" s' => Qcopp <$> unsigned_decimal_value s'
      | _ => None
      end
  end.

Fixpoint all_digits (s : string) : bool :=
  match s with
  | EmptyString => true
  | String c s' => bool_decide (is_Some (digit_value c)) && all_digits s'
  end.

(** The finite values of IEEE 754 binary64: [m * 2^e] with a 53-bit [m]. *)
Definition pow2 (e : Z) : Qc :=
  if 0 <=? e then Qc_of_Z (2 ^ e) else Q2Qc (1 # Z.to_pos (2 ^ (- e))).

Definition is_binary64 (x : Qc) : Prop :=
  ∃ m e : Z, Z.abs m < 2 ^ 53 ∧ -1074 <= e <= 971 ∧ x = (Qc_of_Z m * pow2 e)%Qc.

(** [y] is a binary64 value nearest to [d]: what correctly rounded parsing
    of a numeral denoting [d] returns. *)
Definition nearest_binary64 (d y : Qc) : Prop :=
  is_binary64 y ∧ ∀ z, is_binary64 z → (Qcabs (y - d) <= Qcabs (z - d))%Qc.

(** One half: a binary64 value that 12 decimals render exactly. *)
Definition half : Qc := Q2Qc (1 # 2).

(** ** The Gregorian calendar, for reference *)

Definition is_leap_year (year : Z) : bool :=
  (year mod 4 =? 0) && (negb (year mod 100 =? 0) || (year mod 400 =? 0)).

Definition days_in_month (year month : Z) : Z :=
  if month =? 2 then (if is_leap_year year then 29 else 28)
  else if (month =? 4) || (month =? 6) || (month =? 9) || (month =? 11) then 30
  else 31.

(** The day after a date. *)
Definition next_day (d : date) : date :=
  let '(mkDate year month day) := d in
  if day <? days_in_month year month then mkDate year month (day + 1)
  else if month <? 12 then mkDate year (month + 1) 1
  else mkDate (year + 1) 1 1.

(** A date of the calendar. *)
Definition valid_date (d : date) : Prop :=
  let '(mkDate year month day) := d in
  1 <= month <= 12 ∧ 1 <= day <= days_in_month year month.

(** The days a [datetime64[ns]] instant can fall on: 1677-09-21 to
    2262-04-11. *)
Definition first_day : Z := -106752.
Definition last_day : Z := 106751.

(** ** Worlds and sessions for the further properties *)

(** An endpoint that fails on the first GET and answers well afterwards. *)
Definition recovering_world : World :=
  mkWorld (λ n request,
             match n with
             | O => inl (mkResponse 503 None)
             | S _ => if String.eqb (req_url request) coins_url
                      then inl (mkResponse 200 (Some bitcoin_catalog))
                      else inl example_history
             end) 0 [] ∅ ∅.

(** A host without network: every GET fails in the transport. *)
Definition offline_world : World :=
  mkWorld (λ _ _, inr RequestException) 0 [] ∅ ∅.

(** [w] with the elements [shown] added to its page. *)
Definition shown (w : World) (elements : list element) : World :=
  mkWorld (transport w) (gets w) (page w ++ elements) (coins_cache w) (history_cache w).

(** The descriptor a catalog entry carries: its [id] and its [name], when
    the entry is an object with both as strings. *)
Definition descriptor_of (coin : json) : option (string * string) :=
  match coin with
  | JObj fields =>
      match assoc "id" fields, assoc "name" fields with
      | Some (JStr i), Some (JStr n) => Some (i, n)
      | _, _ => None
      end
  | _ => None
  end.

(** [w1] is a later state of the process of [w], at most [n] GETs on: the
    transport is the same, the page and both caches have only grown. *)
Definition extends_by (n : nat) (w w1 : World) : Prop :=
  transport w1 = transport w ∧
  (gets w ≤ gets w1 ≤ gets w + n)%nat ∧
  (∃ elements, page w1 = page w ++ elements) ∧
  coins_cache w ⊆ coins_cache w1 ∧
  history_cache w ⊆ history_cache w1.

(** A computation that leaves a later state, at most [n] GETs on, whatever
    its outcome. *)
Definition grows {A : Type} (n : nat) (m : App A) : Prop :=
  ∀ w o w1, m w = (o, w1) → extends_by n w w1.

(** A user who picks a start date after the end date. *)
Definition backwards_session : Session :=
  mkSession (mkDate 2023 11 20) 0 (Some (mkDate 2023 11 21)) None (λ _ _, 0).

(** The window a run asks the history for: [start_date], [end_date],
    [from_timestamp] and [to_timestamp] of [main]. *)
Definition selected_start_date (user : Session) : date :=
  default (civil_from_days (days_from_civil (now_date user) - 365)) (picked_start user).

Definition selected_end_date (user : Session) : date :=
  default (now_date user) (picked_end user).

Definition from_timestamp_of (user : Session) : Z :=
  py_int (datetime_timestamp (local_timestamp user (selected_start_date user) 0) 0).

Definition to_timestamp_of (user : Session) : Z :=
  py_int (datetime_timestamp (local_timestamp user (selected_end_date user) 86399) 999999).

(** What [main] does with the fetched frame: the chart and the two metrics,
    or the notification that there is no data. *)
Definition show_history (name : string) (start_date end_date : date) (df : DataFrame)
  : App () :=
  (if negb (df_empty df) then
     fig <~ lift (px_line df "date" "price"
                    ("Price of " +:+ name +:+ " from " +:+ date_str start_date
                     +:+ " to " +:+ date_str end_date)
                    [("price", "Price (USD)"); ("date", "Date")]) ;;
     let fig := update_xaxes fig true in
     emit (st_plotly_chart fig) ;;;
     stats <~ lift (main_statistics df) ;;
     match max_price_date stats, min_price_date stats with
     | CDate max_date, CDate min_date =>
         emit (st_metric 1 "Maximum Price" ("$" +:+ max_price_formatted stats)
                         ("Date: " +:+ date_str max_date)) ;;;
         emit (st_metric 2 "Minimum Price" ("$" +:+ min_price_formatted stats)
                         ("Date: " +:+ date_str min_date))
     | _, _ => lift Unmodelled
     end
   else
     emit (st_error "No data available for the selected cryptocurrency and date range."))%app.

(** A process whose catalog endpoint answers with one coin and whose
    history endpoint is down. *)
Definition no_history_world : World :=
  mkWorld (λ _ request,
             if String.eqb (req_url request) coins_url
             then inl (mkResponse 200 (Some bitcoin_catalog))
             else inl (mkResponse 404 None)) 0 [] ∅ ∅.

(** A user in a UTC zone, on 1 January 2600, who keeps every default. *)
Definition far_session : Session :=
  mkSession (mkDate 2600 1 1) 0 None None (λ _ _, 0).

(** * Properties *)

(** ** Running the two function bodies *)

Lemma get_coins_list_body_not_ok (w : World) (response : Response) :
  transport w (gets w) (mkRequest coins_url []) = inl response →
  ok response = false →
  get_coins_list_body () w =
    (Returns (JArr []),
     mkWorld (transport w) (S (gets w)) (page w ++ [st_error "Error fetching the coins list."])
             (coins_cache w) (history_cache w)).
Proof.
  intros Hnet Hok. unfold get_coins_list_body, bind, requests_get.
  unfold coins_url in Hnet. rewrite Hnet, Hok. reflexivity.
Qed.

Lemma get_coins_list_body_ok (w : World) (response : Response) :
  transport w (gets w) (mkRequest coins_url []) = inl response →
  ok response = true →
  get_coins_list_body () w =
    (response_json response,
     mkWorld (transport w) (S (gets w)) (page w) (coins_cache w) (history_cache w)).
Proof.
  intros Hnet Hok. unfold get_coins_list_body, bind, requests_get.
  unfold coins_url in Hnet. rewrite Hnet, Hok. unfold lift, ret.
  destruct (response_json response); reflexivity.
Qed.

Lemma get_coin_history_body_not_ok (w : World) (response : Response)
    (coin_id : string) (from_timestamp to_timestamp : Z) :
  transport w (gets w) (history_request coin_id from_timestamp to_timestamp) = inl response →
  ok response = false →
  get_coin_history_body (coin_id, from_timestamp, to_timestamp) w =
    (Returns (pd_DataFrame_columns ["date"; "price"]),
     mkWorld (transport w) (S (gets w))
             (page w ++ [st_error ("Error fetching the historical data for " +:+ coin_id +:+ ".")])
             (coins_cache w) (history_cache w)).
Proof.
  intros Hnet Hok. unfold get_coin_history_body, bind, requests_get.
  unfold history_request in Hnet. rewrite Hnet, Hok. reflexivity.
Qed.

Lemma bind_lift {A B : Type} (o : outcome A) (k : A → App B) (w : World) :
  bind (lift o) k w =
    match o with
    | Returns a => k a w
    | Raises e => (Raises e, w)
    | Unmodelled => (Unmodelled, w)
    end.
Proof. unfold bind, lift. destruct o; reflexivity. Qed.

Lemma get_coin_history_body_ok (w : World) (response : Response)
    (coin_id : string) (from_timestamp to_timestamp : Z) :
  transport w (gets w) (history_request coin_id from_timestamp to_timestamp) = inl response →
  ok response = true →
  get_coin_history_body (coin_id, from_timestamp, to_timestamp) w =
    (history_of_response response,
     mkWorld (transport w) (S (gets w)) (page w) (coins_cache w) (history_cache w)).
Proof.
  intros Hnet Hok. unfold get_coin_history_body. unfold bind at 1. unfold requests_get.
  unfold history_request in Hnet. rewrite Hnet, Hok. unfold history_of_response.
  repeat (rewrite bind_lift;
          match goal with |- context [obind ?o _] => destruct o; simpl; try reflexivity end).
Qed.

(** ** [st.cache_data] *)

Section cache_data_facts.
Context {K V : Type} `{Countable K}.
Variable get_cache : World → gmap K (V * list element).
Variable set_cache : gmap K (V * list element) → World → World.
Variable f : K → App V.

Lemma cache_data_hit (args : K) (w : World) (v : V) (replay : list element) :
  get_cache w !! args = Some (v, replay) →
  cache_data get_cache set_cache f args w =
    (Returns v, mkWorld (transport w) (gets w) (page w ++ replay)
                        (coins_cache w) (history_cache w)).
Proof. intros Hhit. unfold cache_data. rewrite Hhit. reflexivity. Qed.

Lemma cache_data_miss_returns (args : K) (w w' : World) (v : V) :
  get_cache w !! args = None →
  f args w = (Returns v, w') →
  cache_data get_cache set_cache f args w =
    (Returns v,
     set_cache (<[args := (v, drop (length (page w)) (page w'))]> (get_cache w')) w').
Proof. intros Hmiss Hrun. unfold cache_data. rewrite Hmiss, Hrun. reflexivity. Qed.

Lemma cache_data_miss_raises (args : K) (w w' : World) (e : exn) :
  get_cache w !! args = None →
  f args w = (Raises e, w') →
  cache_data get_cache set_cache f args w = (Raises e, w').
Proof. intros Hmiss Hrun. unfold cache_data. rewrite Hmiss, Hrun. reflexivity. Qed.

(** Whatever a miss yields, the function ran with it. *)
Lemma cache_data_miss_outcome (args : K) (w : World) :
  get_cache w !! args = None →
  (cache_data get_cache set_cache f args w).1 = (f args w).1.
Proof.
  intros Hmiss. unfold cache_data. rewrite Hmiss.
  destruct (f args w) as [[v | e |] w']; reflexivity.
Qed.
End cache_data_facts.

(** Each body issues exactly one GET. *)
Lemma get_coins_list_body_gets (w : World) :
  gets (get_coins_list_body () w).2 = S (gets w).
Proof.
  unfold get_coins_list_body, bind, requests_get.
  destruct (transport w (gets w) _) as [response | e]; [| reflexivity].
  destruct (ok response); [| reflexivity].
  unfold lift, ret. destruct (response_json response); reflexivity.
Qed.

Lemma get_coins_list_body_cache (w : World) :
  coins_cache (get_coins_list_body () w).2 = coins_cache w.
Proof.
  unfold get_coins_list_body, bind, requests_get.
  destruct (transport w (gets w) _) as [response | e]; [| reflexivity].
  destruct (ok response); [| reflexivity].
  unfold lift, ret. destruct (response_json response); reflexivity.
Qed.

(** [response.ok] is false exactly on the client and server error
    statuses, 400 to 599. *)
Lemma ok_false_iff (response : Response) :
  ok response = false ↔ 400 <= status_code response < 600.
Proof.
  unfold ok. rewrite negb_false_iff, andb_true_iff, Z.leb_le, Z.ltb_lt. reflexivity.
Qed.

(** C3 as stated does not hold: a status that is not a success need not
    take the failure branch.  A 304 without a body makes [get_coins_list]
    raise, and a 301 that carries a catalog is returned like a success; in
    neither case is there a notification. *)
Lemma get_coins_list_other_status :
  (get_coins_list (fresh_world (mkResponse 304 None))).1 = Raises JSONDecodeError ∧
  page (get_coins_list (fresh_world (mkResponse 304 None))).2 = [] ∧
  (get_coins_list (fresh_world (mkResponse 301 (Some bitcoin_catalog)))).1 =
    Returns bitcoin_catalog ∧
  page (get_coins_list (fresh_world (mkResponse 301 (Some bitcoin_catalog)))).2 = [].
Proof. repeat split. Qed.

(** C3, amended.  When the catalog endpoint answers with a client or server
    error status, 400 to 599 (the statuses for which [response.ok] is false),
    [get_coins_list] does not raise: it returns the empty list, and the page
    gains exactly one element, the error notification.  One GET was
    issued. *)
Theorem get_coins_list_not_ok (w : World) (response : Response) :
  coins_cache w !! () = None →
  transport w (gets w) (mkRequest coins_url []) = inl response →
  400 <= status_code response < 600 →
  ∃ w', get_coins_list w = (Returns (JArr []), w') ∧
        page w' = page w ++ [st_error "Error fetching the coins list."] ∧
        gets w' = S (gets w).
Proof.
  intros Hmiss Hnet Hstatus. apply ok_false_iff in Hstatus as Hok. unfold get_coins_list.
  rewrite (cache_data_miss_returns _ _ _ _ _ _ _ Hmiss (get_coins_list_body_not_ok _ _ Hnet Hok)).
  eexists. split; [reflexivity |]. split; reflexivity.
Qed.

Lemma get_coins_list_not_ok_witness :
  ∃ w', get_coins_list (fresh_world (mkResponse 500 None)) = (Returns (JArr []), w') ∧
        page w' = [st_error "Error fetching the coins list."] ∧ gets w' = 1%nat.
Proof.
  apply (get_coins_list_not_ok (fresh_world (mkResponse 500 None)) (mkResponse 500 None));
    [reflexivity | reflexivity | simpl; lia].
Defined.

(** C4 as stated does not hold: a 304 without a body makes
    [get_coin_history] raise, and a 301 that carries prices is turned into a
    frame like a success; in neither case is there a notification. *)
Lemma get_coin_history_other_status :
  (get_coin_history "bitcoin" 0 1 (fresh_world (mkResponse 304 None))).1 =
    Raises JSONDecodeError ∧
  page (get_coin_history "bitcoin" 0 1 (fresh_world (mkResponse 304 None))).2 = [] ∧
  (get_coin_history "bitcoin" 0 1
     (fresh_world (mkResponse 301 (Some (JObj [("prices", json_of_prices example_prices)]))))).1 =
    Returns (frame_of_series [(mkDate 2023 11 14, Qc_of_Z 100);
                              (mkDate 2023 11 15, Qc_of_Z 105)]) ∧
  page (get_coin_history "bitcoin" 0 1
          (fresh_world
             (mkResponse 301 (Some (JObj [("prices", json_of_prices example_prices)]))))).2 = [].
Proof. vm_compute. repeat split. Qed.

(** C4, amended.  When the history endpoint answers with a client or server
    error status, 400 to 599 (the statuses for which [response.ok] is false),
    [get_coin_history] does not raise: it puts one error notification on the
    page and returns a frame without rows. *)
Theorem get_coin_history_not_ok (w : World) (response : Response)
    (coin_id : string) (from_timestamp to_timestamp : Z) :
  history_cache w !! (coin_id, from_timestamp, to_timestamp) = None →
  transport w (gets w) (history_request coin_id from_timestamp to_timestamp) = inl response →
  400 <= status_code response < 600 →
  ∃ df w', get_coin_history coin_id from_timestamp to_timestamp w = (Returns df, w') ∧
           df_len df = 0%nat ∧ df_empty df = true ∧
           page w' = page w ++
             [st_error ("Error fetching the historical data for " +:+ coin_id +:+ ".")].
Proof.
  intros Hmiss Hnet Hstatus. apply ok_false_iff in Hstatus as Hok. unfold get_coin_history.
  rewrite (cache_data_miss_returns _ _ _ _ _ _ _ Hmiss
             (get_coin_history_body_not_ok _ _ _ _ _ Hnet Hok)).
  eexists _, _. split; [reflexivity |]. repeat split; reflexivity.
Qed.

Lemma get_coin_history_not_ok_witness :
  ∃ df w', get_coin_history "bitcoin" 0 1 (fresh_world (mkResponse 404 None)) = (Returns df, w') ∧
           df_len df = 0%nat ∧ df_empty df = true ∧
           page w' = [st_error "Error fetching the historical data for bitcoin."].
Proof.
  apply (get_coin_history_not_ok (fresh_world (mkResponse 404 None)) (mkResponse 404 None));
    [reflexivity | reflexivity | simpl; lia].
Defined.

(** ** Building the frame of a history response *)

Lemma Qc_of_Z_this (z : Z) : this (Qc_of_Z z) = (z # 1)%Q.
Proof.
  unfold Qc_of_Z, Q2Qc, inject_Z. simpl. apply Qred_identity. simpl. apply Z.gcd_1_r.
Qed.

Lemma Qc_of_Z_is_int (z : Z) : Qc_is_int (Qc_of_Z z) = true.
Proof. unfold Qc_is_int. rewrite Qc_of_Z_this. reflexivity. Qed.

Lemma Qc_of_Z_num (z : Z) : Qnum (Qc_of_Z z) = z.
Proof. rewrite Qc_of_Z_this. reflexivity. Qed.

Lemma mapM_row_of_json (rows : list (Z * Qc)) :
  mapM row_of_json (map (λ row, JArr [JNum (Qc_of_Z row.1); JNum row.2]) rows) =
    Some (map (λ row, [CNum (Qc_of_Z row.1); CNum row.2]) rows).
Proof.
  induction rows as [| row rows IH]; [reflexivity |].
  cbn. cbn in IH. rewrite IH. reflexivity.
Qed.

Lemma pd_DataFrame_prices (rows : list (Z * Qc)) :
  pd_DataFrame (json_of_prices rows) ["timestamp"; "price"] =
    Returns (mkDataFrame [("timestamp", map (λ row, CNum (Qc_of_Z row.1)) rows);
                          ("price", map (λ row, CNum row.2) rows)]).
Proof.
  unfold pd_DataFrame, json_of_prices. rewrite mapM_row_of_json.
  replace (forallb _ _) with true.
  - cbn. rewrite !map_map. reflexivity.
  - symmetry. apply forallb_forall. intros r Hr. apply in_map_iff in Hr as [row [<- _]].
    reflexivity.
Qed.

Lemma to_datetime_ms_in_bounds (rows : list (Z * Qc)) :
  Forall (λ row, ns_in_bounds row.1 = true) rows →
  to_datetime_ms (map (λ row, CNum (Qc_of_Z row.1)) rows) =
    Returns (map (λ row, CTimestamp row.1) rows).
Proof.
  unfold to_datetime_ms. induction 1 as [| row rows Hrow _ IH]; [reflexivity |].
  cbn [map omapM]. rewrite IH. unfold timestamp_of_cell.
  rewrite Qc_of_Z_is_int, Qc_of_Z_num, Hrow. reflexivity.
Qed.

Lemma dt_date_timestamps (rows : list (Z * Qc)) :
  dt_date (map (λ row, CTimestamp row.1) rows) =
    Returns (map (λ row, CDate (date_of_ms row.1)) rows).
Proof.
  unfold dt_date. induction rows as [| row rows IH]; [reflexivity |].
  cbn [map omapM]. rewrite IH. reflexivity.
Qed.

Lemma history_of_response_prices (response : Response) (fields : list (string * json))
    (rows : list (Z * Qc)) :
  body response = Some (JObj fields) →
  assoc "prices" fields = Some (json_of_prices rows) →
  Forall (λ row, ns_in_bounds row.1 = true) rows →
  history_of_response response =
    Returns (frame_of_series (map (λ row, (date_of_ms row.1, row.2)) rows)).
Proof.
  intros Hbody Hprices Hbounds. unfold history_of_response, response_json.
  rewrite Hbody. cbn [obind dict_get]. rewrite Hprices. cbn [from_option id obind].
  rewrite pd_DataFrame_prices. cbn [obind]. 
  change (df_getitem _ "timestamp") with
    (Returns (A := list cell) (map (λ row : Z * Qc, CNum (Qc_of_Z row.1)) rows)).
  cbn [obind]. rewrite (to_datetime_ms_in_bounds _ Hbounds). cbn [obind].
  rewrite dt_date_timestamps. cbn [obind].
  unfold frame_of_series. rewrite !map_map. reflexivity.
Qed.

Lemma history_of_response_no_prices (response : Response) (fields : list (string * json)) :
  body response = Some (JObj fields) →
  assoc "prices" fields = None →
  history_of_response response = Returns (mkDataFrame [("price", []); ("date", [])]).
Proof.
  intros Hbody Hprices. unfold history_of_response, response_json.
  rewrite Hbody. cbn [obind dict_get]. rewrite Hprices. reflexivity.
Qed.

(** ** The calendar conversion *)

(** The quantities [civil_from_days] goes through: the 400-year era, the
    year of the era and the day of that year, both counted from 1 March,
    and the month counted from March. *)
Lemma civil_from_days_parts (n : Z) :
  ∃ era yoe doy mp : Z,
    0 <= yoe <= 399 ∧ 0 <= doy <= 365 ∧ 0 <= mp <= 11 ∧
    mp = (5 * doy + 2) / 153 ∧
    (doy = 365 → (yoe + 1) mod 4 = 0 ∧ ((yoe + 1) mod 100 ≠ 0 ∨ yoe + 1 = 400)) ∧
    n = era * 146097 + (yoe * 365 + yoe / 4 - yoe / 100 + doy) - 719468 ∧
    civil_from_days n =
      mkDate (if (if mp <? 10 then mp + 3 else mp - 9) <=? 2
              then yoe + era * 400 + 1 else yoe + era * 400)
             (if mp <? 10 then mp + 3 else mp - 9)
             (doy - (153 * mp + 2) / 5 + 1).
Proof.
  unfold civil_from_days. cbv zeta.
  set (z := n + 719468).
  set (era := z / 146097).
  set (doe := z - era * 146097).
  set (yoe := (doe - doe / 1460 + doe / 36524 - doe / 146096) / 365).
  set (doy := doe - (365 * yoe + yoe / 4 - yoe / 100)).
  set (mp := (5 * doy + 2) / 153).
  assert (Hdoe : 0 <= doe < 146097).
  { unfold doe, era. pose proof (Z.mod_pos_bound z 146097 ltac:(lia)).
    pose proof (Z.div_mod z 146097 ltac:(lia)). lia. }
  exists era, yoe, doy, mp.
  split; [unfold yoe; Z.div_mod_to_equations; lia |].
  split; [unfold doy, yoe; Z.div_mod_to_equations; lia |].
  split; [unfold mp, doy, yoe; Z.div_mod_to_equations; lia |].
  split; [reflexivity |].
  split; [unfold doy, yoe; Z.div_mod_to_equations; lia |].
  split; [unfold doy, doe, z; lia | reflexivity].
Qed.

(** The date determines the day number: [days_from_civil] undoes
    [civil_from_days]. *)
Lemma days_from_civil_civil_from_days (n : Z) : days_from_civil (civil_from_days n) = n.
Proof.
  destruct (civil_from_days_parts n)
    as (era & yoe & doy & mp & Hyoe & Hdoy & Hmp & Hmpdef & _ & Hn & ->).
  unfold days_from_civil.
  assert (Hera : (yoe + era * 400) / 400 = era) by (Z.div_mod_to_equations; lia).
  destruct (mp <? 10) eqn:Hm; [apply Z.ltb_lt in Hm | apply Z.ltb_ge in Hm].
  - replace (mp + 3 <=? 2) with false by (symmetry; apply Z.leb_gt; lia).
    rewrite Hera. replace (mp + 3 - 3) with mp by lia.
    replace (yoe + era * 400 - era * 400) with yoe by lia. lia.
  - replace (mp - 9 <=? 2) with true by (symmetry; apply Z.leb_le; lia).
    replace (yoe + era * 400 + 1 - 1) with (yoe + era * 400) by lia.
    rewrite Hera. replace (mp - 9 + 9) with mp by lia.
    replace (yoe + era * 400 - era * 400) with yoe by lia. lia.
Qed.

Lemma is_leap_year_shift (y era : Z) :
  is_leap_year (y + era * 400) = is_leap_year y.
Proof.
  unfold is_leap_year.
  replace ((y + era * 400) mod 4) with (y mod 4)
    by (replace (era * 400) with ((era * 100) * 4) by lia; rewrite Z.mod_add by lia;
        reflexivity).
  replace ((y + era * 400) mod 100) with (y mod 100)
    by (replace (era * 400) with ((era * 4) * 100) by lia; rewrite Z.mod_add by lia;
        reflexivity).
  rewrite Z.mod_add by lia. reflexivity.
Qed.

(** Every day number has a date of the calendar. *)
Lemma civil_from_days_valid (n : Z) : valid_date (civil_from_days n).
Proof.
  destruct (civil_from_days_parts n)
    as (era & yoe & doy & mp & Hyoe & Hdoy & Hmp & Hmpdef & Hleap & _ & ->).
  unfold valid_date.
  destruct (mp <? 10) eqn:Hm; [apply Z.ltb_lt in Hm | apply Z.ltb_ge in Hm].
  - (* March to December *)
    replace (mp + 3 <=? 2) with false by (symmetry; apply Z.leb_gt; lia).
    split; [lia |]. unfold days_in_month.
    assert (mp = 0 ∨ mp = 1 ∨ mp = 2 ∨ mp = 3 ∨ mp = 4 ∨ mp = 5 ∨ mp = 6 ∨ mp = 7
            ∨ mp = 8 ∨ mp = 9) as Hcases by lia.
    repeat (destruct Hcases as [Hcase | Hcases];
            [rewrite Hcase in *; simpl; Z.div_mod_to_equations; lia |]).
    rewrite Hcases in *. simpl. Z.div_mod_to_equations. lia.
  - (* January and February, of the next year *)
    replace (mp - 9 <=? 2) with true by (symmetry; apply Z.leb_le; lia).
    split; [lia |]. unfold days_in_month.
    replace (yoe + era * 400 + 1) with ((yoe + 1) + era * 400) by lia.
    rewrite is_leap_year_shift.
    assert (mp = 10 ∨ mp = 11) as [Hcase | Hcase] by lia; rewrite Hcase in *.
    + simpl. Z.div_mod_to_equations. lia.
    + simpl (11 - 9 =? 2). cbv iota.
      assert (doy ≠ 365 ∨ is_leap_year (yoe + 1) = true) as Hl.
      { destruct (Z.eq_dec doy 365) as [E | E]; [right | left; exact E].
        destruct (Hleap E) as [H4 H100]. unfold is_leap_year.
        rewrite H4. simpl.
        destruct H100 as [H100 | H400].
        - apply Z.eqb_neq in H100. rewrite H100. reflexivity.
        - rewrite H400. reflexivity. }
      destruct (is_leap_year (yoe + 1)); simpl (153 * 11 + 2);
        Z.div_mod_to_equations; destruct Hl; try discriminate; lia.
Qed.

(** A date of the calendar is the date of its day number. *)
Lemma civil_from_days_days_from_civil (d : date) :
  valid_date d → civil_from_days (days_from_civil d) = d.
Proof.
  destruct d as [year month day]. unfold valid_date. intros [Hmonth Hday].
  unfold days_from_civil.
  set (y := if month <=? 2 then year - 1 else year).
  set (era := y / 400).
  set (yoe := y - era * 400).
  set (mp := if month <=? 2 then month + 9 else month - 3).
  set (doy := (153 * mp + 2) / 5 + day - 1).
  set (doe := yoe * 365 + yoe / 4 - yoe / 100 + doy).
  assert (Hyoe : 0 <= yoe <= 399).
  { unfold yoe, era. Z.div_mod_to_equations. lia. }
  assert (Hmp : 0 <= mp <= 11 ∧ month = (if mp <? 10 then mp + 3 else mp - 9)).
  { unfold mp. destruct (Z.leb_spec month 2).
    - replace (month + 9 <? 10) with false by (symmetry; apply Z.ltb_ge; lia). lia.
    - replace (month - 3 <? 10) with true by (symmetry; apply Z.ltb_lt; lia). lia. }
  assert (Hyear : year = (if month <=? 2 then y + 1 else y)).
  { unfold y. destruct (month <=? 2); lia. }
  assert (Hleap : is_leap_year (y + 1) = is_leap_year (yoe + 1)).
  { replace (y + 1) with ((yoe + 1) + era * 400) by (unfold yoe; lia).
    apply is_leap_year_shift. }
  (* the day of the March-based year, within its month *)
  assert (Hdoy : 0 <= doy ∧ (5 * doy + 2) / 153 = mp ∧
                 (doy <= 364 ∨ (doy = 365 ∧ is_leap_year (yoe + 1) = true))).
  { unfold doy. destruct Hmp as [Hmp Hmonth'].
    unfold days_in_month in Hday. rewrite Hyear in Hday.
    assert (mp = 0 ∨ mp = 1 ∨ mp = 2 ∨ mp = 3 ∨ mp = 4 ∨ mp = 5 ∨ mp = 6 ∨ mp = 7
            ∨ mp = 8 ∨ mp = 9 ∨ mp = 10 ∨ mp = 11) as Hcases by lia.
    clearbody mp.
    repeat (destruct Hcases as [Hcase | Hcases];
            [rewrite Hcase in *; simpl in Hmonth'; subst month; simpl in Hday |- *;
             try rewrite Hleap in Hday;
             try (destruct (is_leap_year (yoe + 1)));
             (Z.div_mod_to_equations; lia) |]).
    rewrite Hcases in *; simpl in Hmonth'; subst month; simpl in Hday |- *.
    rewrite Hleap in Hday.
    destruct (is_leap_year (yoe + 1)); Z.div_mod_to_equations; lia. }
  destruct Hdoy as (Hdoy0 & Hmp' & Hdoy).
  assert (Hdoy' : doy <= 364 ∨
                  (doy = 365 ∧ (yoe + 1) mod 4 = 0 ∧
                   ((yoe + 1) mod 100 ≠ 0 ∨ (yoe + 1) mod 400 = 0))).
  { destruct Hdoy as [Hdoy | [Hdoy Hl]]; [left; exact Hdoy | right].
    split; [exact Hdoy |]. unfold is_leap_year in Hl.
    apply andb_true_iff in Hl as [H4 H100]. apply Z.eqb_eq in H4.
    split; [exact H4 |]. apply orb_true_iff in H100 as [H100 | H400].
    - left. apply negb_true_iff, Z.eqb_neq in H100. exact H100.
    - right. apply Z.eqb_eq in H400. exact H400. }
  clear Hdoy.
  assert (Hdoe : 0 <= doe <= 146096) by (unfold doe; Z.div_mod_to_equations; lia).
  assert (Hyoe' : (doe - doe / 1460 + doe / 36524 - doe / 146096) / 365 = yoe)
    by (unfold doe; Z.div_mod_to_equations; lia).
  unfold civil_from_days. cbv zeta.
  assert (Hz : (era * 146097 + doe - 719468 + 719468) / 146097 = era)
    by (Z.div_mod_to_equations; lia).
  rewrite Hz.
  replace (era * 146097 + doe - 719468 + 719468 - era * 146097) with doe by lia.
  rewrite Hyoe'.
  replace (doe - (365 * yoe + yoe / 4 - yoe / 100)) with doy by (unfold doe; lia).
  rewrite Hmp'. destruct Hmp as [_ <-].
  replace (yoe + era * 400) with y by (unfold yoe; lia).
  rewrite <- Hyear. f_equal. unfold doy. lia.
Qed.


Ltac month_cases month H :=
  assert (month = 1 ∨ month = 2 ∨ month = 3 ∨ month = 4 ∨ month = 5 ∨ month = 6 ∨
          month = 7 ∨ month = 8 ∨ month = 9 ∨ month = 10 ∨ month = 11 ∨ month = 12)
    as H by lia.

Lemma next_day_valid (d : date) : valid_date d → valid_date (next_day d).
Proof.
  destruct d as [year month day]. unfold valid_date, next_day. intros [Hmonth Hday].
  destruct (Z.ltb_spec day (days_in_month year month)); [lia |].
  destruct (Z.ltb_spec month 12).
  - split; [lia |]. unfold days_in_month.
    repeat match goal with |- context [if ?b then _ else _] => destruct b end; lia.
  - split; [lia |]. unfold days_in_month. simpl. lia.
Qed.

Lemma days_from_civil_next_day (d : date) :
  valid_date d → days_from_civil (next_day d) = days_from_civil d + 1.
Proof.
  destruct d as [year month day]. unfold valid_date, next_day. intros [Hmonth Hday].
  destruct (Z.ltb_spec day (days_in_month year month)) as [Hlt | Hge].
  - unfold days_from_civil. lia.
  - assert (Hlast : day = days_in_month year month) by lia. clear Hge Hday.
    month_cases month Hcases.
    destruct Hcases as [-> | [-> | Hcases]].
    + (* January *)
      unfold days_in_month in Hlast. simpl in Hlast |- *. subst day.
      Z.div_mod_to_equations. lia.
    + (* February: the length depends on the year *)
      unfold days_in_month, is_leap_year in Hlast. simpl in Hlast.
      unfold days_from_civil. simpl.
      destruct (Z.eqb_spec (year mod 4) 0); destruct (Z.eqb_spec (year mod 100) 0);
        destruct (Z.eqb_spec (year mod 400) 0); simpl in Hlast; subst day;
        Z.div_mod_to_equations; lia.
    + unfold days_in_month in Hlast.
      repeat (destruct Hcases as [-> | Hcases];
              [simpl in Hlast |- *; subst day; Z.div_mod_to_equations; lia |]).
      subst month. simpl in Hlast |- *. subst day. Z.div_mod_to_equations. lia.
Qed.

(** Day [n + 1] is the day after day [n] in the calendar: with day 0 on
    1970-01-01, this fixes the date of every day. *)
Lemma civil_from_days_succ (n : Z) :
  civil_from_days (n + 1) = next_day (civil_from_days n).
Proof.
  pose proof (civil_from_days_valid n) as Hvalid.
  rewrite <- (civil_from_days_days_from_civil (next_day (civil_from_days n)))
    by (apply next_day_valid, Hvalid).
  rewrite (days_from_civil_next_day _ Hvalid), days_from_civil_civil_from_days.
  reflexivity.
Qed.

Example civil_from_days_examples :
  civil_from_days 0 = mkDate 1970 1 1 ∧
  civil_from_days (-1) = mkDate 1969 12 31 ∧
  civil_from_days 11016 = mkDate 2000 2 29 ∧
  civil_from_days 11017 = mkDate 2000 3 1 ∧
  civil_from_days 19782 = mkDate 2024 2 29 ∧
  civil_from_days 47540 = mkDate 2100 2 28 ∧
  civil_from_days 47541 = mkDate 2100 3 1 ∧
  civil_from_days first_day = mkDate 1677 9 21 ∧
  civil_from_days last_day = mkDate 2262 4 11.
Proof. repeat split; reflexivity. Qed.

Lemma ns_in_bounds_day (ms : Z) :
  ns_in_bounds ms = true → first_day <= ms / ms_per_day <= last_day.
Proof.
  unfold ns_in_bounds, first_day, last_day, ms_per_day.
  rewrite andb_true_iff, !Z.leb_le. intros [Hlo Hhi].
  change (2 ^ 63 - 1) with 9223372036854775807 in *.
  Z.div_mod_to_equations. lia.
Qed.

(** Two instants of the same day have the same date: the time of day is
    cut off. *)
Lemma date_of_ms_truncates (ms : Z) :
  date_of_ms ms = date_of_ms (ms - ms mod ms_per_day) ∧
  (∀ t, 0 <= t < ms_per_day → date_of_ms (ms_per_day * (ms / ms_per_day) + t) = date_of_ms ms).
Proof.
  unfold date_of_ms, ms_per_day. split.
  - f_equal. pose proof (Z.div_mod ms 86400000 ltac:(lia)) as Hdm.
    replace (ms - ms mod 86400000) with ((ms / 86400000) * 86400000) by lia.
    rewrite Z.div_mul by lia. reflexivity.
  - intros t Ht. f_equal.
    rewrite (Z.mul_comm 86400000), Z.div_add_l by lia.
    rewrite (Z.div_small t) by lia. lia.
Qed.

(** ** The fetch functions on a success response *)

(** C2.  For a success response whose JSON object carries a [prices] array
    of [[timestamp_ms, price]] pairs, every timestamp a whole number of
    milliseconds within the range of pandas instants, [get_coin_history]
    returns the frame of the [{date, price}] points in source order, without
    the millisecond column; the date of a point is the calendar date of
    [timestamp_ms / 86400000] rounded down, the UTC day of the instant.  The
    timestamps 1700000000000 and 1700086400000 fall on 2023-11-14 and
    2023-11-15. *)
Theorem get_coin_history_prices (w : World) (response : Response)
    (fields : list (string * json)) (rows : list (Z * Qc))
    (coin_id : string) (from_timestamp to_timestamp : Z) :
  history_cache w !! (coin_id, from_timestamp, to_timestamp) = None →
  transport w (gets w) (history_request coin_id from_timestamp to_timestamp) = inl response →
  ok response = true →
  body response = Some (JObj fields) →
  assoc "prices" fields = Some (json_of_prices rows) →
  Forall (λ row, ns_in_bounds row.1 = true) rows →
  ∃ w', get_coin_history coin_id from_timestamp to_timestamp w =
          (Returns (frame_of_series
                      (map (λ row, (civil_from_days (row.1 / 86400000), row.2)) rows)), w') ∧
        page w' = page w ∧
        civil_from_days (1700000000000 / 86400000) = mkDate 2023 11 14 ∧
        civil_from_days (1700086400000 / 86400000) = mkDate 2023 11 15.
Proof.
  intros Hmiss Hnet Hok Hbody Hprices Hbounds. unfold get_coin_history.
  pose proof (get_coin_history_body_ok _ _ _ _ _ Hnet Hok) as Hrun.
  rewrite (history_of_response_prices _ _ _ Hbody Hprices Hbounds) in Hrun.
  rewrite (cache_data_miss_returns _ _ _ _ _ _ _ Hmiss Hrun).
  eexists. split; [reflexivity |]. split; [reflexivity |]. split; reflexivity.
Qed.

Lemma get_coin_history_prices_witness :
  ∃ w', get_coin_history "bitcoin" 1699920000 1700179199 (fresh_world example_history) =
          (Returns (frame_of_series [(mkDate 2023 11 14, Qc_of_Z 100);
                                     (mkDate 2023 11 15, Qc_of_Z 105)]), w') ∧
        page w' = [] ∧
        civil_from_days (1700000000000 / 86400000) = mkDate 2023 11 14 ∧
        civil_from_days (1700086400000 / 86400000) = mkDate 2023 11 15.
Proof.
  apply (get_coin_history_prices (fresh_world example_history) example_history
           [("prices", json_of_prices example_prices)] example_prices);
    try reflexivity.
  repeat constructor.
Defined.

(** C9.  For a success response whose JSON object has no [prices] field,
    [get_coin_history] returns a frame without rows; it does not raise and
    puts nothing on the page. *)
Theorem get_coin_history_no_prices (w : World) (response : Response)
    (fields : list (string * json)) (coin_id : string) (from_timestamp to_timestamp : Z) :
  history_cache w !! (coin_id, from_timestamp, to_timestamp) = None →
  transport w (gets w) (history_request coin_id from_timestamp to_timestamp) = inl response →
  ok response = true →
  body response = Some (JObj fields) →
  assoc "prices" fields = None →
  ∃ df w', get_coin_history coin_id from_timestamp to_timestamp w = (Returns df, w') ∧
           df_len df = 0%nat ∧ df_empty df = true ∧ page w' = page w.
Proof.
  intros Hmiss Hnet Hok Hbody Hprices. unfold get_coin_history.
  pose proof (get_coin_history_body_ok _ _ _ _ _ Hnet Hok) as Hrun.
  rewrite (history_of_response_no_prices _ _ Hbody Hprices) in Hrun.
  rewrite (cache_data_miss_returns _ _ _ _ _ _ _ Hmiss Hrun).
  eexists _, _. split; [reflexivity |]. repeat split; reflexivity.
Qed.

Lemma get_coin_history_no_prices_witness :
  ∃ df w', get_coin_history "bitcoin" 0 1
             (fresh_world (mkResponse 200 (Some (JObj [("market_caps", JArr [])])))) =
             (Returns df, w') ∧
           df_len df = 0%nat ∧ df_empty df = true ∧ page w' = [].
Proof.
  apply (get_coin_history_no_prices
           (fresh_world (mkResponse 200 (Some (JObj [("market_caps", JArr [])]))))
           (mkResponse 200 (Some (JObj [("market_caps", JArr [])])))
           [("market_caps", JArr [])]);
    reflexivity.
Defined.

(** C6, amended.  For a success response whose body is a JSON array,
    [get_coins_list] returns that array: the same entries, as many, in the
    same order, each unchanged.  The returned entries all have a non-empty
    [id] and [name] exactly when the entries of the response have. *)
Theorem get_coins_list_ok (w : World) (response : Response) (entries : list json) :
  coins_cache w !! () = None →
  transport w (gets w) (mkRequest coins_url []) = inl response →
  ok response = true →
  body response = Some (JArr entries) →
  ∃ coins w', get_coins_list w = (Returns (JArr coins), w') ∧
              coins = entries ∧
              length coins = length entries ∧
              forallb has_id_and_name coins = forallb has_id_and_name entries ∧
              page w' = page w.
Proof.
  intros Hmiss Hnet Hok Hbody. unfold get_coins_list.
  pose proof (get_coins_list_body_ok _ _ Hnet Hok) as Hrun.
  unfold response_json in Hrun. rewrite Hbody in Hrun.
  rewrite (cache_data_miss_returns _ _ _ _ _ _ _ Hmiss Hrun).
  eexists _, _. split; [reflexivity |]. repeat split; auto.
Qed.

Lemma get_coins_list_ok_witness :
  ∃ coins w', get_coins_list (fresh_world (mkResponse 200 (Some bitcoin_catalog))) =
                (Returns (JArr coins), w') ∧
              coins = [JObj [("id", JStr "bitcoin"); ("symbol", JStr "btc");
                             ("name", JStr "Bitcoin")]] ∧
              length coins = 1%nat ∧
              forallb has_id_and_name coins = true ∧
              page w' = [].
Proof.
  apply (get_coins_list_ok (fresh_world (mkResponse 200 (Some bitcoin_catalog)))
           (mkResponse 200 (Some bitcoin_catalog))); reflexivity.
Defined.

(** C6 as stated does not hold: an entry whose [id] and [name] are empty
    strings comes back as it was received. *)
Lemma get_coins_list_blank_names :
  ∃ coins w', get_coins_list (fresh_world (mkResponse 200 (Some blank_catalog))) =
                (Returns (JArr coins), w') ∧
              length coins = 1%nat ∧
              forallb has_id_and_name coins = false.
Proof. eexists _, _. split; [reflexivity |]. split; reflexivity. Qed.

(** C5 as stated does not hold: a success response whose body is not a
    JSON document makes [get_coins_list] raise, and one whose body is a JSON
    array makes [get_coin_history] raise. *)
Lemma fetch_raises_on_malformed_body :
  (get_coins_list (fresh_world (mkResponse 200 None))).1 = Raises JSONDecodeError ∧
  (get_coin_history "bitcoin" 0 1 (fresh_world (mkResponse 200 (Some (JArr []))))).1 =
    Raises AttributeError.
Proof. split; reflexivity. Qed.

(** C5, amended.  On a response with a client or server error status, 400
    to 599 (the statuses for which [response.ok] is false), neither fetch
    function raises: each returns its empty value (the empty list, the frame
    with columns [date] and [price] and no rows) and puts one error
    notification on the page.  Hence an exception out of a fetch function
    that got a response means the status was below 400, or 600 or above. *)
Theorem fetch_raises_only_after_ok (w : World) (catalog history : Response)
    (coin_id : string) (from_timestamp to_timestamp : Z) :
  coins_cache w !! () = None →
  history_cache w !! (coin_id, from_timestamp, to_timestamp) = None →
  transport w (gets w) (mkRequest coins_url []) = inl catalog →
  transport w (gets w) (history_request coin_id from_timestamp to_timestamp) = inl history →
  (400 <= status_code catalog < 600 →
   ∃ w', get_coins_list w = (Returns (JArr []), w') ∧
         page w' = page w ++ [st_error "Error fetching the coins list."]) ∧
  (400 <= status_code history < 600 →
   ∃ w', get_coin_history coin_id from_timestamp to_timestamp w =
           (Returns (pd_DataFrame_columns ["date"; "price"]), w') ∧
         page w' = page w ++
           [st_error ("Error fetching the historical data for " +:+ coin_id +:+ ".")]) ∧
  (∀ e, (get_coins_list w).1 = Raises e →
        status_code catalog < 400 ∨ 600 <= status_code catalog) ∧
  (∀ e, (get_coin_history coin_id from_timestamp to_timestamp w).1 = Raises e →
        status_code history < 400 ∨ 600 <= status_code history).
Proof.
  intros Hmiss1 Hmiss2 Hnet1 Hnet2.
  assert (H1 : 400 <= status_code catalog < 600 →
               ∃ w', get_coins_list w = (Returns (JArr []), w') ∧
                     page w' = page w ++ [st_error "Error fetching the coins list."]).
  { intros Hstatus. apply ok_false_iff in Hstatus as Hok. unfold get_coins_list.
    rewrite (cache_data_miss_returns _ _ _ _ _ _ _ Hmiss1
               (get_coins_list_body_not_ok _ _ Hnet1 Hok)).
    eexists. split; reflexivity. }
  assert (H2 : 400 <= status_code history < 600 →
               ∃ w', get_coin_history coin_id from_timestamp to_timestamp w =
                       (Returns (pd_DataFrame_columns ["date"; "price"]), w') ∧
                     page w' = page w ++
                       [st_error ("Error fetching the historical data for " +:+ coin_id +:+ ".")]).
  { intros Hstatus. apply ok_false_iff in Hstatus as Hok. unfold get_coin_history.
    rewrite (cache_data_miss_returns _ _ _ _ _ _ _ Hmiss2
               (get_coin_history_body_not_ok _ _ _ _ _ Hnet2 Hok)).
    eexists. split; reflexivity. }
  split; [exact H1 |]. split; [exact H2 |]. split.
  - intros e He.
    destruct (Z_lt_le_dec (status_code catalog) 400) as [? | Hlow]; [left; assumption |].
    destruct (Z_lt_le_dec (status_code catalog) 600) as [Hhigh | ?]; [| right; assumption].
    destruct (H1 (conj Hlow Hhigh)) as [w' [Hrun _]]. rewrite Hrun in He. discriminate.
  - intros e He.
    destruct (Z_lt_le_dec (status_code history) 400) as [? | Hlow]; [left; assumption |].
    destruct (Z_lt_le_dec (status_code history) 600) as [Hhigh | ?]; [| right; assumption].
    destruct (H2 (conj Hlow Hhigh)) as [w' [Hrun _]]. rewrite Hrun in He. discriminate.
Qed.

Lemma fetch_raises_only_after_ok_witness :
  (400 <= status_code (mkResponse 503 None) < 600 →
   ∃ w', get_coins_list (fresh_world (mkResponse 503 None)) = (Returns (JArr []), w') ∧
         page w' = [st_error "Error fetching the coins list."]) ∧
  (400 <= status_code (mkResponse 503 None) < 600 →
   ∃ w', get_coin_history "bitcoin" 0 1 (fresh_world (mkResponse 503 None)) =
           (Returns (pd_DataFrame_columns ["date"; "price"]), w') ∧
         page w' = [st_error "Error fetching the historical data for bitcoin."]) ∧
  (∀ e, (get_coins_list (fresh_world (mkResponse 503 None))).1 = Raises e →
        status_code (mkResponse 503 None) < 400 ∨ 600 <= status_code (mkResponse 503 None)) ∧
  (∀ e, (get_coin_history "bitcoin" 0 1 (fresh_world (mkResponse 503 None))).1 = Raises e →
        status_code (mkResponse 503 None) < 400 ∨ 600 <= status_code (mkResponse 503 None)).
Proof.
  apply (fetch_raises_only_after_ok (fresh_world (mkResponse 503 None))
           (mkResponse 503 None) (mkResponse 503 None) "bitcoin" 0 1); reflexivity.
Defined.

(** ** Memoisation of the catalog *)

(** A call that returned has left its value in the cache. *)
Lemma get_coins_list_cached (w w1 : World) (coins : json) :
  get_coins_list w = (Returns coins, w1) →
  (∃ replay, coins_cache w1 !! () = Some (coins, replay)) ∧
  (gets w1 ≤ S (gets w))%nat ∧
  (coins_cache w !! () = None → gets w1 = S (gets w)).
Proof.
  unfold get_coins_list. intros Hfirst.
  destruct (coins_cache w !! ()) as [[v replay] |] eqn:Hcache.
  - rewrite (cache_data_hit _ _ _ _ _ _ _ Hcache) in Hfirst.
    injection Hfirst as -> <-. simpl.
    split; [eauto |]. split; [lia | discriminate].
  - unfold cache_data in Hfirst. rewrite Hcache in Hfirst.
    pose proof (get_coins_list_body_gets w) as Hgets.
    destruct (get_coins_list_body () w) as [[v | e |] w'] eqn:Hrun; try discriminate.
    injection Hfirst as -> <-. simpl in Hgets |- *.
    split; [eexists; apply lookup_insert_eq |]. split; [lia | auto].
Qed.

(** C7.  Once [get_coins_list] has returned, a later call, made while the
    cache still holds what the first call left, returns the same value and
    issues no GET: it is a cache hit, whatever the transport would answer
    now.  The first call issued at most one GET, and exactly one when the
    cache was empty before it.  No entry expires: [st.cache_data] is used
    without [ttl]. *)
Theorem get_coins_list_twice (w w1 later : World) (coins : json) :
  get_coins_list w = (Returns coins, w1) →
  coins_cache later = coins_cache w1 →
  ∃ w2, get_coins_list later = (Returns coins, w2) ∧
        gets w2 = gets later ∧
        (gets w1 ≤ S (gets w))%nat ∧
        (coins_cache w !! () = None → gets w1 = S (gets w)).
Proof.
  intros Hfirst Hsame.
  destruct (get_coins_list_cached _ _ _ Hfirst) as ([replay Hcached] & Hle & Hone).
  rewrite <- Hsame in Hcached. unfold get_coins_list.
  rewrite (cache_data_hit _ _ _ _ _ _ _ Hcached).
  eexists. split; [reflexivity |]. split; [reflexivity |]. split; assumption.
Qed.

Lemma get_coins_list_twice_witness :
  ∃ w2, get_coins_list (get_coins_list (fresh_world (mkResponse 200 (Some bitcoin_catalog)))).2 =
          (Returns bitcoin_catalog, w2) ∧
        gets w2 = 1%nat ∧
        (1 ≤ 1)%nat ∧
        ((∅ : gmap () (json * list element)) !! () = None → 1%nat = 1%nat).
Proof.
  apply (get_coins_list_twice (fresh_world (mkResponse 200 (Some bitcoin_catalog)))
           (get_coins_list (fresh_world (mkResponse 200 (Some bitcoin_catalog)))).2);
    reflexivity.
Defined.

(** A call that raised left nothing in the cache: the next call goes to
    the network again. *)
Lemma get_coins_list_raise_not_cached (w w1 : World) (e : exn) :
  coins_cache w !! () = None →
  get_coins_list w = (Raises e, w1) →
  coins_cache w1 !! () = None ∧ gets (get_coins_list w1).2 = S (S (gets w)).
Proof.
  intros Hmiss. unfold get_coins_list, cache_data. rewrite Hmiss.
  pose proof (get_coins_list_body_gets w) as Hgets.
  pose proof (get_coins_list_body_cache w) as Hcache.
  destruct (get_coins_list_body () w) as [[v | e' |] w'] eqn:Hrun; try discriminate.
  intros [= -> ->]. simpl in Hgets, Hcache.
  rewrite Hcache. split; [exact Hmiss |]. rewrite Hmiss.
  pose proof (get_coins_list_body_gets w1) as Hgets1.
  destruct (get_coins_list_body () w1) as [[v | e' |] w'']; simpl in *; lia.
Qed.

(** ** The columns of the returned frame *)

Lemma pd_DataFrame_two_columns (data : json) (df : DataFrame) :
  pd_DataFrame data ["timestamp"; "price"] = Returns df →
  ∃ timestamp price, df = mkDataFrame [("timestamp", timestamp); ("price", price)].
Proof.
  unfold pd_DataFrame. destruct data; try discriminate.
  destruct (mapM row_of_json items) as [rs |]; [| discriminate].
  destruct (forallb _ rs); [| discriminate].
  intros [= <-]. eexists _, _. reflexivity.
Qed.

Lemma history_of_response_columns (response : Response) (df : DataFrame) :
  history_of_response response = Returns df →
  ∃ price dates, df = mkDataFrame [("price", price); ("date", dates)].
Proof.
  unfold history_of_response.
  destruct (response_json response) as [data | |]; try discriminate. cbn [obind].
  destruct (dict_get data "prices" (JArr [])) as [prices | |]; try discriminate. cbn [obind].
  destruct (pd_DataFrame prices ["timestamp"; "price"]) as [df0 | |] eqn:Hdf0;
    try discriminate. cbn [obind].
  apply pd_DataFrame_two_columns in Hdf0 as [timestamp [price ->]].
  change (df_getitem _ "timestamp") with (Returns (A := list cell) timestamp). cbn [obind].
  destruct (to_datetime_ms timestamp) as [instants | |]; try discriminate. cbn [obind].
  destruct (dt_date instants) as [dates | |]; try discriminate. cbn [obind].
  intros [= <-]. eexists _, _. reflexivity.
Qed.

Lemma get_coin_history_body_world (args : string * Z * Z) (w : World) :
  ∃ page', (get_coin_history_body args w).2 =
             mkWorld (transport w) (S (gets w)) page' (coins_cache w) (history_cache w).
Proof.
  destruct args as [[coin_id from_timestamp] to_timestamp].
  destruct (transport w (gets w) (history_request coin_id from_timestamp to_timestamp))
    as [response | e] eqn:Hnet.
  - destruct (ok response) eqn:Hok.
    + rewrite (get_coin_history_body_ok _ _ _ _ _ Hnet Hok). eexists. reflexivity.
    + rewrite (get_coin_history_body_not_ok _ _ _ _ _ Hnet Hok). eexists. reflexivity.
  - unfold get_coin_history_body, bind, requests_get.
    unfold history_request in Hnet. rewrite Hnet. eexists. reflexivity.
Qed.

Lemma get_coin_history_body_columns (args : string * Z * Z) (w w' : World) (df : DataFrame) :
  get_coin_history_body args w = (Returns df, w') →
  (∃ price dates, df = mkDataFrame [("price", price); ("date", dates)]) ∨
  df = mkDataFrame [("date", []); ("price", [])].
Proof.
  destruct args as [[coin_id from_timestamp] to_timestamp].
  destruct (transport w (gets w) (history_request coin_id from_timestamp to_timestamp))
    as [response | e] eqn:Hnet.
  - destruct (ok response) eqn:Hok.
    + rewrite (get_coin_history_body_ok _ _ _ _ _ Hnet Hok). intros [= Hdf _].
      left. apply (history_of_response_columns _ _ Hdf).
    + rewrite (get_coin_history_body_not_ok _ _ _ _ _ Hnet Hok). intros [= <- _].
      right. reflexivity.
  - unfold get_coin_history_body, bind, requests_get.
    unfold history_request in Hnet. rewrite Hnet. discriminate.
Qed.

Lemma date_price_getitem (df : DataFrame) :
  date_price_columns df →
  ∃ dates price, df_getitem df "date" = Returns dates ∧ df_getitem df "price" = Returns price.
Proof.
  unfold date_price_columns, df_names, df_getitem. destruct df as [cols]. simpl.
  intros Hcols. symmetry in Hcols. apply Permutation_length_2_inv in Hcols.
  destruct cols as [| [n1 c1] [| [n2 c2] [| ? ?]]];
    destruct Hcols as [Hcols | Hcols]; try discriminate;
    injection Hcols as -> ->; eexists _, _; split; reflexivity.
Qed.

Lemma fresh_world_cache_ok (response : Response) : history_cache_ok (fresh_world response).
Proof. intros args df replay Hin. simpl in Hin. rewrite lookup_empty in Hin. discriminate. Qed.

(** C10.  Starting from a cache whose frames have the columns [date] and
    [price], every frame [get_coin_history] returns (from the cache, from a
    success response with or without prices, or after a failed request) has
    exactly the columns [date] and [price], so [df['date']] and
    [df['price']] succeed; and the cache keeps the property. *)
Theorem get_coin_history_columns (w w' : World) (df : DataFrame)
    (coin_id : string) (from_timestamp to_timestamp : Z) :
  history_cache_ok w →
  get_coin_history coin_id from_timestamp to_timestamp w = (Returns df, w') →
  df_names df ≡ₚ ["date"; "price"] ∧
  (∃ dates price, df_getitem df "date" = Returns dates ∧ df_getitem df "price" = Returns price) ∧
  history_cache_ok w'.
Proof.
  intros Hinv Hrun.
  assert (Hcols : date_price_columns df ∧ history_cache_ok w').
  { revert Hrun. unfold get_coin_history, cache_data.
    destruct (history_cache w !! _) as [[v replay] |] eqn:Hcache.
    - intros [= <- <-]. split; [apply (Hinv _ _ _ Hcache) | exact Hinv].
    - pose proof (get_coin_history_body_world (coin_id, from_timestamp, to_timestamp) w)
        as [page' Hworld].
      destruct (get_coin_history_body _ w) as [[v | e |] w0] eqn:Hbody; try discriminate.
      intros [= <- <-]. simpl in Hworld. subst w0.
      assert (Hv : date_price_columns v).
      { apply get_coin_history_body_columns in Hbody as [[price [dates ->]] | ->];
          unfold date_price_columns; simpl; [apply Permutation_swap | reflexivity]. }
      split; [exact Hv |].
      intros args df' replay'. simpl.
      destruct (decide (args = (coin_id, from_timestamp, to_timestamp))) as [-> | Hne].
      + rewrite lookup_insert_eq. intros [= <- _]. exact Hv.
      + rewrite lookup_insert_ne by congruence. apply Hinv. }
  destruct Hcols as [Hcols Hinv']. split; [exact Hcols |]. split; [| exact Hinv'].
  apply date_price_getitem, Hcols.
Qed.

Lemma get_coin_history_columns_witness :
  df_names (frame_of_series [(mkDate 2023 11 14, Qc_of_Z 100); (mkDate 2023 11 15, Qc_of_Z 105)])
    ≡ₚ ["date"; "price"] ∧
  (∃ dates price,
     df_getitem (frame_of_series [(mkDate 2023 11 14, Qc_of_Z 100);
                                  (mkDate 2023 11 15, Qc_of_Z 105)]) "date" = Returns dates ∧
     df_getitem (frame_of_series [(mkDate 2023 11 14, Qc_of_Z 100);
                                  (mkDate 2023 11 15, Qc_of_Z 105)]) "price" = Returns price) ∧
  history_cache_ok (get_coin_history "bitcoin" 0 1 (fresh_world example_history)).2.
Proof.
  apply (get_coin_history_columns (fresh_world example_history) _ _ "bitcoin" 0 1).
  - apply fresh_world_cache_ok.
  - reflexivity.
Defined.

(** ** Maximum and minimum of a series *)

Lemma Qc_ltb_true (x y : Qc) : Qc_ltb x y = true → (x < y)%Qc.
Proof.
  unfold Qc_ltb. destruct (x ?= y)%Qc eqn:Hc; try discriminate.
  intros _. apply Qclt_alt. exact Hc.
Qed.

Lemma Qc_ltb_false (x y : Qc) : Qc_ltb x y = false → (y <= x)%Qc.
Proof.
  unfold Qc_ltb. destruct (x ?= y)%Qc eqn:Hc; try discriminate; intros _.
  - apply Qceq_alt in Hc. subst y. apply Qcle_refl.
  - apply Qclt_le_weak. apply Qcgt_alt in Hc. exact Hc.
Qed.

Section scan_facts.
Variable better : Qc → Qc → bool.
Variables Rle Rlt : Qc → Qc → Prop.
Hypothesis better_true : ∀ best x, better best x = true → Rlt best x.
Hypothesis better_false : ∀ best x, better best x = false → Rle x best.
Hypothesis Rle_refl : ∀ x, Rle x x.
Hypothesis Rlt_Rle : ∀ x y, Rlt x y → Rle x y.
Hypothesis Rle_Rlt : ∀ x y z, Rle x y → Rlt y z → Rlt x z.

(** The scan keeps the first extreme of what it has read. *)
Lemma arg_scan_first_extreme (l pre : list Qc) (best : Qc) (best_i : nat) :
  first_extreme Rle Rlt pre best_i best →
  first_extreme Rle Rlt (pre ++ l)
    (arg_scan better best best_i (length pre) l) (scan better best l).
Proof.
  revert pre best best_i.
  induction l as [| x l IH]; intros pre best best_i (Hat & Hall & Hbefore).
  - rewrite app_nil_r. repeat split; assumption.
  - assert (Hi : (best_i < length pre)%nat) by (eapply lookup_lt_Some; eassumption).
    replace (pre ++ x :: l) with ((pre ++ [x]) ++ l) by (rewrite <- app_assoc; reflexivity).
    cbn [arg_scan scan fold_left].
    replace (S (length pre)) with (length (pre ++ [x]))
      by (rewrite length_app; simpl; lia).
    destruct (better best x) eqn:Hb; apply IH.
    + (* [x] displaces [best] *)
      apply better_true in Hb. repeat split.
      * rewrite lookup_app_r by lia. rewrite Nat.sub_diag. reflexivity.
      * intros k y Hk. apply lookup_app_Some in Hk as [Hk | [_ Hk]].
        -- apply Rlt_Rle. eapply Rle_Rlt; [eapply Hall; eassumption | exact Hb].
        -- apply list_lookup_singleton_Some in Hk as [_ <-]. apply Rle_refl.
      * intros k y Hlt Hk. rewrite lookup_app_l in Hk by lia.
        eapply Rle_Rlt; [eapply Hall; eassumption | exact Hb].
    + (* [best] stays *)
      apply better_false in Hb. repeat split.
      * rewrite lookup_app_l by lia. exact Hat.
      * intros k y Hk. apply lookup_app_Some in Hk as [Hk | [_ Hk]].
        -- eapply Hall; eassumption.
        -- apply list_lookup_singleton_Some in Hk as [_ <-]. exact Hb.
      * intros k y Hlt Hk. rewrite lookup_app_l in Hk by lia.
        eapply Hbefore; eassumption.
Qed.

Lemma arg_scan_head (x : Qc) (l : list Qc) :
  first_extreme Rle Rlt (x :: l) (arg_scan better x 0 1 l) (scan better x l).
Proof.
  apply (arg_scan_first_extreme l [x] x 0). repeat split.
  - intros [| k] y; simpl; [intros [= <-]; apply Rle_refl | discriminate].
  - intros k y Hlt. lia.
Qed.
End scan_facts.

Lemma argmax_first (x : Qc) (l : list Qc) :
  first_extreme Qcle Qclt (x :: l)
    (argmax_from x 0 1 l) (scan (λ best y, Qc_ltb best y) x l).
Proof.
  apply arg_scan_head.
  - intros best y. apply Qc_ltb_true.
  - intros best y. apply Qc_ltb_false.
  - apply Qcle_refl.
  - intros a b. apply Qclt_le_weak.
  - intros a b c. apply Qcle_lt_trans.
Qed.

Lemma argmin_first (x : Qc) (l : list Qc) :
  first_extreme (λ y m, m <= y)%Qc (λ y m, m < y)%Qc (x :: l)
    (argmin_from x 0 1 l) (scan (λ best y, Qc_ltb y best) x l).
Proof.
  apply arg_scan_head.
  - intros best y. apply Qc_ltb_true.
  - intros best y. apply Qc_ltb_false.
  - apply Qcle_refl.
  - intros a b. apply Qclt_le_weak.
  - intros a b c Hab Hbc. eapply Qclt_le_trans; eassumption.
Qed.

(** ** The statistics block of [main] *)

Lemma numbers_of_prices (series : PriceSeries) :
  numbers_of (map (λ pt, CNum pt.2) series) = Some (map snd series).
Proof.
  unfold numbers_of. induction series as [| pt series IH]; [reflexivity |].
  cbn. cbn in IH. rewrite IH. reflexivity.
Qed.

Lemma df_loc_frame_of_series (series : PriceSeries) (i : nat) (d : date) (p : Qc) :
  series !! i = Some (d, p) →
  df_loc (frame_of_series series) i = Returns [("price", CNum p); ("date", CDate d)].
Proof.
  intros Hi. unfold df_loc, frame_of_series. cbn.
  rewrite !list_lookup_fmap, Hi. reflexivity.
Qed.

Lemma lookup_snd_series (series : PriceSeries) (i : nat) (p : Qc) :
  map snd series !! i = Some p → ∃ d, series !! i = Some (d, p).
Proof.
  rewrite list_lookup_fmap. destruct (series !! i) as [[d p'] |]; [| discriminate].
  intros [= <-]. eauto.
Qed.

(** C1.  For a series that is not empty, the statistics block of [main]
    returns the maximum price and the minimum price with the dates of the
    points that carry them; every price of the series lies between the two;
    and every point before the reported maximum (minimum) has a strictly
    smaller (greater) price, so among equal extremes the first point in
    series order is the one reported. *)
Theorem main_statistics_first_extremes (series : PriceSeries) :
  series ≠ [] →
  ∃ imax imin dmax pmax dmin pmin,
    main_statistics (frame_of_series series) =
      Returns (mkStatistics (CDate dmax) (CDate dmin) pmax pmin
                            (format_12f pmax) (format_12f pmin)) ∧
    series !! imax = Some (dmax, pmax) ∧
    series !! imin = Some (dmin, pmin) ∧
    (∀ k d p, series !! k = Some (d, p) → (p <= pmax)%Qc ∧ (pmin <= p)%Qc) ∧
    (∀ k d p, series !! k = Some (d, p) → (k < imax)%nat → (p < pmax)%Qc) ∧
    (∀ k d p, series !! k = Some (d, p) → (k < imin)%nat → (pmin < p)%Qc).
Proof.
  intros Hne. destruct series as [| pt0 rest] eqn:Hseries; [congruence |].
  rewrite <- Hseries. clear Hne.
  pose proof (argmax_first pt0.2 (map snd rest)) as (Hmax_at & Hmax_all & Hmax_before).
  pose proof (argmin_first pt0.2 (map snd rest)) as (Hmin_at & Hmin_all & Hmin_before).
  set (imax := argmax_from pt0.2 0 1 (map snd rest)) in *.
  set (imin := argmin_from pt0.2 0 1 (map snd rest)) in *.
  set (pmax := scan (λ best y, Qc_ltb best y) pt0.2 (map snd rest)) in *.
  set (pmin := scan (λ best y, Qc_ltb y best) pt0.2 (map snd rest)) in *.
  change (pt0.2 :: map snd rest) with (map snd (pt0 :: rest)) in *.
  rewrite <- Hseries in *.
  destruct (lookup_snd_series _ _ _ Hmax_at) as [dmax Hdmax].
  destruct (lookup_snd_series _ _ _ Hmin_at) as [dmin Hdmin].
  exists imax, imin, dmax, pmax, dmin, pmin.
  assert (Hsnd : ∀ k d p, series !! k = Some (d, p) → map snd series !! k = Some p).
  { intros k d p Hk. rewrite list_lookup_fmap, Hk. reflexivity. }
  split; [| split; [exact Hdmax | split; [exact Hdmin | split; [| split]]]].
  - unfold main_statistics.
    change (df_getitem (frame_of_series series) "price")
      with (Returns (A := list cell) (map (λ pt, CNum pt.2) series)).
    cbn [obind]. unfold idxmax, idxmin, series_max, series_min.
    rewrite numbers_of_prices.
    replace (map snd series) with (pt0.2 :: map snd rest) by (rewrite Hseries; reflexivity).
    cbn [obind]. fold imax imin pmax pmin.
    rewrite (df_loc_frame_of_series _ _ _ _ Hdmax), (df_loc_frame_of_series _ _ _ _ Hdmin).
    reflexivity.
  - intros k d p Hk. split; [eapply Hmax_all | eapply Hmin_all]; eauto.
  - intros k d p Hk Hlt. eapply Hmax_before; eauto.
  - intros k d p Hk Hlt. eapply Hmin_before; eauto.
Qed.

Lemma main_statistics_first_extremes_witness :
  ∃ imax imin dmax pmax dmin pmin,
    main_statistics (frame_of_series tied_series) =
      Returns (mkStatistics (CDate dmax) (CDate dmin) pmax pmin
                            (format_12f pmax) (format_12f pmin)) ∧
    tied_series !! imax = Some (dmax, pmax) ∧
    tied_series !! imin = Some (dmin, pmin) ∧
    (∀ k d p, tied_series !! k = Some (d, p) → (p <= pmax)%Qc ∧ (pmin <= p)%Qc) ∧
    (∀ k d p, tied_series !! k = Some (d, p) → (k < imax)%nat → (p < pmax)%Qc) ∧
    (∀ k d p, tied_series !! k = Some (d, p) → (k < imin)%nat → (pmin < p)%Qc).
Proof. apply (main_statistics_first_extremes tied_series). discriminate. Defined.

(** The two examples of the specification, and one with ties on both
    sides: the first of the equal maxima and the first of the equal minima
    are reported. *)
Example main_statistics_three_points :
  main_statistics (frame_of_series [(mkDate 2023 11 14, Qc_of_Z 100);
                                    (mkDate 2023 11 15, Qc_of_Z 105);
                                    (mkDate 2023 11 16, Qc_of_Z 90)]) =
    Returns (mkStatistics (CDate (mkDate 2023 11 15)) (CDate (mkDate 2023 11 16))
                          (Qc_of_Z 105) (Qc_of_Z 90)
                          "105.000000000000" "90.000000000000").
Proof. reflexivity. Qed.

Example main_statistics_tied_maximum :
  main_statistics (frame_of_series [(mkDate 2023 11 14, Qc_of_Z 100);
                                    (mkDate 2023 11 15, Qc_of_Z 100)]) =
    Returns (mkStatistics (CDate (mkDate 2023 11 14)) (CDate (mkDate 2023 11 14))
                          (Qc_of_Z 100) (Qc_of_Z 100)
                          "100.000000000000" "100.000000000000").
Proof. reflexivity. Qed.

Example main_statistics_tied_series :
  main_statistics (frame_of_series tied_series) =
    Returns (mkStatistics (CDate (mkDate 2023 11 15)) (CDate (mkDate 2023 11 14))
                          (Qc_of_Z 105) (Qc_of_Z 90)
                          "105.000000000000" "90.000000000000").
Proof. reflexivity. Qed.

(** ** Formatting to 12 decimals *)

Lemma round_half_even_bound (n d : Z) :
  0 < d → 2 * Z.abs (round_half_even n d * d - n) <= d.
Proof.
  intros Hd. unfold round_half_even.
  pose proof (Z.div_mod n d ltac:(lia)) as Hdm.
  pose proof (Z.mod_pos_bound n d Hd) as Hmod.
  destruct (2 * (n mod d) <? d) eqn:H1; [apply Z.ltb_lt in H1; lia |].
  apply Z.ltb_ge in H1.
  destruct (d <? 2 * (n mod d)) eqn:H2; [apply Z.ltb_lt in H2; lia |].
  apply Z.ltb_ge in H2.
  destruct (Z.even (n / d)); lia.
Qed.

Lemma round_half_even_nonneg (n d : Z) : 0 <= n → 0 < d → 0 <= round_half_even n d.
Proof.
  intros Hn Hd. unfold round_half_even.
  assert (0 <= n / d) by (apply Z.div_pos; lia).
  repeat match goal with |- context [if ?b then _ else _] => destruct b end; lia.
Qed.

Lemma digit_value_digit_char (d : Z) :
  0 <= d < 10 → digit_value (digit_char d) = Some d ∧ Ascii.eqb (digit_char d) "." = false.
Proof.
  intros Hd.
  assert (d = 0 ∨ d = 1 ∨ d = 2 ∨ d = 3 ∨ d = 4 ∨ d = 5 ∨ d = 6 ∨ d = 7 ∨ d = 8 ∨ d = 9)
    as Hcases by lia.
  repeat (destruct Hcases as [-> | Hcases]; [split; reflexivity |]).
  subst d. split; reflexivity.
Qed.

Lemma digit_value_pretty_N_char (x : N) :
  (x < 10)%N →
  digit_value (pretty_N_char x) = Some (Z.of_N x) ∧ Ascii.eqb (pretty_N_char x) "." = false.
Proof.
  intros Hx.
  assert (x = 0 ∨ x = 1 ∨ x = 2 ∨ x = 3 ∨ x = 4 ∨ x = 5 ∨ x = 6 ∨ x = 7 ∨ x = 8 ∨ x = 9)%N
    as Hcases by lia.
  repeat (destruct Hcases as [-> | Hcases]; [split; reflexivity |]).
  subst x. split; reflexivity.
Qed.

Lemma append_cons (c : ascii) (s t : string) : String c s +:+ t = String c (s +:+ t).
Proof. reflexivity. Qed.

Lemma append_assoc (a b c : string) : (a +:+ b) +:+ c = a +:+ (b +:+ c).
Proof.
  induction a as [| ch a IH]; [reflexivity |].
  rewrite !append_cons, IH. reflexivity.
Qed.

Lemma length_append (a b : string) :
  String.length (a +:+ b) = (String.length a + String.length b)%nat.
Proof.
  induction a as [| ch a IH]; [reflexivity |].
  rewrite append_cons. simpl. rewrite IH. reflexivity.
Qed.

Lemma length_fixed_digits (width : nat) (n : Z) :
  String.length (fixed_digits width n) = width.
Proof.
  revert n. induction width as [| width IH]; intros n; [reflexivity |].
  cbn [fixed_digits]. rewrite length_append, IH. simpl. lia.
Qed.

Lemma scan_frac_fixed_digits (width : nat) (n acc : Z) (count : nat) (s : string) :
  scan_frac acc count (fixed_digits width n +:+ s) =
    scan_frac (acc * 10 ^ Z.of_nat width + n mod 10 ^ Z.of_nat width) (count + width) s.
Proof.
  revert n s. induction width as [| width IH]; intros n s.
  - cbn [fixed_digits]. simpl. rewrite Z.mod_1_r, Nat.add_0_r. f_equal. lia.
  - cbn [fixed_digits]. rewrite append_assoc, IH, append_cons. cbn [scan_frac].
    destruct (digit_value_digit_char (n mod 10)) as [-> _];
      [apply Z.mod_pos_bound; lia |].
    replace (S (count + width)) with (count + S width)%nat by lia.
    f_equal.
    rewrite Nat2Z.inj_succ, Z.pow_succ_r by lia.
    rewrite (Z.mul_comm 10 (10 ^ Z.of_nat width)).
    assert (0 < 10 ^ Z.of_nat width) by (apply Z.pow_pos_nonneg; lia).
    rewrite (Z.mul_comm (10 ^ Z.of_nat width) 10).
    rewrite Z.rem_mul_r by lia. lia.
Qed.

Lemma append_nil_r (s : string) : s +:+ "" = s.
Proof. induction s as [| c s IH]; [reflexivity |]. rewrite append_cons, IH. reflexivity. Qed.

Lemma all_digits_append (a b : string) :
  all_digits (a +:+ b) = all_digits a && all_digits b.
Proof.
  induction a as [| c a IH]; [reflexivity |].
  rewrite append_cons. cbn [all_digits]. rewrite IH, andb_assoc. reflexivity.
Qed.

Lemma all_digits_fixed_digits (width : nat) (n : Z) : all_digits (fixed_digits width n) = true.
Proof.
  revert n. induction width as [| width IH]; intros n; [reflexivity |].
  cbn [fixed_digits]. rewrite all_digits_append, IH. cbn [all_digits].
  destruct (digit_value_digit_char (n mod 10)) as [-> _]; [apply Z.mod_pos_bound; lia |].
  reflexivity.
Qed.

(** stdpp's [pretty] prints the digits of a number in front of what is
    already there. *)
Lemma pretty_N_go_app (x : N) (s t : string) :
  pretty_N_go x s +:+ t = pretty_N_go x (s +:+ t).
Proof.
  revert s. induction (N.lt_wf_0 x) as [x _ IH]. intros s.
  destruct (decide (x = 0)%N) as [-> | Hx]; [rewrite !pretty_N_go_0; reflexivity |].
  rewrite (pretty_N_go_step x s), (pretty_N_go_step x (s +:+ t)) by lia.
  rewrite IH by (apply N.div_lt; lia). reflexivity.
Qed.

Lemma scan_int_pretty_N_go (x : N) :
  ∃ k : Z, 0 <= k ∧
    ∀ acc s, scan_int acc (pretty_N_go x s) = scan_int (acc * 10 ^ k + Z.of_N x) s.
Proof.
  induction (N.lt_wf_0 x) as [x _ IH].
  destruct (decide (x = 0)%N) as [-> | Hx].
  - exists 0. split; [lia |]. intros acc s. rewrite pretty_N_go_0. f_equal. simpl. lia.
  - destruct (IH (x `div` 10)%N) as (k & Hk & Hscan); [apply N.div_lt; lia |].
    exists (k + 1). split; [lia |]. intros acc s.
    rewrite pretty_N_go_step by lia. rewrite Hscan. cbn [scan_int].
    destruct (digit_value_pretty_N_char (x `mod` 10)%N) as [-> ->];
      [apply N.mod_lt; lia |].
    f_equal. rewrite Z.pow_add_r by lia.
    pose proof (N.div_mod x 10 ltac:(lia)) as Hdm.
    rewrite N2Z.inj_div, N2Z.inj_mod. 
    pose proof (Z.div_mod (Z.of_N x) 10 ltac:(lia)). 
    change (Z.of_N 10) with 10. lia.
Qed.

Lemma scan_int_pretty (z : Z) (rest : string) :
  0 <= z → scan_int 0 (pretty z +:+ "." +:+ rest) = Some (z, rest).
Proof.
  intros Hz. destruct z as [| p | p]; [reflexivity | | lia].
  change (pretty (Z.pos p)) with (pretty_N_go (N.pos p) "").
  rewrite pretty_N_go_app.
  destruct (scan_int_pretty_N_go (N.pos p)) as (k & _ & ->).
  reflexivity.
Qed.

Lemma unsigned_decimal_value_digits (ip fp : Z) :
  0 <= ip →
  unsigned_decimal_value (pretty ip +:+ "." +:+ fixed_digits 12 fp) =
    Some (Q2Qc ((ip * 10 ^ 12 + fp mod 10 ^ 12) # 1000000000000)).
Proof.
  intros Hip. unfold unsigned_decimal_value. rewrite (scan_int_pretty _ _ Hip).
  rewrite <- (append_nil_r (fixed_digits 12 fp)), scan_frac_fixed_digits.
  cbn [scan_frac]. change (Z.of_nat (0 + 12)) with 12. change (Z.of_nat 12) with 12.
  change (Z.to_pos (10 ^ 12)) with 1000000000000%positive.
  rewrite Z.mul_0_l, Z.add_0_l. reflexivity.
Qed.

(** The number the formatted string denotes: the scaled value rounded to an
    integer, over 10^12, with the sign of the price. *)
Lemma decimal_value_format_12f (x : Qc) :
  let scaled := round_half_even (Z.abs (Qnum x) * 10 ^ 12) (Z.pos (Qden x)) in
  decimal_value (format_12f x) =
    Some (if Qnum x <? 0 then (- Q2Qc (scaled # 1000000000000))%Qc
          else Q2Qc (scaled # 1000000000000)).
Proof.
  intros scaled. unfold format_12f. fold scaled.
  assert (Hscaled : 0 <= scaled).
  { apply round_half_even_nonneg; [| lia].
    apply Z.mul_nonneg_nonneg; [apply Z.abs_nonneg | lia]. }
  assert (Hip : 0 <= scaled / 10 ^ 12) by (apply Z.div_pos; lia).
  pose proof (unsigned_decimal_value_digits _ (scaled mod 10 ^ 12) Hip) as Hu.
  rewrite Z.mod_mod in Hu by lia.
  replace (scaled / 10 ^ 12 * 10 ^ 12 + scaled mod 10 ^ 12) with scaled in Hu
    by (pose proof (Z.div_mod scaled (10 ^ 12) ltac:(lia)); lia).
  destruct (Qnum x <? 0).
  - unfold decimal_value. rewrite append_cons.
    change (unsigned_decimal_value (String "-" _)) with (@None Qc).
    change ("" +:+ ?s) with s. rewrite Hu. reflexivity.
  - unfold decimal_value. change ("" +:+ ?s) with s. rewrite Hu. reflexivity.
Qed.

Lemma Q_rounding_error (n r : Z) (D P : positive) :
  2 * Z.abs (r * Z.pos D - n * Z.pos P) <= Z.pos D →
  (Qabs ((r # P) - (n # D)) <= 1 # (2 * P))%Q.
Proof.
  intros Hr. apply Qabs_Qle_condition. unfold Qle, Qminus, Qplus, Qopp. simpl.
  rewrite !Pos2Z.inj_mul.
  set (d := Z.pos D) in *. set (p := Z.pos P) in *.
  assert (0 < d) by (unfold d; lia). assert (0 < p) by (unfold p; lia).
  split; nia.
Qed.

Lemma this_Qcabs_minus (a b : Qc) : (this (Qcabs (a - b)) == Qabs (this a - this b))%Q.
Proof.
  unfold Qcabs, Qcminus, Qcplus, Qcopp, Q2Qc. cbn [this].
  rewrite !Qred_correct. reflexivity.
Qed.

Lemma format_12f_error (x d : Qc) :
  decimal_value (format_12f x) = Some d →
  (Qcabs (d - x) <= Q2Qc (1 # 2000000000000))%Qc.
Proof.
  rewrite decimal_value_format_12f. intros [= <-].
  set (scaled := round_half_even _ _).
  pose proof (round_half_even_bound (Z.abs (Qnum x) * 10 ^ 12) (Z.pos (Qden x))
                ltac:(lia)) as Hb.
  fold scaled in Hb.
  destruct x as [[n D] Hc]. cbn [this Qnum Qden] in *.
  change (10 ^ 12) with 1000000000000 in Hb.
  unfold Qcle. rewrite this_Qcabs_minus.
  destruct (n <? 0) eqn:Hn.
  - apply Z.ltb_lt in Hn. unfold Qcopp, Q2Qc. cbn [this]. rewrite !Qred_correct.
    setoid_replace (- (scaled # 1000000000000) - (n # D))%Q
      with (- ((scaled # 1000000000000) - (- n # D)))%Q using relation Qeq
      by (unfold Qeq, Qminus, Qplus, Qopp; simpl; lia).
    rewrite Qabs_opp.
    apply (Q_rounding_error (- n) scaled D 1000000000000).
    replace (Z.abs n) with (- n) in Hb by lia. exact Hb.
  - apply Z.ltb_ge in Hn. unfold Q2Qc. cbn [this]. rewrite !Qred_correct.
    apply (Q_rounding_error n scaled D 1000000000000).
    replace (Z.abs n) with n in Hb by lia. exact Hb.
Qed.

Lemma all_digits_pretty_N_go (x : N) (s : string) :
  all_digits s = true → all_digits (pretty_N_go x s) = true.
Proof.
  revert s. induction (N.lt_wf_0 x) as [x _ IH]. intros s Hs.
  destruct (decide (x = 0)%N) as [-> | Hx]; [rewrite pretty_N_go_0; exact Hs |].
  rewrite pretty_N_go_step by lia. apply IH; [apply N.div_lt; lia |].
  cbn [all_digits].
  destruct (digit_value_pretty_N_char (x `mod` 10)%N) as [-> _]; [apply N.mod_lt; lia |].
  exact Hs.
Qed.

Lemma all_digits_pretty (z : Z) : 0 <= z → all_digits (pretty z) = true.
Proof.
  intros Hz. destruct z as [| p | p]; [reflexivity | | lia].
  change (pretty (Z.pos p)) with (pretty_N_go (N.pos p) "").
  apply all_digits_pretty_N_go. reflexivity.
Qed.

Lemma main_statistics_formatted (df : DataFrame) (stats : Statistics) :
  main_statistics df = Returns stats →
  max_price_formatted stats = format_12f (max_price stats) ∧
  min_price_formatted stats = format_12f (min_price stats).
Proof.
  unfold main_statistics.
  repeat match goal with
         | |- obind ?o _ = _ → _ => destruct o; cbn [obind]; try discriminate
         end.
  intros [= <-]. split; reflexivity.
Qed.

(** C8.  The maximum and minimum prices shown are the prices formatted by
    [format_12f].  For a binary64 price [x] the formatted string is an
    optional sign, digits, a point and exactly 12 digits; the number it
    denotes is within 5e-13 of [x]; and any binary64 value [y] nearest to
    that number, which is what parsing the string as a float returns, is
    within 1e-12 of [x]. *)
Theorem format_12f_round_trip (x y : Qc) :
  is_binary64 x →
  (∀ d, decimal_value (format_12f x) = Some d → nearest_binary64 d y) →
  ∃ sign int_part frac_part d,
    format_12f x = sign +:+ int_part +:+ "." +:+ frac_part ∧
    (sign = "" ∨ sign = "-") ∧
    all_digits int_part = true ∧
    String.length frac_part = 12%nat ∧
    all_digits frac_part = true ∧
    decimal_value (format_12f x) = Some d ∧
    (Qcabs (d - x) <= Q2Qc (1 # 2000000000000))%Qc ∧
    (Qcabs (y - x) <= Q2Qc (1 # 1000000000000))%Qc ∧
    (∀ df stats, main_statistics df = Returns stats →
       max_price_formatted stats = format_12f (max_price stats) ∧
       min_price_formatted stats = format_12f (min_price stats)).
Proof.
  intros Hx Hy.
  pose proof (decimal_value_format_12f x) as Hd. cbv zeta in Hd.
  set (scaled := round_half_even (Z.abs (Qnum x) * 10 ^ 12) (Z.pos (Qden x))) in *.
  assert (Hscaled : 0 <= scaled).
  { apply round_half_even_nonneg; [| lia].
    apply Z.mul_nonneg_nonneg; [apply Z.abs_nonneg | lia]. }
  pose proof (format_12f_error _ _ Hd) as Herr.
  destruct (Hy _ Hd) as [_ Hnear]. specialize (Hnear x Hx).
  eexists (if Qnum x <? 0 then "-" else ""), (pretty (scaled / 10 ^ 12)),
          (fixed_digits 12 (scaled mod 10 ^ 12)), _.
  split; [reflexivity |].
  split; [destruct (Qnum x <? 0); auto |].
  split; [apply all_digits_pretty, Z.div_pos; lia |].
  split; [apply length_fixed_digits |].
  split; [apply all_digits_fixed_digits |].
  split; [exact Hd |].
  split; [exact Herr |].
  split; [| apply main_statistics_formatted].
  set (d := if Qnum x <? 0 then _ else _) in *.
  replace (y - x)%Qc with ((y - d) + (d - x))%Qc by ring.
  eapply Qcle_trans; [apply Qcabs_triangle |].
  replace (Q2Qc (1 # 1000000000000))
    with (Q2Qc (1 # 2000000000000) + Q2Qc (1 # 2000000000000))%Qc
    by (apply Qc_is_canon; reflexivity).
  apply Qcplus_le_compat; [| exact Herr].
  eapply Qcle_trans; [exact Hnear |]. rewrite Qcabs_Qcminus. exact Herr.
Qed.

Lemma half_is_binary64 : is_binary64 half.
Proof.
  exists 1, (-1). split; [reflexivity |]. split; [lia |].
  apply Qc_is_canon. reflexivity.
Qed.

Lemma half_nearest (d : Qc) :
  decimal_value (format_12f half) = Some d → nearest_binary64 d half.
Proof.
  intros Hd. assert (d = half) as ->.
  { apply Qc_is_canon. vm_compute in Hd. injection Hd as <-. reflexivity. }
  split; [apply half_is_binary64 |]. intros z _.
  replace (half - half)%Qc with 0%Qc by ring. apply Qcabs_nonneg.
Qed.

Lemma format_12f_round_trip_witness :
  ∃ sign int_part frac_part d,
    format_12f half = sign +:+ int_part +:+ "." +:+ frac_part ∧
    (sign = "" ∨ sign = "-") ∧
    all_digits int_part = true ∧
    String.length frac_part = 12%nat ∧
    all_digits frac_part = true ∧
    decimal_value (format_12f half) = Some d ∧
    (Qcabs (d - half) <= Q2Qc (1 # 2000000000000))%Qc ∧
    (Qcabs (half - half) <= Q2Qc (1 # 1000000000000))%Qc ∧
    (∀ df stats, main_statistics df = Returns stats →
       max_price_formatted stats = format_12f (max_price stats) ∧
       min_price_formatted stats = format_12f (min_price stats)).
Proof. exact (format_12f_round_trip half half half_is_binary64 half_nearest). Defined.

(** The tolerance is absolute: a price below the last printed decimal reads
    back as zero. *)
Example format_12f_tiny_price :
  format_12f (Q2Qc (1 # 10000000000000)) = "0.000000000000" ∧
  this <$> decimal_value "0.000000000000" = Some (0 # 1)%Q.
Proof. split; reflexivity. Qed.

Example format_12f_examples :
  format_12f (Q2Qc (1 # 3)) = "0.333333333333" ∧
  format_12f (Q2Qc (-2 # 3)) = "-0.666666666667" ∧
  format_12f (Q2Qc (1 # 8192)) = "0.000122070312" ∧
  format_12f (Q2Qc (3 # 8192)) = "0.000366210938" ∧
  format_12f (Qc_of_Z 43210) = "43210.000000000000".
Proof. repeat split; reflexivity. Qed.

(** ** A run of the script *)

(** The page of a first run: the widgets, the chart of the fetched frame,
    and the two metrics with the prices in 12 decimals and their dates. *)
Example main_first_run :
  (main example_session example_world).1 = Returns () ∧
  page (main example_session example_world).2 =
    [st_title "CryptoTracker"; st_sidebar_header "Parameters";
     st_sidebar_selectbox "Select a cryptocurrency" ["Bitcoin"];
     st_sidebar_date_input "Start date" (mkDate 2022 11 20);
     st_sidebar_date_input "End date" (mkDate 2023 11 20);
     st_spinner "Fetching data...";
     st_plotly_chart
       (mkFigure (frame_of_series [(mkDate 2023 11 14, Qc_of_Z 100);
                                   (mkDate 2023 11 15, Qc_of_Z 105)])
                 "date" "price" "Price of Bitcoin from 2022-11-20 to 2023-11-20"
                 [("price", "Price (USD)"); ("date", "Date")] true);
     st_metric 1 "Maximum Price" "$105.000000000000" "Date: 2023-11-15";
     st_metric 2 "Minimum Price" "$100.000000000000" "Date: 2023-11-14"] ∧
  gets (main example_session example_world).2 = 2%nat.
Proof. vm_compute. repeat split; reflexivity. Qed.

(** A rerun of the script is served from both caches: no further GET. *)
Example main_rerun :
  gets (main example_session (main example_session example_world).2).2 = 2%nat.
Proof. vm_compute. reflexivity. Qed.

(** With the catalog endpoint down the script shows the error and an empty
    select box, and asks for a selection. *)
Example main_catalog_down :
  (main example_session (fresh_world (mkResponse 500 None))).1 = Returns () ∧
  page (main example_session (fresh_world (mkResponse 500 None))).2 =
    [st_title "CryptoTracker"; st_sidebar_header "Parameters";
     st_error "Error fetching the coins list.";
     st_sidebar_selectbox "Select a cryptocurrency" [];
     st_sidebar_date_input "Start date" (mkDate 2022 11 20);
     st_sidebar_date_input "End date" (mkDate 2023 11 20);
     st_info "Please select a cryptocurrency and a valid date range where the start date is not after the end date."].
Proof. vm_compute. split; reflexivity. Qed.

(** A catalog answer that is not JSON ends the script with the exception. *)
Example main_catalog_not_json :
  (main example_session (fresh_world (mkResponse 200 None))).1 = Raises JSONDecodeError.
Proof. vm_compute. reflexivity. Qed.

(** * Further properties *)

(** ** Memoisation of the history, and what a failure leaves *)

(** Running the body touches neither cache. *)
Lemma get_coin_history_body_caches (args : string * Z * Z) (w : World) :
  history_cache (get_coin_history_body args w).2 = history_cache w ∧
  coins_cache (get_coin_history_body args w).2 = coins_cache w ∧
  gets (get_coin_history_body args w).2 = S (gets w).
Proof.
  destruct (get_coin_history_body_world args w) as [page' ->]. repeat split.
Qed.

(** A call that returned has left its frame in the cache. *)
Lemma get_coin_history_cached (w w1 : World) (df : DataFrame)
    (coin_id : string) (from_timestamp to_timestamp : Z) :
  get_coin_history coin_id from_timestamp to_timestamp w = (Returns df, w1) →
  ∃ replay, history_cache w1 !! (coin_id, from_timestamp, to_timestamp) = Some (df, replay).
Proof.
  unfold get_coin_history, cache_data.
  destruct (history_cache w !! _) as [[v replay] |] eqn:Hcache.
  - intros [= <- <-]. simpl. eauto.
  - destruct (get_coin_history_body _ w) as [[v | e |] w'] eqn:Hrun; try discriminate.
    intros [= <- <-]. simpl. eexists. apply lookup_insert_eq.
Qed.

(** No call removes or replaces an entry of the cache. *)
Lemma get_coin_history_keeps (w w1 : World) (o : outcome DataFrame)
    (coin_id : string) (from_timestamp to_timestamp : Z)
    (args : string * Z * Z) (held : DataFrame * list element) :
  get_coin_history coin_id from_timestamp to_timestamp w = (o, w1) →
  history_cache w !! args = Some held →
  history_cache w1 !! args = Some held.
Proof.
  unfold get_coin_history, cache_data. intros Hrun Hheld.
  destruct (history_cache w !! (coin_id, from_timestamp, to_timestamp))
    as [[v replay] |] eqn:Hcache.
  - injection Hrun as <- <-. exact Hheld.
  - pose proof (get_coin_history_body_caches (coin_id, from_timestamp, to_timestamp) w)
      as (Hh & _ & _).
    destruct (get_coin_history_body _ w) as [[v | e |] w'] eqn:Hbody;
      injection Hrun as <- <-; simpl in *.
    + rewrite Hh, lookup_insert_ne; [exact Hheld | congruence].
    + rewrite Hh. exact Hheld.
    + rewrite Hh. exact Hheld.
Qed.

(** X1.  [get_coin_history] is memoised per argument tuple: once a call
    for a coin and a window has returned, a call for the same coin and window
    returns the same frame without a GET, also after any other call of
    [get_coin_history] (for the same or another window, returning or
    raising) has been made in between. *)
Theorem get_coin_history_memo (w w1 w2 : World) (df : DataFrame) (o : outcome DataFrame)
    (coin_id other_id : string) (from_timestamp to_timestamp other_from other_to : Z) :
  get_coin_history coin_id from_timestamp to_timestamp w = (Returns df, w1) →
  get_coin_history other_id other_from other_to w1 = (o, w2) →
  ∃ w3, get_coin_history coin_id from_timestamp to_timestamp w2 = (Returns df, w3) ∧
        gets w3 = gets w2.
Proof.
  intros Hfirst Hother.
  destruct (get_coin_history_cached _ _ _ _ _ _ Hfirst) as [replay Hcached].
  pose proof (get_coin_history_keeps _ _ _ _ _ _ _ _ Hother Hcached) as Hkept.
  unfold get_coin_history. rewrite (cache_data_hit _ _ _ _ _ _ _ Hkept).
  eexists. split; reflexivity.
Qed.

Lemma get_coin_history_memo_witness :
  ∃ w3, get_coin_history "bitcoin" 0 1
          (get_coin_history "ethereum" 5 6
             (get_coin_history "bitcoin" 0 1 (fresh_world example_history)).2).2 =
          (Returns (frame_of_series [(mkDate 2023 11 14, Qc_of_Z 100);
                                     (mkDate 2023 11 15, Qc_of_Z 105)]), w3) ∧
        gets w3 = 2%nat.
Proof.
  apply (get_coin_history_memo (fresh_world example_history)
           (get_coin_history "bitcoin" 0 1 (fresh_world example_history)).2
           (get_coin_history "ethereum" 5 6
              (get_coin_history "bitcoin" 0 1 (fresh_world example_history)).2).2
           (frame_of_series [(mkDate 2023 11 14, Qc_of_Z 100);
                             (mkDate 2023 11 15, Qc_of_Z 105)])
           (get_coin_history "ethereum" 5 6
              (get_coin_history "bitcoin" 0 1 (fresh_world example_history)).2).1
           "bitcoin" "ethereum" 0 1 5 6);
    vm_compute; reflexivity.
Defined.

(** X2.  A failed fetch is memoised like any other result.  After a
    response with a failure status, the next call of [get_coins_list]
    ([get_coin_history] with the same arguments) issues no GET, whatever the
    endpoint would answer now: it returns the empty value again and puts the
    same error notification on the page once more. *)
Theorem failed_fetch_is_cached (w : World) (catalog history : Response)
    (coin_id : string) (from_timestamp to_timestamp : Z) :
  coins_cache w !! () = None →
  history_cache w !! (coin_id, from_timestamp, to_timestamp) = None →
  transport w (gets w) (mkRequest coins_url []) = inl catalog →
  transport w (gets w) (history_request coin_id from_timestamp to_timestamp) = inl history →
  ok catalog = false →
  ok history = false →
  (∃ w1 w2, get_coins_list w = (Returns (JArr []), w1) ∧
            get_coins_list w1 = (Returns (JArr []), w2) ∧
            gets w2 = gets w1 ∧
            page w2 = page w1 ++ [st_error "Error fetching the coins list."]) ∧
  (∃ w1 w2, get_coin_history coin_id from_timestamp to_timestamp w =
              (Returns (pd_DataFrame_columns ["date"; "price"]), w1) ∧
            get_coin_history coin_id from_timestamp to_timestamp w1 =
              (Returns (pd_DataFrame_columns ["date"; "price"]), w2) ∧
            gets w2 = gets w1 ∧
            page w2 = page w1 ++
              [st_error ("Error fetching the historical data for " +:+ coin_id +:+ ".")]).
Proof.
  intros Hmiss1 Hmiss2 Hnet1 Hnet2 Hok1 Hok2. split.
  - eexists _, _. unfold get_coins_list.
    rewrite (cache_data_miss_returns _ _ _ _ _ _ _ Hmiss1
               (get_coins_list_body_not_ok _ _ Hnet1 Hok1)).
    split; [reflexivity |].
    erewrite cache_data_hit by (simpl; apply lookup_insert_eq).
    simpl. rewrite drop_app_length. repeat split.
  - eexists _, _. unfold get_coin_history.
    rewrite (cache_data_miss_returns _ _ _ _ _ _ _ Hmiss2
               (get_coin_history_body_not_ok _ _ _ _ _ Hnet2 Hok2)).
    split; [reflexivity |].
    erewrite cache_data_hit by (simpl; apply lookup_insert_eq).
    simpl. rewrite drop_app_length. repeat split.
Qed.

(** The endpoint fails once and would succeed from then on. *)
Lemma failed_fetch_is_cached_witness :
  (∃ w1 w2, get_coins_list recovering_world = (Returns (JArr []), w1) ∧
            get_coins_list w1 = (Returns (JArr []), w2) ∧
            gets w2 = gets w1 ∧
            page w2 = page w1 ++ [st_error "Error fetching the coins list."]) ∧
  (∃ w1 w2, get_coin_history "bitcoin" 0 1 recovering_world =
              (Returns (pd_DataFrame_columns ["date"; "price"]), w1) ∧
            get_coin_history "bitcoin" 0 1 w1 =
              (Returns (pd_DataFrame_columns ["date"; "price"]), w2) ∧
            gets w2 = gets w1 ∧
            page w2 = page w1 ++ [st_error "Error fetching the historical data for bitcoin."]).
Proof.
  apply (failed_fetch_is_cached recovering_world (mkResponse 503 None) (mkResponse 503 None)
           "bitcoin" 0 1); reflexivity.
Defined.

(** X3.  An exception of [requests.get] itself (no response was obtained)
    propagates out of both fetch functions; the attempt counts as a GET,
    nothing is put on the page and nothing is cached, so the next call tries
    again. *)
Theorem transport_error_propagates (w : World) (e : exn)
    (coin_id : string) (from_timestamp to_timestamp : Z) :
  coins_cache w !! () = None →
  history_cache w !! (coin_id, from_timestamp, to_timestamp) = None →
  transport w (gets w) (mkRequest coins_url []) = inr e →
  transport w (gets w) (history_request coin_id from_timestamp to_timestamp) = inr e →
  get_coins_list w =
    (Raises e, mkWorld (transport w) (S (gets w)) (page w) (coins_cache w) (history_cache w)) ∧
  get_coin_history coin_id from_timestamp to_timestamp w =
    (Raises e, mkWorld (transport w) (S (gets w)) (page w) (coins_cache w) (history_cache w)).
Proof.
  intros Hmiss1 Hmiss2 Hnet1 Hnet2. split.
  - unfold get_coins_list. apply (cache_data_miss_raises _ _ _ _ _ _ _ Hmiss1).
    unfold get_coins_list_body, bind, requests_get.
    unfold coins_url in Hnet1. rewrite Hnet1. reflexivity.
  - unfold get_coin_history. apply (cache_data_miss_raises _ _ _ _ _ _ _ Hmiss2).
    unfold get_coin_history_body, bind, requests_get.
    unfold history_request in Hnet2. rewrite Hnet2. reflexivity.
Qed.

Lemma transport_error_propagates_witness :
  get_coins_list offline_world =
    (Raises RequestException, mkWorld (transport offline_world) 1 [] ∅ ∅) ∧
  get_coin_history "bitcoin" 0 1 offline_world =
    (Raises RequestException, mkWorld (transport offline_world) 1 [] ∅ ∅).
Proof.
  apply (transport_error_propagates offline_world RequestException "bitcoin" 0 1);
    reflexivity.
Defined.

(** X4.  The success branch is taken for every status outside 400..599
    (2xx, but also 1xx, 3xx and 600 and above).  There a body that is not a
    JSON document makes both fetch functions raise [JSONDecodeError], and a
    JSON body that is not an object makes [get_coin_history] raise
    [AttributeError]; in each case nothing is put on the page and nothing is
    cached. *)
Theorem success_status_bad_body_raises (w : World) (response : Response)
    (coin_id : string) (from_timestamp to_timestamp : Z) :
  coins_cache w !! () = None →
  history_cache w !! (coin_id, from_timestamp, to_timestamp) = None →
  transport w (gets w) (mkRequest coins_url []) = inl response →
  transport w (gets w) (history_request coin_id from_timestamp to_timestamp) = inl response →
  status_code response < 400 ∨ 600 <= status_code response →
  let w' := mkWorld (transport w) (S (gets w)) (page w) (coins_cache w) (history_cache w) in
  (body response = None →
   get_coins_list w = (Raises JSONDecodeError, w') ∧
   get_coin_history coin_id from_timestamp to_timestamp w = (Raises JSONDecodeError, w')) ∧
  (∀ data, body response = Some data →
           (∀ fields, data ≠ JObj fields) →
           get_coin_history coin_id from_timestamp to_timestamp w = (Raises AttributeError, w')).
Proof.
  intros Hmiss1 Hmiss2 Hnet1 Hnet2 Hstatus w'.
  assert (Hok : ok response = true).
  { unfold ok. apply negb_true_iff, andb_false_iff.
    destruct Hstatus; [left; apply Z.leb_gt | right; apply Z.ltb_ge]; lia. }
  split.
  - intros Hbody. split.
    + unfold get_coins_list. apply (cache_data_miss_raises _ _ _ _ _ _ _ Hmiss1).
      rewrite (get_coins_list_body_ok _ _ Hnet1 Hok). unfold response_json.
      rewrite Hbody. reflexivity.
    + unfold get_coin_history. apply (cache_data_miss_raises _ _ _ _ _ _ _ Hmiss2).
      rewrite (get_coin_history_body_ok _ _ _ _ _ Hnet2 Hok).
      unfold history_of_response, response_json. rewrite Hbody. reflexivity.
  - intros data Hbody Hshape.
    unfold get_coin_history. apply (cache_data_miss_raises _ _ _ _ _ _ _ Hmiss2).
    rewrite (get_coin_history_body_ok _ _ _ _ _ Hnet2 Hok).
    unfold history_of_response, response_json. rewrite Hbody. cbn [obind].
    destruct data; try reflexivity. exfalso. eapply Hshape. reflexivity.
Qed.

Lemma success_status_bad_body_raises_witness :
  (body (mkResponse 204 None) = None →
   get_coins_list (fresh_world (mkResponse 204 None)) =
     (Raises JSONDecodeError,
      mkWorld (transport (fresh_world (mkResponse 204 None))) 1 [] ∅ ∅) ∧
   get_coin_history "bitcoin" 0 1 (fresh_world (mkResponse 204 None)) =
     (Raises JSONDecodeError,
      mkWorld (transport (fresh_world (mkResponse 204 None))) 1 [] ∅ ∅)) ∧
  (∀ data, body (mkResponse 204 None) = Some data →
           (∀ fields, data ≠ JObj fields) →
           get_coin_history "bitcoin" 0 1 (fresh_world (mkResponse 204 None)) =
             (Raises AttributeError,
              mkWorld (transport (fresh_world (mkResponse 204 None))) 1 [] ∅ ∅)).
Proof.
  apply (success_status_bad_body_raises (fresh_world (mkResponse 204 None))
           (mkResponse 204 None) "bitcoin" 0 1); try reflexivity.
  left. reflexivity.
Defined.

(** ** The order of dates *)

Lemma date_leb_refl (a : date) : date_leb a a = true.
Proof.
  destruct a as [y m d]. unfold date_leb.
  rewrite !Z.eqb_refl, Z.leb_refl, !orb_true_r. reflexivity.
Qed.

Lemma date_leb_spec (a b : date) :
  date_leb a b = true ↔
  let '(mkDate y1 m1 d1) := a in
  let '(mkDate y2 m2 d2) := b in
  y1 < y2 ∨ (y1 = y2 ∧ (m1 < m2 ∨ (m1 = m2 ∧ d1 <= d2))).
Proof.
  destruct a as [y1 m1 d1], b as [y2 m2 d2]. unfold date_leb.
  rewrite !orb_true_iff, !andb_true_iff, !orb_true_iff, !andb_true_iff.
  rewrite !Z.ltb_lt, !Z.eqb_eq, Z.leb_le. reflexivity.
Qed.

Lemma date_leb_trans (a b c : date) :
  date_leb a b = true → date_leb b c = true → date_leb a c = true.
Proof.
  rewrite !date_leb_spec. destruct a as [y1 m1 d1], b as [y2 m2 d2], c as [y3 m3 d3]. lia.
Qed.

Lemma date_leb_antisym (a b : date) :
  date_leb a b = true → date_leb b a = true → a = b.
Proof.
  rewrite !date_leb_spec. destruct a as [y1 m1 d1], b as [y2 m2 d2].
  intros H1 H2. assert (y1 = y2 ∧ m1 = m2 ∧ d1 = d2) as (-> & -> & ->) by lia.
  reflexivity.
Qed.

Lemma date_leb_total (a b : date) : date_leb a b = true ∨ date_leb b a = true.
Proof.
  rewrite !date_leb_spec. destruct a as [y1 m1 d1], b as [y2 m2 d2]. lia.
Qed.

Lemma date_leb_next_day (d : date) : valid_date d → date_leb d (next_day d) = true.
Proof.
  destruct d as [year month day]. unfold valid_date, next_day. intros [Hmonth Hday].
  destruct (Z.ltb_spec day (days_in_month year month));
    [| destruct (Z.ltb_spec month 12)]; apply date_leb_spec; lia.
Qed.

(** Later days have later dates. *)
Lemma civil_from_days_mono (n m : Z) :
  n <= m → date_leb (civil_from_days n) (civil_from_days m) = true.
Proof.
  intros Hnm. replace m with (n + Z.of_nat (Z.to_nat (m - n))) by lia.
  induction (Z.to_nat (m - n)) as [| k IH].
  - rewrite Z.add_0_r. apply date_leb_refl.
  - eapply date_leb_trans; [exact IH |].
    replace (n + Z.of_nat (S k)) with (n + Z.of_nat k + 1) by lia.
    rewrite civil_from_days_succ. apply date_leb_next_day, civil_from_days_valid.
Qed.

(** On dates of the calendar, the order of dates is the order of day
    numbers. *)
Lemma date_leb_days (a b : date) :
  valid_date a → valid_date b →
  date_leb a b = (days_from_civil a <=? days_from_civil b).
Proof.
  intros Ha Hb. destruct (Z.leb_spec (days_from_civil a) (days_from_civil b)) as [Hle | Hgt].
  - rewrite <- (civil_from_days_days_from_civil a Ha), <- (civil_from_days_days_from_civil b Hb).
    apply civil_from_days_mono, Hle.
  - destruct (date_leb a b) eqn:Hab; [| reflexivity]. exfalso.
    assert (Hba : date_leb b a = true).
    { rewrite <- (civil_from_days_days_from_civil a Ha),
        <- (civil_from_days_days_from_civil b Hb).
      apply civil_from_days_mono. lia. }
    pose proof (date_leb_antisym _ _ Hab Hba) as ->. lia.
Qed.

(** X5.  Instants one day apart fall on consecutive dates of the Gregorian
    calendar, and every instant falls on a date of the calendar: the date
    column counts days as the calendar does, leap years included. *)
Theorem date_of_ms_next_day (ms : Z) :
  date_of_ms (ms + 86400000) = next_day (date_of_ms ms) ∧ valid_date (date_of_ms ms).
Proof.
  unfold date_of_ms, ms_per_day. split; [| apply civil_from_days_valid].
  replace (ms + 86400000) with (1 * 86400000 + ms) by lia.
  rewrite Z.div_add_l by lia. rewrite <- civil_from_days_succ. f_equal. lia.
Qed.

(** X6.  The date is monotone in the instant: of two timestamps the later
    one never gets the earlier date, and two instants get the same date
    exactly when they share a UTC day.  So a response in ascending order of
    time yields a date column in ascending order. *)
Theorem date_of_ms_mono (ms1 ms2 : Z) :
  ms1 <= ms2 →
  date_leb (date_of_ms ms1) (date_of_ms ms2) = true ∧
  (date_of_ms ms1 = date_of_ms ms2 ↔ ms1 / 86400000 = ms2 / 86400000).
Proof.
  intros Hle. unfold date_of_ms, ms_per_day. split.
  - apply civil_from_days_mono, Z.div_le_mono; lia.
  - split; [| intros ->; reflexivity].
    intros Heq. rewrite <- (days_from_civil_civil_from_days (ms1 / 86400000)), Heq.
    apply days_from_civil_civil_from_days.
Qed.

Lemma date_of_ms_mono_witness :
  date_leb (date_of_ms 1700000000000) (date_of_ms 1700086400000) = true ∧
  (date_of_ms 1700000000000 = date_of_ms 1700086400000 ↔
   1700000000000 / 86400000 = 1700086400000 / 86400000).
Proof. apply (date_of_ms_mono 1700000000000 1700086400000). lia. Defined.

(** ** Prices the 12 decimals render exactly *)

Lemma round_half_even_exact (n d : Z) :
  0 < d → n mod d = 0 → round_half_even n d * d = n.
Proof.
  intros Hd Hmod. unfold round_half_even. rewrite Hmod.
  replace (2 * 0 <? d) with true by (symmetry; apply Z.ltb_lt; lia).
  pose proof (Z.div_mod n d ltac:(lia)). lia.
Qed.

(** X7.  A binary64 price with at most 12 decimals is displayed exactly:
    the formatted string denotes the price itself, so reading it back loses
    nothing.  For a binary64 value, a denominator that divides 10^12 means a
    multiple of 2^-12: whole prices, halves, quarters and so on.  (A decimal
    such as 43210.1 is no binary64 value; the float that stands for it is
    displayed as 43210.099999999999.) *)
Theorem format_12f_exact (x : Qc) :
  is_binary64 x →
  (Z.pos (Qden x) | 10 ^ 12) →
  decimal_value (format_12f x) = Some x.
Proof.
  intros _ [k Hk]. rewrite decimal_value_format_12f. f_equal.
  set (scaled := round_half_even (Z.abs (Qnum x) * 10 ^ 12) (Z.pos (Qden x))).
  assert (Hscaled : scaled * Z.pos (Qden x) = Z.abs (Qnum x) * 10 ^ 12).
  { apply round_half_even_exact; [lia |].
    rewrite Hk, Z.mul_assoc. apply Z.mod_mul. lia. }
  change (10 ^ 12) with 1000000000000 in Hscaled.
  destruct x as [[n D] Hc]. cbn [this Qnum Qden] in *.
  apply Qc_is_canon. cbn [this].
  destruct (n <? 0) eqn:Hn; [apply Z.ltb_lt in Hn | apply Z.ltb_ge in Hn].
  - unfold Qcopp, Q2Qc. cbn [this]. rewrite !Qred_correct.
    unfold Qeq, Qopp. cbn [Qnum Qden]. lia.
  - unfold Q2Qc. cbn [this]. rewrite Qred_correct.
    unfold Qeq. cbn [Qnum Qden]. lia.
Qed.

(** 43210.125, which is 345681 / 2^3. *)
Lemma format_12f_exact_witness :
  decimal_value (format_12f (Q2Qc (345681 # 8))) = Some (Q2Qc (345681 # 8)).
Proof.
  apply (format_12f_exact (Q2Qc (345681 # 8))).
  - exists 345681, (-3). split; [reflexivity |]. split; [lia |].
    apply Qc_is_canon. reflexivity.
  - exists 125000000000. reflexivity.
Defined.

(** The binary64 value nearest to 43210.1 has 37 binary places and is not
    displayed as 43210.1. *)
Example format_12f_nearest_float :
  format_12f (Q2Qc (5938750923420467 # 137438953472)) = "43210.099999999999".
Proof. vm_compute. reflexivity. Qed.

(** ** The display keeps the order of prices *)

Lemma round_half_even_mono (n1 d1 n2 d2 : Z) :
  0 < d1 → 0 < d2 → n1 * d2 < n2 * d1 →
  round_half_even n1 d1 <= round_half_even n2 d2.
Proof.
  intros Hd1 Hd2 Hlt.
  pose proof (round_half_even_bound n1 d1 Hd1) as H1.
  pose proof (round_half_even_bound n2 d2 Hd2) as H2.
  set (r1 := round_half_even n1 d1) in *. set (r2 := round_half_even n2 d2) in *.
  destruct (Z_le_gt_dec r1 r2) as [Hle | Hgt]; [exact Hle | exfalso].
  assert (Ha : 2 * r1 * d1 <= 2 * n1 + d1) by lia.
  assert (Hb : 2 * n2 - d2 <= 2 * r2 * d2) by lia.
  assert (Ha' : 2 * r1 * d1 * d2 <= (2 * n1 + d1) * d2) by nia.
  assert (Hb' : (2 * n2 - d2) * d1 <= 2 * r2 * d2 * d1) by nia.
  assert (Hc : 2 * (r2 + 1) * (d1 * d2) <= 2 * r1 * d1 * d2) by nia.
  nia.
Qed.

(** X8.  Formatting keeps the order of prices: of two prices, the smaller
    one is never displayed as the larger number.  (Prices closer than 1e-12
    may be displayed alike.) *)
Theorem format_12f_mono (x y : Qc) :
  (x <= y)%Qc →
  ∃ dx dy, decimal_value (format_12f x) = Some dx ∧
           decimal_value (format_12f y) = Some dy ∧
           (dx <= dy)%Qc.
Proof.
  intros Hxy. rewrite !decimal_value_format_12f. eexists _, _.
  split; [reflexivity |]. split; [reflexivity |].
  destruct (Qcle_lt_or_eq _ _ Hxy) as [Hlt | ->]; [| apply Qcle_refl].
  clear Hxy. unfold Qclt, Qlt in Hlt.
  set (sx := round_half_even (Z.abs (Qnum x) * 10 ^ 12) (Z.pos (Qden x))).
  set (sy := round_half_even (Z.abs (Qnum y) * 10 ^ 12) (Z.pos (Qden y))).
  assert (Hsx : 0 <= sx).
  { apply round_half_even_nonneg; [| lia].
    apply Z.mul_nonneg_nonneg; [apply Z.abs_nonneg | lia]. }
  assert (Hsy : 0 <= sy).
  { apply round_half_even_nonneg; [| lia].
    apply Z.mul_nonneg_nonneg; [apply Z.abs_nonneg | lia]. }
  destruct x as [[nx Dx] Hcx], y as [[ny Dy] Hcy]. cbn [this Qnum Qden] in *.
  assert (Hle : ∀ a b : Z, a <= b →
                  (Q2Qc (a # 1000000000000) <= Q2Qc (b # 1000000000000))%Qc).
  { intros a b Hab. unfold Qcle, Q2Qc. cbn [this]. rewrite !Qred_correct.
    unfold Qle. cbn [Qnum Qden]. lia. }
  destruct (Z.ltb_spec nx 0) as [Hnx | Hnx]; destruct (Z.ltb_spec ny 0) as [Hny | Hny].
  - (* both negative: the greater magnitude is the smaller price *)
    apply Qcopp_le_compat, Hle.
    apply round_half_even_mono; [lia | lia |].
    replace (Z.abs ny) with (- ny) by lia. replace (Z.abs nx) with (- nx) by lia. nia.
  - eapply Qcle_trans with (y := Q2Qc (0 # 1000000000000)).
    + replace (Q2Qc (0 # 1000000000000)) with (- Q2Qc (0 # 1000000000000))%Qc
        by (apply Qc_is_canon; reflexivity).
      apply Qcopp_le_compat, Hle, Hsx.
    + apply Hle, Hsy.
  - exfalso. assert (0 <= nx * Z.pos Dy) by nia. assert (ny * Z.pos Dx < 0) by nia. lia.
  - apply Hle. apply round_half_even_mono; [lia | lia |].
    replace (Z.abs ny) with ny by lia. replace (Z.abs nx) with nx by lia. nia.
Qed.

Lemma format_12f_mono_witness :
  ∃ dx dy, decimal_value (format_12f (Q2Qc (1 # 3))) = Some dx ∧
           decimal_value (format_12f half) = Some dy ∧
           (dx <= dy)%Qc.
Proof. apply (format_12f_mono (Q2Qc (1 # 3)) half). discriminate. Defined.

(** ** More on the statistics block *)

(** The statistics of a series in terms of the scans. *)
Lemma main_statistics_series (series : list (date * Qc)) :
  series ≠ [] →
  ∃ imax imin dmax pmax dmin pmin,
    main_statistics (frame_of_series series) =
      Returns (mkStatistics (CDate dmax) (CDate dmin) pmax pmin
                            (format_12f pmax) (format_12f pmin)) ∧
    series !! imax = Some (dmax, pmax) ∧
    series !! imin = Some (dmin, pmin) ∧
    first_extreme Qcle Qclt (map snd series) imax pmax ∧
    first_extreme (λ y m, m <= y)%Qc (λ y m, m < y)%Qc (map snd series) imin pmin.
Proof.
  intros Hne. destruct series as [| pt0 rest] eqn:Hseries; [congruence |].
  rewrite <- Hseries. clear Hne.
  pose proof (argmax_first pt0.2 (map snd rest)) as Hmax.
  pose proof (argmin_first pt0.2 (map snd rest)) as Hmin.
  set (imax := argmax_from pt0.2 0 1 (map snd rest)) in *.
  set (imin := argmin_from pt0.2 0 1 (map snd rest)) in *.
  set (pmax := scan (λ best y, Qc_ltb best y) pt0.2 (map snd rest)) in *.
  set (pmin := scan (λ best y, Qc_ltb y best) pt0.2 (map snd rest)) in *.
  change (pt0.2 :: map snd rest) with (map snd (pt0 :: rest)) in *.
  rewrite <- Hseries in *.
  destruct (lookup_snd_series _ _ _ (proj1 Hmax)) as [dmax Hdmax].
  destruct (lookup_snd_series _ _ _ (proj1 Hmin)) as [dmin Hdmin].
  exists imax, imin, dmax, pmax, dmin, pmin.
  split; [| split; [exact Hdmax | split; [exact Hdmin | split; assumption]]].
  unfold main_statistics.
  change (df_getitem (frame_of_series series) "price")
    with (Returns (A := list cell) (map (λ pt, CNum pt.2) series)).
  cbn [obind]. unfold idxmax, idxmin, series_max, series_min.
  rewrite numbers_of_prices.
  replace (map snd series) with (pt0.2 :: map snd rest) by (rewrite Hseries; reflexivity).
  cbn [obind]. fold imax imin pmax pmin.
  rewrite (df_loc_frame_of_series _ _ _ _ Hdmax), (df_loc_frame_of_series _ _ _ _ Hdmin).
  reflexivity.
Qed.

(** X9.  The maximum and minimum prices, and so their displayed strings,
    do not depend on the order of the points: a reordered series gives the
    same two prices.  (The dates can differ when an extreme price occurs more
    than once.)  The minimum is at most the maximum. *)
Theorem main_statistics_reordered (series series' : list (date * Qc)) :
  series ≠ [] →
  series ≡ₚ series' →
  ∃ stats stats',
    main_statistics (frame_of_series series) = Returns stats ∧
    main_statistics (frame_of_series series') = Returns stats' ∧
    max_price stats' = max_price stats ∧
    min_price stats' = min_price stats ∧
    max_price_formatted stats' = max_price_formatted stats ∧
    min_price_formatted stats' = min_price_formatted stats ∧
    (min_price stats <= max_price stats)%Qc.
Proof.
  intros Hne Hperm.
  assert (Hne' : series' ≠ []).
  { intros ->. apply Permutation_nil_r in Hperm. contradiction. }
  destruct (main_statistics_series series Hne)
    as (imax & imin & dmax & pmax & dmin & pmin & Hrun & Hmax & Hmin
        & (_ & Hmax_all & _) & (_ & Hmin_all & _)).
  destruct (main_statistics_series series' Hne')
    as (imax' & imin' & dmax' & pmax' & dmin' & pmin' & Hrun' & Hmax' & Hmin'
        & (_ & Hmax_all' & _) & (_ & Hmin_all' & _)).
  assert (Hin : ∀ (l l' : list (date * Qc)) i d p,
            l ≡ₚ l' → l !! i = Some (d, p) → ∃ k, map snd l' !! k = Some p).
  { intros l l' i d p Hp Hi.
    assert (Hel : (d, p) ∈ l') by (rewrite <- Hp; eapply list_elem_of_lookup_2; eassumption).
    apply list_elem_of_lookup in Hel as [k Hk]. exists k.
    rewrite list_lookup_fmap, Hk. reflexivity. }
  assert (Epmax : pmax' = pmax).
  { apply Qcle_antisym.
    - destruct (Hin _ _ _ _ _ (symmetry Hperm) Hmax') as [k Hk]. eapply Hmax_all, Hk.
    - destruct (Hin _ _ _ _ _ Hperm Hmax) as [k Hk]. eapply Hmax_all', Hk. }
  assert (Epmin : pmin' = pmin).
  { apply Qcle_antisym.
    - destruct (Hin _ _ _ _ _ Hperm Hmin) as [k Hk]. eapply Hmin_all', Hk.
    - destruct (Hin _ _ _ _ _ (symmetry Hperm) Hmin') as [k Hk]. eapply Hmin_all, Hk. }
  eexists _, _. split; [exact Hrun |]. split; [exact Hrun' |]. cbn.
  rewrite Epmax, Epmin. repeat split.
  eapply Hmax_all. rewrite list_lookup_fmap, Hmin. reflexivity.
Qed.

Lemma main_statistics_reordered_witness :
  ∃ stats stats',
    main_statistics (frame_of_series tied_series) = Returns stats ∧
    main_statistics (frame_of_series (reverse tied_series)) = Returns stats' ∧
    max_price stats' = max_price stats ∧
    min_price stats' = min_price stats ∧
    max_price_formatted stats' = max_price_formatted stats ∧
    min_price_formatted stats' = min_price_formatted stats ∧
    (min_price stats <= max_price stats)%Qc.
Proof.
  apply (main_statistics_reordered tied_series (reverse tied_series)).
  - discriminate.
  - symmetry. apply reverse_Permutation.
Defined.

(** In the reversed series the extremes are the same and the dates are not. *)
Example main_statistics_reversed_dates :
  main_statistics (frame_of_series (reverse tied_series)) =
    Returns (mkStatistics (CDate (mkDate 2023 11 16)) (CDate (mkDate 2023 11 17))
                          (Qc_of_Z 105) (Qc_of_Z 90)
                          "105.000000000000" "90.000000000000").
Proof. reflexivity. Qed.

(** ** Running [main] *)

Lemma bind_emit {B : Type} (e : element) (k : () → App B) (w : World) :
  bind (emit e) k w = k () (shown w [e]).
Proof. reflexivity. Qed.

Lemma shown_shown (w : World) (a b : list element) :
  shown (shown w a) b = shown w (a ++ b).
Proof. unfold shown. simpl. rewrite app_assoc. reflexivity. Qed.

Lemma shown_nil (w : World) : shown w [] = w.
Proof. unfold shown. rewrite app_nil_r. destruct w. reflexivity. Qed.

(** What a returning call of [get_coins_list] does to the world: the page
    gains the elements that the cache then holds for replay. *)
Lemma get_coins_list_run (w w1 : World) (coins : json) :
  get_coins_list w = (Returns coins, w1) →
  ∃ replay, coins_cache w1 !! () = Some (coins, replay) ∧
            page w1 = page w ++ replay ∧
            history_cache w1 = history_cache w ∧
            (gets w ≤ gets w1)%nat.
Proof.
  unfold get_coins_list, cache_data.
  destruct (coins_cache w !! ()) as [[v replay] |] eqn:Hcache.
  - intros [= <- <-]. exists replay. simpl. repeat split; [exact Hcache | lia].
  - unfold get_coins_list_body, bind, requests_get.
    destruct (transport w (gets w) _) as [response | e]; [| discriminate].
    destruct (ok response).
    + unfold lift, ret. destruct (response_json response); try discriminate.
      intros [= <- <-]. exists []. simpl.
      rewrite drop_all, lookup_insert_eq, app_nil_r. repeat split. lia.
    + simpl. intros [= <- <-]. eexists. simpl.
      rewrite drop_app_length, lookup_insert_eq. repeat split. lia.
Qed.

Lemma get_coins_list_hit (w : World) (coins : json) (replay : list element) :
  coins_cache w !! () = Some (coins, replay) →
  get_coins_list w = (Returns coins, shown w replay).
Proof. intros Hhit. unfold get_coins_list. apply cache_data_hit, Hhit. Qed.

Lemma get_coin_history_run (w w1 : World) (df : DataFrame)
    (coin_id : string) (from_timestamp to_timestamp : Z) :
  get_coin_history coin_id from_timestamp to_timestamp w = (Returns df, w1) →
  ∃ replay, history_cache w1 !! (coin_id, from_timestamp, to_timestamp) = Some (df, replay) ∧
            page w1 = page w ++ replay ∧
            coins_cache w1 = coins_cache w ∧
            (gets w ≤ gets w1)%nat.
Proof.
  unfold get_coin_history, cache_data.
  destruct (history_cache w !! _) as [[v replay] |] eqn:Hcache.
  - intros [= <- <-]. exists replay. simpl. repeat split; [exact Hcache | lia].
  - destruct (transport w (gets w) (history_request coin_id from_timestamp to_timestamp))
      as [response | e] eqn:Hnet.
    + destruct (ok response) eqn:Hok.
      * rewrite (get_coin_history_body_ok _ _ _ _ _ Hnet Hok).
        destruct (history_of_response response); try discriminate.
        intros [= <- <-]. exists []. simpl.
        rewrite drop_all, lookup_insert_eq, app_nil_r. repeat split. lia.
      * rewrite (get_coin_history_body_not_ok _ _ _ _ _ Hnet Hok).
        intros [= <- <-]. eexists. simpl.
        rewrite drop_app_length, lookup_insert_eq. repeat split. lia.
    + unfold get_coin_history_body, bind, requests_get.
      unfold history_request in Hnet. rewrite Hnet. discriminate.
Qed.

Lemma get_coin_history_hit (w : World) (df : DataFrame) (replay : list element)
    (coin_id : string) (from_timestamp to_timestamp : Z) :
  history_cache w !! (coin_id, from_timestamp, to_timestamp) = Some (df, replay) →
  get_coin_history coin_id from_timestamp to_timestamp w = (Returns df, shown w replay).
Proof. intros Hhit. unfold get_coin_history. apply cache_data_hit, Hhit. Qed.

Lemma bind_run {A B : Type} (m : App A) (k : A → App B) (w w' : World) (a : A) :
  m w = (Returns a, w') → bind m k w = k a w'.
Proof. intros Hm. unfold bind. rewrite Hm. reflexivity. Qed.

Lemma bind_selectbox {B : Type} (user : Session) (label : string) (options : list string)
    (k : option string → App B) (w : World) :
  bind (selectbox user label options) k w =
    k (match options !! picked_coin user with
       | Some o => Some o
       | None => head options
       end) (shown w [st_sidebar_selectbox label options]).
Proof. reflexivity. Qed.

Lemma bind_date_input {B : Type} (picked : option date) (label : string) (value : date)
    (k : date → App B) (w : World) :
  bind (date_input picked label value) k w =
    k (default value picked) (shown w [st_sidebar_date_input label value]).
Proof. reflexivity. Qed.

Lemma emit_shown (e : element) (w : World) : emit e w = (Returns (), shown w [e]).
Proof. reflexivity. Qed.

Lemma bind_get_coin_history_hit {B : Type} (k : DataFrame → App B) (w : World)
    (df : DataFrame) (replay : list element)
    (coin_id : string) (from_timestamp to_timestamp : Z) :
  history_cache w !! (coin_id, from_timestamp, to_timestamp) = Some (df, replay) →
  bind (get_coin_history coin_id from_timestamp to_timestamp) k w = k df (shown w replay).
Proof. intros Hhit. apply bind_run, get_coin_history_hit, Hhit. Qed.

(** X10.  A rerun of the script repeats the page.  When a run has returned,
    running the script again at once, with the same selections, returns as
    well, issues no GET (the catalog and the history come from the caches)
    and puts the same elements on the page once more, the notifications of
    failed fetches included. *)
Theorem main_rerun_same (user : Session) (w w1 : World) :
  main user w = (Returns (), w1) →
  ∃ elements w2,
    page w1 = page w ++ elements ∧
    main user w1 = (Returns (), w2) ∧
    gets w2 = gets w1 ∧
    page w2 = page w1 ++ elements.
Proof.
  intros Hrun. unfold main in Hrun. cbv zeta in Hrun. rewrite !bind_emit in Hrun.
  unfold bind at 1 in Hrun.
  destruct (get_coins_list _) as [[coins | |] wb] eqn:Hcat; try discriminate.
  destruct (get_coins_list_run _ _ _ Hcat) as (rc & Hcc & Hpage_b & Hh_b & _).
  rewrite bind_lift in Hrun.
  destruct (py_iter coins) as [coin_list | |] eqn:Hiter; try discriminate.
  rewrite bind_lift in Hrun.
  destruct (omapM coin_name coin_list) as [coin_names | |] eqn:Hnames; try discriminate.
  rewrite bind_selectbox in Hrun.
  set (selected_coin_name := match coin_names !! picked_coin user with
                             | Some o => Some o | None => head coin_names end) in *.
  rewrite bind_lift in Hrun.
  destruct (next_coin_id selected_coin_name coin_list) as [selected_coin_id | |] eqn:Hid;
    try discriminate.
  rewrite !bind_date_input in Hrun.
  set (start_date := default (civil_from_days (days_from_civil (now_date user) - 365))
                             (picked_start user)) in *.
  set (end_date := default (now_date user) (picked_end user)) in *.
  (* the same script on a world whose caches hold the two entries *)
  assert (Hagain : ∀ w', coins_cache w' !! () = Some (coins, rc) →
            main user w' =
              (if from_option py_truthy false selected_coin_id && date_leb start_date end_date
               then
                 match selected_coin_id, selected_coin_name with
                 | Some (JStr coin_id), Some name =>
                     bind (emit (st_spinner "Fetching data..."))
                       (λ _, bind (get_coin_history coin_id
                                     (py_int (datetime_timestamp
                                                (local_timestamp user start_date 0) 0))
                                     (py_int (datetime_timestamp
                                                (local_timestamp user end_date 86399) 999999)))
                          (λ df,
                             if negb (df_empty df) then
                               bind (lift (px_line df "date" "price"
                                       ("Price of " +:+ name +:+ " from "
                                        +:+ date_str start_date
                                        +:+ " to " +:+ date_str end_date)
                                       [("price", "Price (USD)"); ("date", "Date")]))
                                 (λ fig,
                                    bind (emit (st_plotly_chart (update_xaxes fig true)))
                                      (λ _, bind (lift (main_statistics df))
                                         (λ stats,
                                            match max_price_date stats,
                                                  min_price_date stats with
                                            | CDate max_date, CDate min_date =>
                                                bind (emit (st_metric 1 "Maximum Price"
                                                        ("$" +:+ max_price_formatted stats)
                                                        ("Date: " +:+ date_str max_date)))
                                                  (λ _, emit (st_metric 2 "Minimum Price"
                                                        ("$" +:+ min_price_formatted stats)
                                                        ("Date: " +:+ date_str min_date)))
                                            | _, _ => lift Unmodelled
                                            end)))
                             else emit (st_error "No data available for the selected cryptocurrency and date range.")))
                 | _, _ => lift Unmodelled
                 end
               else emit (st_info "Please select a cryptocurrency and a valid date range where the start date is not after the end date."))
                (shown w' ([st_title "CryptoTracker"; st_sidebar_header "Parameters"] ++ rc ++
                           [st_sidebar_selectbox "Select a cryptocurrency" coin_names;
                            st_sidebar_date_input "Start date"
                              (civil_from_days (days_from_civil (now_date user) - 365));
                            st_sidebar_date_input "End date" (now_date user)]))).
  { intros w' Hhit. unfold main. cbv zeta. rewrite !bind_emit.
    rewrite (bind_run get_coins_list _ _ _ _
               (get_coins_list_hit
                  (shown (shown w' [st_title "CryptoTracker"]) [st_sidebar_header "Parameters"])
                  _ _ Hhit)).
    rewrite bind_lift, Hiter, bind_lift, Hnames, bind_selectbox.
    fold selected_coin_name. rewrite bind_lift, Hid, !bind_date_input.
    fold start_date end_date. rewrite ?shown_shown. reflexivity. }
  rewrite ?shown_shown in Hrun. cbn [app] in Hrun.
  clearbody selected_coin_name start_date end_date.
  destruct (from_option py_truthy false selected_coin_id && date_leb start_date end_date)
    eqn:Hgate.
  - destruct selected_coin_id as [[| | | coin_id | |] |]; try discriminate.
    destruct selected_coin_name as [name |]; try discriminate.
    rewrite bind_emit in Hrun. unfold bind at 1 in Hrun.
    destruct (get_coin_history coin_id _ _ _) as [[df | |] wf] eqn:Hhist; try discriminate.
    destruct (get_coin_history_run _ _ _ _ _ _ Hhist) as (rh & Hhc & Hpage_f & Hcc_f & _).
    simpl in Hpage_f, Hcc_f.
    destruct (negb (df_empty df)) eqn:Hempty.
    + rewrite bind_lift in Hrun.
      destruct (px_line df _ _ _ _) as [fig | |] eqn:Hfig; try discriminate.
      rewrite bind_emit, bind_lift in Hrun.
      destruct (main_statistics df) as [stats | |] eqn:Hstats; try discriminate.
      destruct (max_price_date stats) eqn:Hmaxd; try discriminate.
      destruct (min_price_date stats) eqn:Hmind; try discriminate.
      rewrite bind_emit, emit_shown, ?shown_shown in Hrun. injection Hrun as <-.
      eexists _, _. split.
      { simpl. rewrite Hpage_f, Hpage_b. simpl. rewrite <- !app_assoc. reflexivity. }
      rewrite Hagain by (simpl; rewrite Hcc_f; exact Hcc).
      rewrite bind_emit.
      rewrite (bind_get_coin_history_hit _ _ df rh) by exact Hhc.
      rewrite Hempty, bind_lift, Hfig, bind_emit, bind_lift, Hstats, Hmaxd, Hmind.
      rewrite bind_emit, emit_shown, ?shown_shown.
      split; [reflexivity |]. split; [reflexivity |].
      simpl. rewrite <- !app_assoc. reflexivity.
    + rewrite emit_shown, ?shown_shown in Hrun. injection Hrun as <-.
      eexists _, _. split.
      { simpl. rewrite Hpage_f, Hpage_b. simpl. rewrite <- !app_assoc. reflexivity. }
      rewrite Hagain by (simpl; rewrite Hcc_f; exact Hcc).
      rewrite bind_emit.
      rewrite (bind_get_coin_history_hit _ _ df rh) by exact Hhc.
      rewrite Hempty, emit_shown, ?shown_shown.
      split; [reflexivity |]. split; [reflexivity |].
      simpl. rewrite <- !app_assoc. reflexivity.
  - rewrite emit_shown, ?shown_shown in Hrun. injection Hrun as <-.
    eexists _, _. split.
    { simpl. rewrite Hpage_b. simpl. rewrite <- !app_assoc. reflexivity. }
    rewrite Hagain by exact Hcc.
    rewrite emit_shown, ?shown_shown.
    split; [reflexivity |]. split; [reflexivity |].
    simpl. rewrite <- !app_assoc. reflexivity.
Qed.
Lemma main_rerun_same_witness :
  ∃ elements w2,
    page (main example_session example_world).2 = page example_world ++ elements ∧
    main example_session (main example_session example_world).2 = (Returns (), w2) ∧
    gets w2 = gets (main example_session example_world).2 ∧
    page w2 = page (main example_session example_world).2 ++ elements.
Proof.
  apply (main_rerun_same example_session example_world
           (main example_session example_world).2).
  vm_compute. reflexivity.
Defined.

(** ** What a run leaves of the world *)

Lemma extends_by_refl (w : World) : extends_by 0 w w.
Proof.
  unfold extends_by. repeat split; try lia; try reflexivity.
  exists []. rewrite app_nil_r. reflexivity.
Qed.

Lemma extends_by_trans (n m : nat) (w w1 w2 : World) :
  extends_by n w w1 → extends_by m w1 w2 → extends_by (n + m) w w2.
Proof.
  intros (Ht & Hg & [e He] & Hc & Hh) (Ht' & Hg' & [e' He'] & Hc' & Hh').
  unfold extends_by. repeat split; try lia.
  - congruence.
  - exists (e ++ e'). rewrite He', He, app_assoc. reflexivity.
  - etrans; eassumption.
  - etrans; eassumption.
Qed.

Lemma extends_by_le (n m : nat) (w w1 : World) :
  (n ≤ m)%nat → extends_by n w w1 → extends_by m w w1.
Proof.
  intros Hnm (Ht & Hg & He & Hc & Hh). unfold extends_by. repeat split; try lia; assumption.
Qed.

Lemma extends_by_shown (w : World) (elements : list element) :
  extends_by 0 w (shown w elements).
Proof.
  unfold extends_by, shown. simpl. repeat split; try lia; try reflexivity.
  exists elements. reflexivity.
Qed.

Lemma get_coins_list_extends (w w1 : World) (o : outcome json) :
  get_coins_list w = (o, w1) →
  extends_by 1 w w1 ∧ history_cache w1 = history_cache w.
Proof.
  unfold get_coins_list, cache_data.
  destruct (coins_cache w !! ()) as [[v replay] |] eqn:Hcache.
  - intros [= <- <-]. split; [| reflexivity].
    apply (extends_by_le 0); [lia |]. apply (extends_by_shown w replay).
  - unfold get_coins_list_body, bind, requests_get.
    assert (Hins : ∀ e, coins_cache w ⊆ <[() := e]> (coins_cache w))
      by (intros e; apply insert_subseteq, Hcache).
    destruct (transport w (gets w) _) as [response | e].
    + destruct (ok response).
      * unfold lift, ret. destruct (response_json response);
          intros [= <- <-]; (split; [| reflexivity]); unfold extends_by; simpl;
          repeat split; try lia; try reflexivity; try apply Hins;
          exists []; rewrite app_nil_r; reflexivity.
      * simpl. intros [= <- <-]. split; [| reflexivity]. unfold extends_by. simpl.
        repeat split; try lia; try reflexivity; try apply Hins. eexists. reflexivity.
    + intros [= <- <-]. split; [| reflexivity]. unfold extends_by. simpl.
      repeat split; try lia; try reflexivity. exists []. rewrite app_nil_r. reflexivity.
Qed.

Lemma get_coin_history_extends (w w1 : World) (o : outcome DataFrame)
    (coin_id : string) (from_timestamp to_timestamp : Z) :
  get_coin_history coin_id from_timestamp to_timestamp w = (o, w1) →
  extends_by 1 w w1 ∧ coins_cache w1 = coins_cache w.
Proof.
  unfold get_coin_history, cache_data.
  destruct (history_cache w !! _) as [[v replay] |] eqn:Hcache.
  - intros [= <- <-]. split; [| reflexivity].
    apply (extends_by_le 0); [lia |]. apply (extends_by_shown w replay).
  - assert (Hins : ∀ e, history_cache w ⊆
                          <[(coin_id, from_timestamp, to_timestamp) := e]> (history_cache w))
      by (intros e; apply insert_subseteq, Hcache).
    destruct (transport w (gets w) (history_request coin_id from_timestamp to_timestamp))
      as [response | e] eqn:Hnet.
    + destruct (ok response) eqn:Hok.
      * rewrite (get_coin_history_body_ok _ _ _ _ _ Hnet Hok).
        destruct (history_of_response response);
          intros [= <- <-]; (split; [| reflexivity]); unfold extends_by; simpl;
          repeat split; try lia; try reflexivity; try apply Hins;
          exists []; rewrite app_nil_r; reflexivity.
      * rewrite (get_coin_history_body_not_ok _ _ _ _ _ Hnet Hok).
        intros [= <- <-]. split; [| reflexivity]. unfold extends_by. simpl.
        repeat split; try lia; try reflexivity; try apply Hins. eexists. reflexivity.
    + unfold get_coin_history_body, bind, requests_get.
      unfold history_request in Hnet. rewrite Hnet.
      intros [= <- <-]. split; [| reflexivity]. unfold extends_by. simpl.
      repeat split; try lia; try reflexivity. exists []. rewrite app_nil_r. reflexivity.
Qed.
Lemma grows_lift {A : Type} (n : nat) (o : outcome A) : grows n (lift o).
Proof.
  intros w o' w1 [= <- <-]. apply (extends_by_le 0); [lia | apply extends_by_refl].
Qed.

Lemma grows_emit (n : nat) (e : element) : grows n (emit e).
Proof.
  intros w o' w1 [= <- <-]. apply (extends_by_le 0); [lia | apply (extends_by_shown w [e])].
Qed.

Lemma grows_bind {A B : Type} (n m : nat) (ma : App A) (k : A → App B) :
  grows n ma → (∀ a, grows m (k a)) → grows (n + m) (bind ma k).
Proof.
  intros Hma Hk w o w1. unfold bind.
  destruct (ma w) as [[a | e |] w'] eqn:Hrun; specialize (Hma _ _ _ Hrun).
  - intros Hk'. eapply extends_by_trans; [exact Hma | eapply Hk, Hk'].
  - intros [= <- <-]. eapply extends_by_le; [| exact Hma]. lia.
  - intros [= <- <-]. eapply extends_by_le; [| exact Hma]. lia.
Qed.

Lemma grows_selectbox (n : nat) (user : Session) (label : string) (options : list string) :
  grows n (selectbox user label options).
Proof.
  intros w o' w1 [= <- <-]. apply (extends_by_le 0); [lia |].
  apply (extends_by_shown w [st_sidebar_selectbox label options]).
Qed.

Lemma grows_date_input (n : nat) (picked : option date) (label : string) (value : date) :
  grows n (date_input picked label value).
Proof.
  intros w o' w1 [= <- <-]. apply (extends_by_le 0); [lia |].
  apply (extends_by_shown w [st_sidebar_date_input label value]).
Qed.

Lemma grows_get_coins_list : grows 1 get_coins_list.
Proof. intros w o w1 Hrun. apply (get_coins_list_extends _ _ _ Hrun). Qed.

Lemma grows_get_coin_history (coin_id : string) (from_timestamp to_timestamp : Z) :
  grows 1 (get_coin_history coin_id from_timestamp to_timestamp).
Proof. intros w o w1 Hrun. apply (get_coin_history_extends _ _ _ _ _ _ Hrun). Qed.

(** Steps of the script that issue no GET. *)
Ltac grows_quiet :=
  first [ apply grows_emit | apply grows_lift | apply grows_selectbox
        | apply grows_date_input ].

(** X11.  Whatever a run of the script comes to (it returns, or raises at
    any point), it has issued at most two GETs, the page still starts with
    what was on it, and no cached entry was dropped or replaced. *)
Theorem main_extends (user : Session) (w w1 : World) (o : outcome ()) :
  main user w = (o, w1) →
  transport w1 = transport w ∧
  (gets w ≤ gets w1 ≤ gets w + 2)%nat ∧
  (∃ elements, page w1 = page w ++ elements) ∧
  coins_cache w ⊆ coins_cache w1 ∧
  history_cache w ⊆ history_cache w1.
Proof.
  revert w o w1. change (grows 2 (main user)). unfold main. cbv zeta.
  apply (grows_bind 0 2); [grows_quiet | intros _].
  apply (grows_bind 0 2); [grows_quiet | intros _].
  apply (grows_bind 1 1); [apply grows_get_coins_list | intros coins].
  apply (grows_bind 0 1); [grows_quiet | intros coin_list].
  apply (grows_bind 0 1); [grows_quiet | intros coin_names].
  apply (grows_bind 0 1); [grows_quiet | intros selected_coin_name].
  apply (grows_bind 0 1); [grows_quiet | intros selected_coin_id].
  apply (grows_bind 0 1); [grows_quiet | intros start_date].
  apply (grows_bind 0 1); [grows_quiet | intros end_date].
  destruct (_ && _); [| grows_quiet].
  destruct selected_coin_id as [[| | | coin_id | |] |]; try grows_quiet.
  destruct selected_coin_name as [name |]; try grows_quiet.
  apply (grows_bind 0 1); [grows_quiet | intros _].
  apply (grows_bind 1 0); [apply grows_get_coin_history | intros df].
  destruct (negb (df_empty df)); [| grows_quiet].
  apply (grows_bind 0 0); [grows_quiet | intros fig].
  apply (grows_bind 0 0); [grows_quiet | intros _].
  apply (grows_bind 0 0); [grows_quiet | intros stats].
  destruct (max_price_date stats); try grows_quiet.
  destruct (min_price_date stats); try grows_quiet.
  apply (grows_bind 0 0); [grows_quiet | intros _]. grows_quiet.
Qed.

Lemma main_extends_witness :
  transport (main example_session example_world).2 = transport example_world ∧
  (gets example_world ≤ gets (main example_session example_world).2
     ≤ gets example_world + 2)%nat ∧
  (∃ elements, page (main example_session example_world).2 =
                 page example_world ++ elements) ∧
  coins_cache example_world ⊆ coins_cache (main example_session example_world).2 ∧
  history_cache example_world ⊆ history_cache (main example_session example_world).2.
Proof.
  apply (main_extends example_session example_world
           (main example_session example_world).2
           (main example_session example_world).1).
  vm_compute. reflexivity.
Defined.
(** X12.  With the catalog endpoint answering a failure status the script
    does not crash and asks for no history: it shows the title, the header,
    the error, an empty select box, the two date inputs with their defaults,
    and the request to select a coin.  This holds for every user and date
    selection. *)
Theorem main_catalog_unavailable (user : Session) (w : World) (response : Response) :
  coins_cache w !! () = None →
  transport w (gets w) (mkRequest coins_url []) = inl response →
  ok response = false →
  ∃ w1, main user w = (Returns (), w1) ∧
        page w1 = page w ++
          [st_title "CryptoTracker"; st_sidebar_header "Parameters";
           st_error "Error fetching the coins list.";
           st_sidebar_selectbox "Select a cryptocurrency" [];
           st_sidebar_date_input "Start date"
             (civil_from_days (days_from_civil (now_date user) - 365));
           st_sidebar_date_input "End date" (now_date user);
           st_info "Please select a cryptocurrency and a valid date range where the start date is not after the end date."] ∧
        gets w1 = S (gets w) ∧
        history_cache w1 = history_cache w.
Proof.
  intros Hmiss Hnet Hok. unfold main. cbv zeta. rewrite !bind_emit.
  set (w0 := shown (shown w [st_title "CryptoTracker"]) [st_sidebar_header "Parameters"]).
  assert (Hcat : get_coins_list w0 =
                   (Returns (JArr []),
                    set_coins_cache
                      (<[() := (JArr [], [st_error "Error fetching the coins list."])]>
                         (coins_cache w))
                      (mkWorld (transport w) (S (gets w))
                               (page w0 ++ [st_error "Error fetching the coins list."])
                               (coins_cache w) (history_cache w)))).
  { unfold get_coins_list.
    rewrite (cache_data_miss_returns _ _ _ _ _ _ _ (Hmiss : coins_cache w0 !! () = None)
               (get_coins_list_body_not_ok w0 response Hnet Hok)).
    simpl. rewrite drop_app_length. reflexivity. }
  rewrite (bind_run _ _ _ _ _ Hcat). rewrite !bind_lift. cbn [py_iter omapM].
  rewrite bind_lift, bind_selectbox, bind_lift. cbn [next_coin_id].
  rewrite !bind_date_input. cbn [from_option andb]. rewrite emit_shown.
  eexists. split; [reflexivity |]. simpl. rewrite <- !app_assoc. repeat split.
Qed.

Lemma main_catalog_unavailable_witness :
  ∃ w1, main example_session (fresh_world (mkResponse 500 None)) = (Returns (), w1) ∧
        page w1 = page (fresh_world (mkResponse 500 None)) ++
          [st_title "CryptoTracker"; st_sidebar_header "Parameters";
           st_error "Error fetching the coins list.";
           st_sidebar_selectbox "Select a cryptocurrency" [];
           st_sidebar_date_input "Start date"
             (civil_from_days (days_from_civil (now_date example_session) - 365));
           st_sidebar_date_input "End date" (now_date example_session);
           st_info "Please select a cryptocurrency and a valid date range where the start date is not after the end date."] ∧
        gets w1 = S (gets (fresh_world (mkResponse 500 None))) ∧
        history_cache w1 = history_cache (fresh_world (mkResponse 500 None)).
Proof.
  apply (main_catalog_unavailable example_session (fresh_world (mkResponse 500 None))
           (mkResponse 500 None)); reflexivity.
Defined.
(** X13.  With a start date after the end date no history is asked for,
    whatever the catalog holds and whichever coin is selected: the run
    leaves the history cache as it was, issues at most the catalog's GET,
    and, when it returns, ends the page with the request for a valid
    range. *)
Theorem main_invalid_range (user : Session) (w w1 : World) (o : outcome ()) :
  date_leb (selected_start_date user) (selected_end_date user) = false →
  main user w = (o, w1) →
  history_cache w1 = history_cache w ∧
  (gets w1 ≤ gets w + 1)%nat ∧
  (o = Returns () →
   ∃ elements,
     page w1 = page w ++ elements ++
       [st_info "Please select a cryptocurrency and a valid date range where the start date is not after the end date."]).
Proof.
  intros Hgate Hrun. unfold selected_start_date, selected_end_date in Hgate.
  unfold main in Hrun. cbv zeta in Hrun. rewrite !bind_emit in Hrun.
  unfold bind at 1 in Hrun.
  destruct (get_coins_list _) as [o1 wb] eqn:Hcat.
  destruct (get_coins_list_extends _ _ _ Hcat) as [(_ & Hgets & [shown_b Hpage] & _) Hhist].
  simpl in Hgets, Hpage, Hhist.
  assert (Hstop : ∀ e : outcome (), e ≠ Returns () →
            (e, wb) = (o, w1) →
            history_cache w1 = history_cache w ∧ (gets w1 ≤ gets w + 1)%nat ∧
            (o = Returns () →
             ∃ elements,
               page w1 = page w ++ elements ++
                 [st_info "Please select a cryptocurrency and a valid date range where the start date is not after the end date."])).
  { intros e He [= <- <-]. split; [exact Hhist |]. split; [lia |]. intros ?. contradiction. }
  destruct o1 as [coins | e |];
    [| apply (Hstop (Raises e)); [discriminate | exact Hrun]
     | apply (Hstop Unmodelled); [discriminate | exact Hrun]].
  rewrite bind_lift in Hrun.
  destruct (py_iter coins) as [coin_list | e |];
    [| apply (Hstop (Raises e)); [discriminate | exact Hrun]
     | apply (Hstop Unmodelled); [discriminate | exact Hrun]].
  rewrite bind_lift in Hrun.
  destruct (omapM coin_name coin_list) as [coin_names | e |];
    [| apply (Hstop (Raises e)); [discriminate | exact Hrun]
     | apply (Hstop Unmodelled); [discriminate | exact Hrun]].
  rewrite bind_selectbox, bind_lift in Hrun.
  destruct (next_coin_id _ coin_list) as [selected_coin_id | |].
  - rewrite !bind_date_input, Hgate, andb_false_r in Hrun. cbv iota in Hrun.
    rewrite emit_shown, ?shown_shown in Hrun.
    injection Hrun as <- <-. simpl. split; [exact Hhist |]. split; [lia |]. intros _.
    rewrite Hpage.
    match goal with
    | |- ∃ _, _ ++ [?a; ?b; ?c; _] = _ =>
        exists ([st_title "CryptoTracker"; st_sidebar_header "Parameters"]
                  ++ shown_b ++ [a; b; c])
    end.
    rewrite <- !app_assoc. reflexivity.
  - injection Hrun as <- <-. simpl. split; [exact Hhist |]. split; [lia |]. discriminate.
  - injection Hrun as <- <-. simpl. split; [exact Hhist |]. split; [lia |]. discriminate.
Qed.

Lemma main_invalid_range_witness :
  history_cache
    (main backwards_session example_world).2 = history_cache example_world ∧
  (gets (main backwards_session example_world).2 ≤ gets example_world + 1)%nat ∧
  ((main backwards_session example_world).1 = Returns () →
   ∃ elements,
     page (main backwards_session example_world).2 =
       page example_world ++ elements ++
         [st_info "Please select a cryptocurrency and a valid date range where the start date is not after the end date."]).
Proof.
  apply (main_invalid_range backwards_session example_world).
  - reflexivity.
  - vm_compute. reflexivity.
Defined.
(** ** The selected coin *)

Lemma coin_name_descriptor (coin : json) (desc : string * string) :
  descriptor_of coin = Some desc →
  coin_name coin = Returns desc.2 ∧ py_getitem coin "id" = Returns (JStr desc.1).
Proof.
  unfold descriptor_of, coin_name, py_getitem. destruct coin as [| | | | | fields]; try discriminate.
  destruct (assoc "id" fields) as [[| | | i | |] |]; try discriminate.
  destruct (assoc "name" fields) as [[| | | n | |] |]; try discriminate.
  intros [= <-]. split; reflexivity.
Qed.

Lemma omapM_coin_name (coins : list json) (descs : list (string * string)) :
  Forall2 (λ coin desc, descriptor_of coin = Some desc) coins descs →
  omapM coin_name coins = Returns descs.*2.
Proof.
  induction 1 as [| coin desc coins descs Hdesc _ IH]; [reflexivity |].
  cbn [omapM]. rewrite (proj1 (coin_name_descriptor _ _ Hdesc)), IH. reflexivity.
Qed.

(** X14.  The id handed to the history request is the id of the first coin
    of the catalog that carries the selected name.  With names that are
    pairwise distinct this is the coin picked in the select box; a coin
    whose name repeats that of an earlier coin can be picked, and the
    earlier coin's id is used. *)
Theorem next_coin_id_first_name (coins : list json) (descs : list (string * string))
    (i : nat) (picked : string * string) :
  Forall2 (λ coin desc, descriptor_of coin = Some desc) coins descs →
  descs !! i = Some picked →
  omapM coin_name coins = Returns descs.*2 ∧
  ∃ j first,
    (j ≤ i)%nat ∧ descs !! j = Some first ∧ first.2 = picked.2 ∧
    (∀ k desc, (k < j)%nat → descs !! k = Some desc → desc.2 ≠ picked.2) ∧
    next_coin_id (Some picked.2) coins = Returns (Some (JStr first.1)) ∧
    (NoDup descs.*2 → first = picked).
Proof.
  intros Hdescs Hpicked. split; [apply omapM_coin_name, Hdescs |]. revert i Hpicked.
  induction Hdescs as [| coin desc coins descs Hdesc Hdescs IH]; intros i Hi; [discriminate |].
  destruct (coin_name_descriptor _ _ Hdesc) as [Hname Hid].
  cbn [next_coin_id]. rewrite Hname. cbn [obind].
  destruct (decide (desc.2 = picked.2)) as [Heq | Hne].
  - rewrite bool_decide_eq_true_2 by congruence. rewrite Hid. cbn [obind].
    exists 0%nat, desc. split; [lia |]. split; [reflexivity |]. split; [exact Heq |].
    split; [intros k dk Hk; lia |]. split; [reflexivity |].
    intros Hnodup. destruct i as [| i]; [simpl in Hi; congruence |]. exfalso.
    cbn [fmap list_fmap] in Hnodup. apply NoDup_cons in Hnodup as [Hnotin _].
    apply Hnotin. rewrite Heq. apply list_elem_of_fmap. exists picked.
    split; [reflexivity |]. eapply list_elem_of_lookup_2, Hi.
  - rewrite bool_decide_eq_false_2 by congruence.
    destruct i as [| i]; [simpl in Hi; congruence |].
    destruct (IH i Hi) as (j & first & Hji & Hj & Hsame & Hbefore & Hnext & Hnodup).
    exists (S j), first. split; [lia |]. split; [exact Hj |]. split; [exact Hsame |].
    split; [| split; [exact Hnext |]].
    + intros [| k] dk Hk Hdk; [simpl in Hdk; congruence |].
      apply (Hbefore k dk); [lia | exact Hdk].
    + intros Hnd. apply Hnodup. cbn [fmap list_fmap] in Hnd.
      apply NoDup_cons in Hnd as [_ Hnd]. exact Hnd.
Qed.

Lemma next_coin_id_first_name_witness :
  omapM coin_name
    [JObj [("id", JStr "bitcoin"); ("name", JStr "Bitcoin")];
     JObj [("id", JStr "bitcoin-2"); ("name", JStr "Bitcoin")]] =
    Returns [("bitcoin", "Bitcoin"); ("bitcoin-2", "Bitcoin")].*2 ∧
  ∃ j first,
    (j ≤ 1)%nat ∧
    [("bitcoin", "Bitcoin"); ("bitcoin-2", "Bitcoin")] !! j = Some first ∧
    first.2 = ("bitcoin-2", "Bitcoin").2 ∧
    (∀ k desc, (k < j)%nat →
               [("bitcoin", "Bitcoin"); ("bitcoin-2", "Bitcoin")] !! k = Some desc →
               desc.2 ≠ ("bitcoin-2", "Bitcoin").2) ∧
    next_coin_id (Some ("bitcoin-2", "Bitcoin").2)
      [JObj [("id", JStr "bitcoin"); ("name", JStr "Bitcoin")];
       JObj [("id", JStr "bitcoin-2"); ("name", JStr "Bitcoin")]] =
      Returns (Some (JStr first.1)) ∧
    (NoDup [("bitcoin", "Bitcoin"); ("bitcoin-2", "Bitcoin")].*2 →
     first = ("bitcoin-2", "Bitcoin")).
Proof.
  apply (next_coin_id_first_name
           [JObj [("id", JStr "bitcoin"); ("name", JStr "Bitcoin")];
            JObj [("id", JStr "bitcoin-2"); ("name", JStr "Bitcoin")]]
           [("bitcoin", "Bitcoin"); ("bitcoin-2", "Bitcoin")] 1
           ("bitcoin-2", "Bitcoin")).
  - repeat constructor.
  - reflexivity.
Defined.
(** ** The default window *)

(** The days before a year of the March-based count. *)
Lemma days_before_year (y : Z) :
  y / 400 * 146097 + ((y - y / 400 * 400) * 365 + (y - y / 400 * 400) / 4
                      - (y - y / 400 * 400) / 100) =
    365 * y + y / 4 - y / 100 + y / 400.
Proof. Z.div_mod_to_equations. lia. Qed.

Lemma leap_day_count (y : Z) :
  y / 4 - y / 100 + y / 400 =
    (y - 1) / 4 - (y - 1) / 100 + (y - 1) / 400 + (if is_leap_year y then 1 else 0).
Proof.
  assert (H4 : y / 4 = (y - 1) / 4 + (if y mod 4 =? 0 then 1 else 0))
    by (destruct (Z.eqb_spec (y mod 4) 0); Z.div_mod_to_equations; lia).
  assert (H100 : y / 100 = (y - 1) / 100 + (if y mod 100 =? 0 then 1 else 0))
    by (destruct (Z.eqb_spec (y mod 100) 0); Z.div_mod_to_equations; lia).
  assert (H400 : y / 400 = (y - 1) / 400 + (if y mod 400 =? 0 then 1 else 0))
    by (destruct (Z.eqb_spec (y mod 400) 0); Z.div_mod_to_equations; lia).
  rewrite H4, H100, H400. unfold is_leap_year.
  destruct (Z.eqb_spec (y mod 4) 0), (Z.eqb_spec (y mod 100) 0), (Z.eqb_spec (y mod 400) 0);
    cbn [andb orb negb]; try lia; exfalso; Z.div_mod_to_equations; lia.
Qed.

(** A year back in the calendar is 365 days back, or 366 across a leap
    day. *)
Lemma days_from_civil_year (year month day : Z) :
  days_from_civil (mkDate year month day) =
    days_from_civil (mkDate (year - 1) month day) + 365 +
    (if is_leap_year (if month <=? 2 then year - 1 else year) then 1 else 0).
Proof.
  unfold days_from_civil.
  set (y := if month <=? 2 then year - 1 else year).
  replace (if month <=? 2 then year - 1 - 1 else year - 1) with (y - 1)
    by (unfold y; destruct (month <=? 2); reflexivity).
  set (doy := (153 * (if month <=? 2 then month + 9 else month - 3) + 2) / 5 + day - 1).
  pose proof (days_before_year y) as Hy.
  pose proof (days_before_year (y - 1)) as Hy1.
  pose proof (leap_day_count y) as Hleap.
  lia.
Qed.
(** X15.  The default start date, 365 days before today, is never after
    today, so a user who keeps both defaults passes the range check.  It is
    today's day and month of the year before, unless a 29 February lies in
    between: then it is the day after that, and from a 29 February it is
    1 March. *)
Theorem default_start_date (year month day : Z) :
  valid_date (mkDate year month day) →
  date_leb (civil_from_days (days_from_civil (mkDate year month day) - 365))
           (mkDate year month day) = true ∧
  civil_from_days (days_from_civil (mkDate year month day) - 365) =
    if is_leap_year (if month <=? 2 then year - 1 else year)
    then next_day (mkDate (year - 1) month day)
    else if (month =? 2) && (day =? 29) then mkDate (year - 1) 3 1
    else mkDate (year - 1) month day.
Proof.
  intros Hvalid. split.
  { rewrite <- (civil_from_days_days_from_civil _ Hvalid) at 2.
    apply civil_from_days_mono. lia. }
  rewrite days_from_civil_year.
  destruct Hvalid as [Hmonth Hday].
  assert (Hleap4 : ∀ y, is_leap_year y = true → is_leap_year (y - 1) = false).
  { intros y. unfold is_leap_year. rewrite andb_true_iff, andb_false_iff, Z.eqb_eq, Z.eqb_neq.
    intros [H4 _]. left. Z.div_mod_to_equations. lia. }
  assert (Hprev : ¬ (month = 2 ∧ day = 29) → valid_date (mkDate (year - 1) month day)).
  { intros Hnot. split; [exact Hmonth |]. revert Hday. unfold days_in_month.
    destruct (Z.eqb_spec month 2) as [Hm | Hm]; [| tauto].
    destruct (is_leap_year year), (is_leap_year (year - 1)); lia. }
  destruct (is_leap_year (if month <=? 2 then year - 1 else year)) eqn:Hleap.
  - (* a leap day in between *)
    replace (days_from_civil (mkDate (year - 1) month day) + 365 + 1 - 365)
      with (days_from_civil (mkDate (year - 1) month day) + 1) by lia.
    rewrite civil_from_days_succ. f_equal. apply civil_from_days_days_from_civil, Hprev.
    intros [-> ->]. change (2 <=? 2) with true in Hleap. cbn iota in Hleap.
    revert Hday. unfold days_in_month. change (2 =? 2) with true. cbn iota.
    destruct (is_leap_year year) eqn:Hyear; [| lia].
    apply Hleap4 in Hyear. congruence.
  - replace (days_from_civil (mkDate (year - 1) month day) + 365 + 0 - 365)
      with (days_from_civil (mkDate (year - 1) month day)) by lia.
    destruct (Z.eqb_spec month 2) as [-> | Hm]; cbn [andb];
      [destruct (Z.eqb_spec day 29) as [-> | Hd] |].
    + (* 29 February *)
      change (2 <=? 2) with true in Hleap. cbn iota in Hleap.
      rewrite <- (civil_from_days_days_from_civil (mkDate (year - 1) 3 1))
        by (unfold valid_date, days_in_month; cbn; lia).
      f_equal. rewrite (days_from_civil_year (year - 1) 3 1).
      change (3 <=? 2) with false. cbn iota. rewrite Hleap.
      unfold days_from_civil. change (2 <=? 2) with true. change (3 <=? 2) with false.
      cbn iota. change ((153 * (2 + 9) + 2) / 5) with 337.
      change ((153 * (3 - 3) + 2) / 5) with 0. lia.
    + apply civil_from_days_days_from_civil, Hprev. lia.
    + apply civil_from_days_days_from_civil, Hprev. lia.
Qed.

Lemma default_start_date_witness :
  date_leb (civil_from_days (days_from_civil (mkDate 2024 3 1) - 365)) (mkDate 2024 3 1)
    = true ∧
  civil_from_days (days_from_civil (mkDate 2024 3 1) - 365) =
    if is_leap_year (if 3 <=? 2 then 2024 - 1 else 2024)
    then next_day (mkDate (2024 - 1) 3 1)
    else if (3 =? 2) && (1 =? 29) then mkDate (2024 - 1) 3 1
    else mkDate (2024 - 1) 3 1.
Proof.
  apply (default_start_date 2024 3 1). unfold valid_date, days_in_month. simpl. lia.
Defined.

Example default_start_dates :
  civil_from_days (days_from_civil (mkDate 2023 11 20) - 365) = mkDate 2022 11 20 ∧
  civil_from_days (days_from_civil (mkDate 2024 3 1) - 365) = mkDate 2023 3 2 ∧
  civil_from_days (days_from_civil (mkDate 2024 2 29) - 365) = mkDate 2023 3 1 ∧
  civil_from_days (days_from_civil (mkDate 2025 2 28) - 365) = mkDate 2024 2 29.
Proof. repeat split. Qed.
(** ** The frame behind the statistics *)





(** ** A run that shows a history *)

Lemma next_coin_id_distinct_names (coins : list json) (descs : list (string * string))
    (i : nat) (coin_id name : string) :
  Forall2 (λ coin desc, descriptor_of coin = Some desc) coins descs →
  NoDup descs.*2 →
  descs !! i = Some (coin_id, name) →
  next_coin_id (Some name) coins = Returns (Some (JStr coin_id)).
Proof.
  intros Hdescs. revert i.
  induction Hdescs as [| coin desc coins descs Hdesc Hdescs IH]; intros i Hnodup Hi;
    [discriminate |].
  destruct (coin_name_descriptor _ _ Hdesc) as [Hname Hid].
  cbn [fmap list_fmap] in Hnodup. apply NoDup_cons in Hnodup as [Hnotin Hnodup].
  cbn [next_coin_id]. rewrite Hname. cbn [obind].
  destruct i as [| i].
  - injection Hi as ->. rewrite bool_decide_eq_true_2 by reflexivity.
    rewrite Hid. reflexivity.
  - rewrite bool_decide_eq_false_2; [apply (IH i Hnodup Hi) |].
    intros [= Heq]. apply Hnotin. rewrite Heq. apply list_elem_of_fmap.
    exists (coin_id, name). split; [reflexivity |]. eapply list_elem_of_lookup_2, Hi.
Qed.

(** The run up to the history request, for a fresh catalog of coins with
    pairwise distinct names and a selection that passes the check. *)
Lemma main_selected (user : Session) (w : World) (catalog : Response)
    (coins : list json) (descs : list (string * string)) (coin_id name : string) :
  coins_cache w !! () = None →
  transport w (gets w) (mkRequest coins_url []) = inl catalog →
  ok catalog = true →
  body catalog = Some (JArr coins) →
  Forall2 (λ coin desc, descriptor_of coin = Some desc) coins descs →
  NoDup descs.*2 →
  descs !! picked_coin user = Some (coin_id, name) →
  coin_id ≠ "" →
  date_leb (selected_start_date user) (selected_end_date user) = true →
  main user w =
    bind (get_coin_history coin_id (from_timestamp_of user) (to_timestamp_of user))
         (show_history name (selected_start_date user) (selected_end_date user))
         (mkWorld (transport w) (S (gets w))
            (page w ++
               [st_title "CryptoTracker"; st_sidebar_header "Parameters";
                st_sidebar_selectbox "Select a cryptocurrency" descs.*2;
                st_sidebar_date_input "Start date"
                  (civil_from_days (days_from_civil (now_date user) - 365));
                st_sidebar_date_input "End date" (now_date user);
                st_spinner "Fetching data..."])
            (<[() := (JArr coins, [])]> (coins_cache w)) (history_cache w)).
Proof.
  intros Hcmiss Hcnet Hcok Hcbody Hdescs Hnodup Hpick Hid Hgate.
  unfold main. cbv zeta. rewrite !bind_emit.
  set (w0 := shown (shown w [st_title "CryptoTracker"]) [st_sidebar_header "Parameters"]).
  assert (Hcat : get_coins_list w0 =
                   (Returns (JArr coins),
                    set_coins_cache (<[() := (JArr coins, [])]> (coins_cache w))
                      (mkWorld (transport w) (S (gets w)) (page w0)
                               (coins_cache w) (history_cache w)))).
  { unfold get_coins_list.
    pose proof (get_coins_list_body_ok w0 catalog Hcnet Hcok) as Hbody.
    unfold response_json in Hbody. rewrite Hcbody in Hbody.
    rewrite (cache_data_miss_returns _ _ _ _ _ _ _ (Hcmiss : coins_cache w0 !! () = None) Hbody).
    simpl. rewrite drop_all. reflexivity. }
  rewrite (bind_run _ _ _ _ _ Hcat). rewrite bind_lift. cbn [py_iter].
  rewrite bind_lift, (omapM_coin_name _ _ Hdescs), bind_selectbox.
  rewrite list_lookup_fmap, Hpick. cbn [fmap option_fmap option_map snd].
  rewrite bind_lift, (next_coin_id_distinct_names _ _ _ _ _ Hdescs Hnodup Hpick).
  rewrite !bind_date_input.
  fold (selected_start_date user) (selected_end_date user).
  rewrite Hgate. cbn [from_option py_truthy andb].
  replace (String.eqb coin_id "") with false
    by (symmetry; apply String.eqb_neq; exact Hid).
  cbn [negb andb]. rewrite bind_emit, ?shown_shown.
  fold (from_timestamp_of user) (to_timestamp_of user).
  unfold w0, shown, set_coins_cache. simpl. rewrite <- !app_assoc. reflexivity.
Qed.

(** X17.  A whole run on a fresh process.  The catalog answers with coins
    of pairwise distinct names, the user picks one with a non-empty id and a
    range whose start is not after its end, and the history answers with at
    least one point.  Then the script returns after two GETs, and the page
    gains, in this order: title, header, the select box with every name, the
    two date inputs, the spinner, the chart of the [{date, price}] frame with
    its range slider, and the two metrics, which carry the first maximum and
    the first minimum of the series in 12 decimals, each with its date. *)
Theorem main_shows_history (user : Session) (w : World) (catalog history : Response)
    (coins : list json) (descs : list (string * string)) (coin_id name : string)
    (fields : list (string * json)) (rows : list (Z * Qc)) :
  coins_cache w !! () = None →
  history_cache w !! (coin_id, from_timestamp_of user, to_timestamp_of user) = None →
  transport w (gets w) (mkRequest coins_url []) = inl catalog →
  ok catalog = true →
  body catalog = Some (JArr coins) →
  Forall2 (λ coin desc, descriptor_of coin = Some desc) coins descs →
  NoDup descs.*2 →
  descs !! picked_coin user = Some (coin_id, name) →
  coin_id ≠ "" →
  date_leb (selected_start_date user) (selected_end_date user) = true →
  transport w (S (gets w))
    (history_request coin_id (from_timestamp_of user) (to_timestamp_of user)) = inl history →
  ok history = true →
  body history = Some (JObj fields) →
  assoc "prices" fields = Some (json_of_prices rows) →
  Forall (λ row, ns_in_bounds row.1 = true) rows →
  rows ≠ [] →
  ∃ w1 imax imin dmax pmax dmin pmin,
    main user w = (Returns (), w1) ∧
    gets w1 = S (S (gets w)) ∧
    page w1 = page w ++
      [st_title "CryptoTracker"; st_sidebar_header "Parameters";
       st_sidebar_selectbox "Select a cryptocurrency" descs.*2;
       st_sidebar_date_input "Start date"
         (civil_from_days (days_from_civil (now_date user) - 365));
       st_sidebar_date_input "End date" (now_date user);
       st_spinner "Fetching data...";
       st_plotly_chart
         (mkFigure (frame_of_series (map (λ row, (date_of_ms row.1, row.2)) rows))
            "date" "price"
            ("Price of " +:+ name +:+ " from " +:+ date_str (selected_start_date user)
             +:+ " to " +:+ date_str (selected_end_date user))
            [("price", "Price (USD)"); ("date", "Date")] true);
       st_metric 1 "Maximum Price" ("$" +:+ format_12f pmax) ("Date: " +:+ date_str dmax);
       st_metric 2 "Minimum Price" ("$" +:+ format_12f pmin) ("Date: " +:+ date_str dmin)] ∧
    map (λ row, (date_of_ms row.1, row.2)) rows !! imax = Some (dmax, pmax) ∧
    map (λ row, (date_of_ms row.1, row.2)) rows !! imin = Some (dmin, pmin) ∧
    first_extreme Qcle Qclt (map snd rows) imax pmax ∧
    first_extreme (λ y m, m <= y)%Qc (λ y m, m < y)%Qc (map snd rows) imin pmin.
Proof.
  intros Hcmiss Hhmiss Hcnet Hcok Hcbody Hdescs Hnodup Hpick Hid Hgate
         Hhnet Hhok Hhbody Hprices Hbounds Hrows.
  set (series := map (λ row : Z * Qc, (date_of_ms row.1, row.2)) rows).
  assert (Hseries : series ≠ []) by (unfold series; destruct rows; [congruence | discriminate]).
  destruct (main_statistics_series series Hseries)
    as (imax & imin & dmax & pmax & dmin & pmin & Hstats & Hmax & Hmin & Hfmax & Hfmin).
  replace (map snd series) with (map snd rows) in Hfmax, Hfmin
    by (unfold series; rewrite map_map; reflexivity).
  rewrite (main_selected user w catalog coins descs coin_id name) by assumption.
  match goal with
  | |- context [bind (get_coin_history _ _ _) _ ?w2] => set (w2' := w2)
  end.
  assert (Hhist : get_coin_history coin_id (from_timestamp_of user) (to_timestamp_of user) w2' =
                    (Returns (frame_of_series series),
                     set_history_cache
                       (<[(coin_id, from_timestamp_of user, to_timestamp_of user) :=
                            (frame_of_series series, [])]> (history_cache w))
                       (mkWorld (transport w) (S (S (gets w))) (page w2')
                                (<[() := (JArr coins, [])]> (coins_cache w))
                                (history_cache w)))).
  { unfold get_coin_history.
    pose proof (get_coin_history_body_ok w2' history coin_id (from_timestamp_of user)
                  (to_timestamp_of user) Hhnet Hhok) as Hbody.
    rewrite (history_of_response_prices _ _ _ Hhbody Hprices Hbounds) in Hbody.
    rewrite (cache_data_miss_returns _ _ _ _ _ _ _
               (Hhmiss : history_cache w2' !! _ = None) Hbody).
    simpl. rewrite drop_all. reflexivity. }
  rewrite (bind_run _ _ _ _ _ Hhist). unfold show_history.
  replace (negb (df_empty (frame_of_series series))) with true
    by (unfold series; destruct rows; [congruence | reflexivity]).
  rewrite bind_lift.
  change (px_line (frame_of_series series) "date" "price" ?t ?l)
    with (Returns (mkFigure (frame_of_series series) "date" "price" t l false)).
  cbv iota zeta. rewrite bind_emit, bind_lift, Hstats. cbn [max_price_date min_price_date].
  rewrite bind_emit, emit_shown. cbn [max_price_formatted min_price_formatted].
  eexists _, imax, imin, dmax, pmax, dmin, pmin.
  split; [reflexivity |]. split; [reflexivity |].
  split; [| split; [exact Hmax | split; [exact Hmin | split; [exact Hfmax | exact Hfmin]]]].
  simpl. rewrite <- !app_assoc. reflexivity.
Qed.
Lemma main_shows_history_witness :
  ∃ w1 imax imin dmax pmax dmin pmin,
    main example_session example_world = (Returns (), w1) ∧
    gets w1 = S (S (gets example_world)) ∧
    page w1 = page example_world ++
      [st_title "CryptoTracker"; st_sidebar_header "Parameters";
       st_sidebar_selectbox "Select a cryptocurrency" [("bitcoin", "Bitcoin")].*2;
       st_sidebar_date_input "Start date"
         (civil_from_days (days_from_civil (now_date example_session) - 365));
       st_sidebar_date_input "End date" (now_date example_session);
       st_spinner "Fetching data...";
       st_plotly_chart
         (mkFigure (frame_of_series (map (λ row, (date_of_ms row.1, row.2)) example_prices))
            "date" "price"
            ("Price of " +:+ "Bitcoin" +:+ " from "
             +:+ date_str (selected_start_date example_session)
             +:+ " to " +:+ date_str (selected_end_date example_session))
            [("price", "Price (USD)"); ("date", "Date")] true);
       st_metric 1 "Maximum Price" ("$" +:+ format_12f pmax) ("Date: " +:+ date_str dmax);
       st_metric 2 "Minimum Price" ("$" +:+ format_12f pmin) ("Date: " +:+ date_str dmin)] ∧
    map (λ row, (date_of_ms row.1, row.2)) example_prices !! imax = Some (dmax, pmax) ∧
    map (λ row, (date_of_ms row.1, row.2)) example_prices !! imin = Some (dmin, pmin) ∧
    first_extreme Qcle Qclt (map snd example_prices) imax pmax ∧
    first_extreme (λ y m, m <= y)%Qc (λ y m, m < y)%Qc (map snd example_prices) imin pmin.
Proof.
  apply (main_shows_history example_session example_world
           (mkResponse 200 (Some bitcoin_catalog)) example_history
           [JObj [("id", JStr "bitcoin"); ("symbol", JStr "btc"); ("name", JStr "Bitcoin")]]
           [("bitcoin", "Bitcoin")] "bitcoin" "Bitcoin"
           [("prices", json_of_prices example_prices)] example_prices).
  - reflexivity.
  - vm_compute. reflexivity.
  - reflexivity.
  - reflexivity.
  - reflexivity.
  - repeat constructor.
  - apply NoDup_singleton.
  - reflexivity.
  - discriminate.
  - vm_compute. reflexivity.
  - vm_compute. reflexivity.
  - reflexivity.
  - reflexivity.
  - reflexivity.
  - repeat constructor.
  - discriminate.
Defined.
(** X18.  A run whose history request brings no data.  The catalog answers
    with coins of pairwise distinct names and the user picks one with a
    non-empty id and a range whose start is not after its end.  A history
    endpoint that answers a failure status, or a success whose object has no
    [prices], does not stop the script: after the spinner the page gains the
    error of the fetch (only for a failure status) and the notification that
    there is no data, and neither a chart nor a metric. *)
Theorem main_no_data (user : Session) (w : World) (catalog history : Response)
    (coins : list json) (descs : list (string * string)) (coin_id name : string) :
  coins_cache w !! () = None →
  history_cache w !! (coin_id, from_timestamp_of user, to_timestamp_of user) = None →
  transport w (gets w) (mkRequest coins_url []) = inl catalog →
  ok catalog = true →
  body catalog = Some (JArr coins) →
  Forall2 (λ coin desc, descriptor_of coin = Some desc) coins descs →
  NoDup descs.*2 →
  descs !! picked_coin user = Some (coin_id, name) →
  coin_id ≠ "" →
  date_leb (selected_start_date user) (selected_end_date user) = true →
  transport w (S (gets w))
    (history_request coin_id (from_timestamp_of user) (to_timestamp_of user)) = inl history →
  ok history = false ∨
  (∃ fields, body history = Some (JObj fields) ∧ assoc "prices" fields = None) →
  ∃ w1,
    main user w = (Returns (), w1) ∧
    gets w1 = S (S (gets w)) ∧
    page w1 = page w ++
      [st_title "CryptoTracker"; st_sidebar_header "Parameters";
       st_sidebar_selectbox "Select a cryptocurrency" descs.*2;
       st_sidebar_date_input "Start date"
         (civil_from_days (days_from_civil (now_date user) - 365));
       st_sidebar_date_input "End date" (now_date user);
       st_spinner "Fetching data..."] ++
      (if ok history then []
       else [st_error ("Error fetching the historical data for " +:+ coin_id +:+ ".")]) ++
      [st_error "No data available for the selected cryptocurrency and date range."].
Proof.
  intros Hcmiss Hhmiss Hcnet Hcok Hcbody Hdescs Hnodup Hpick Hid Hgate Hhnet Hnodata.
  rewrite (main_selected user w catalog coins descs coin_id name) by assumption.
  match goal with
  | |- context [bind (get_coin_history _ _ _) _ ?w2] => set (w2' := w2)
  end.
  unfold bind, get_coin_history.
  destruct (ok history) eqn:Hhok.
  - destruct Hnodata as [? | (fields & Hbody & Hprices)]; [discriminate |].
    pose proof (get_coin_history_body_ok w2' history coin_id (from_timestamp_of user)
                  (to_timestamp_of user) Hhnet Hhok) as Hrun.
    rewrite (history_of_response_no_prices _ _ Hbody Hprices) in Hrun.
    rewrite (cache_data_miss_returns _ _ _ _ _ _ _
               (Hhmiss : history_cache w2' !! _ = None) Hrun).
    eexists. split; [reflexivity |]. split; [reflexivity |].
    simpl. rewrite <- !app_assoc. reflexivity.
  - pose proof (get_coin_history_body_not_ok w2' history coin_id (from_timestamp_of user)
                  (to_timestamp_of user) Hhnet Hhok) as Hrun.
    rewrite (cache_data_miss_returns _ _ _ _ _ _ _
               (Hhmiss : history_cache w2' !! _ = None) Hrun).
    eexists. split; [reflexivity |]. split; [reflexivity |].
    simpl. rewrite <- !app_assoc. reflexivity.
Qed.
Lemma main_no_data_witness :
  ∃ w1,
    main example_session no_history_world = (Returns (), w1) ∧
    gets w1 = S (S (gets no_history_world)) ∧
    page w1 = page no_history_world ++
      [st_title "CryptoTracker"; st_sidebar_header "Parameters";
       st_sidebar_selectbox "Select a cryptocurrency" [("bitcoin", "Bitcoin")].*2;
       st_sidebar_date_input "Start date"
         (civil_from_days (days_from_civil (now_date example_session) - 365));
       st_sidebar_date_input "End date" (now_date example_session);
       st_spinner "Fetching data..."] ++
      (if ok (mkResponse 404 None) then []
       else [st_error ("Error fetching the historical data for " +:+ "bitcoin" +:+ ".")]) ++
      [st_error "No data available for the selected cryptocurrency and date range."].
Proof.
  apply (main_no_data example_session no_history_world
           (mkResponse 200 (Some bitcoin_catalog)) (mkResponse 404 None)
           [JObj [("id", JStr "bitcoin"); ("symbol", JStr "btc"); ("name", JStr "Bitcoin")]]
           [("bitcoin", "Bitcoin")] "bitcoin" "Bitcoin").
  - reflexivity.
  - vm_compute. reflexivity.
  - reflexivity.
  - reflexivity.
  - reflexivity.
  - repeat constructor.
  - apply NoDup_singleton.
  - reflexivity.
  - discriminate.
  - vm_compute. reflexivity.
  - vm_compute. reflexivity.
  - left. reflexivity.
Defined.

(** ** The requested window *)

(** [round_binary64] on values whose floats are known: 0.1, 1/3, odd
    integers above 2^53 (ties, which go to the even significand) and a tie
    between the two smallest subnormals. *)
Example round_binary64_examples :
  Qeq (round_binary64 (1 # 10)) (3602879701896397 # 36028797018963968) ∧
  Qeq (round_binary64 (1 # 3)) (6004799503160661 # 18014398509481984) ∧
  Qeq (round_binary64 (inject_Z (2 ^ 53 + 1))) (inject_Z (2 ^ 53)) ∧
  Qeq (round_binary64 (inject_Z (2 ^ 53 + 3))) (inject_Z (2 ^ 53 + 4)) ∧
  Qeq (round_binary64 (3 # Z.to_pos (2 ^ 1075))) (1 # Z.to_pos (2 ^ 1073)).
Proof. vm_compute. repeat split. Qed.

Lemma round_half_even_multiple (k d : Z) : 0 < d → round_half_even (k * d) d = k.
Proof.
  intros Hd. pose proof (round_half_even_exact (k * d) d Hd (Z.mod_mul k d ltac:(lia))).
  nia.
Qed.

(** A whole number of seconds survives the float: [int(x + 0 / 1e6)]. *)
Lemma datetime_timestamp_whole (x : Z) :
  Z.abs x < 2 ^ 53 → py_int (datetime_timestamp x 0) = x.
Proof.
  intros Hx. unfold datetime_timestamp.
  change (round_binary64 (0 # 1000000)) with (0 # 4503599627370496)%Q.
  destruct (Z.eq_dec x 0) as [-> | Hnz]; [reflexivity |].
  unfold Qplus, inject_Z. cbn [Qnum Qden]. rewrite Z.mul_0_l, Z.add_0_r.
  change (1 * 4503599627370496)%positive with 4503599627370496%positive.
  unfold round_binary64, floor_log2. cbn [Qnum Qden].
  rewrite Z.abs_mul. change (Z.abs 4503599627370496) with 4503599627370496.
  replace (4503599627370496 <=? Z.abs x * 4503599627370496) with true
    by (symmetry; apply Z.leb_le; lia).
  rewrite Z.div_mul by lia.
  pose proof (Z.log2_nonneg (Z.abs x)) as Hk0.
  assert (Hk : Z.log2 (Z.abs x) < 53) by (apply Z.log2_lt_pow2; lia).
  set (k := Z.log2 (Z.abs x)) in *.
  rewrite Z.max_l by lia.
  replace (k - 52 <=? 0) with true by (symmetry; apply Z.leb_le; lia).
  replace (- (k - 52)) with (52 - k) by lia.
  assert (Hp : 0 < 2 ^ (52 - k)) by (apply Z.pow_pos_nonneg; lia).
  replace (x * 4503599627370496 * 2 ^ (52 - k)) with (x * 2 ^ (52 - k) * 4503599627370496)
    by lia.
  rewrite round_half_even_multiple by lia.
  unfold py_int. cbn [Qnum Qden]. rewrite Z2Pos.id by exact Hp.
  apply Z.quot_mul. lia.
Qed.

(** [microsecond / 1e6] for the last microsecond of a second. *)
Lemma last_microsecond_fraction :
  round_binary64 (999999 # 1000000) = (9007190247541737 # 9007199254740992)%Q.
Proof. vm_compute. reflexivity. Qed.

Ltac pow2_values :=
  repeat match goal with
         | |- context [2 ^ ?n] =>
             let v := eval vm_compute in (2 ^ n) in change (2 ^ n) with v
         | H : context [2 ^ ?n] |- _ =>
             let v := eval vm_compute in (2 ^ n) in change (2 ^ n) with v in H
         end.

(** Within one binade of the seconds: the sum [x + 0.999999] is rounded to
    a multiple of [2^(k - 52)], which stays below [x + 1] as long as that
    unit is finer than two microseconds. *)
Lemma last_microsecond_binade (k x : Z) :
  0 <= k <= 37 → 2 ^ k <= x < 2 ^ (k + 1) →
  Z.quot (round_half_even ((x * 9007199254740992 + 9007190247541737) * 2 ^ (52 - k))
                          9007199254740992)
         (2 ^ (52 - k)) =
    if x <? 2 ^ 34 then x else x + 1.
Proof.
  intros Hk Hx.
  assert (Hcases : k = 0 ∨ k = 1 ∨ k = 2 ∨ k = 3 ∨ k = 4 ∨ k = 5 ∨ k = 6 ∨ k = 7 ∨ k = 8 ∨
                   k = 9 ∨ k = 10 ∨ k = 11 ∨ k = 12 ∨ k = 13 ∨ k = 14 ∨ k = 15 ∨ k = 16 ∨
                   k = 17 ∨ k = 18 ∨ k = 19 ∨ k = 20 ∨ k = 21 ∨ k = 22 ∨ k = 23 ∨ k = 24 ∨
                   k = 25 ∨ k = 26 ∨ k = 27 ∨ k = 28 ∨ k = 29 ∨ k = 30 ∨ k = 31 ∨ k = 32 ∨
                   k = 33 ∨ k = 34 ∨ k = 35 ∨ k = 36 ∨ k = 37) by lia.
  clear Hk.
  repeat (destruct Hcases as [-> | Hcases]); try subst k;
    pow2_values; unfold round_half_even;
    destruct (Z.ltb_spec x 17179869184);
    repeat match goal with
           | |- context [if ?a <? ?b then _ else _] => destruct (Z.ltb_spec a b)
           | |- context [if Z.even ?a then _ else _] => destruct (Z.even a)
           end;
    Z.quot_rem_to_equations; Z.div_mod_to_equations; lia.
Qed.

(** The last microsecond of a second, [int(x + 999999 / 1e6)]: up to
    [2^34] seconds the float lies below [x + 1] and is cut to [x]; from
    there on binary64 has no value between [x + 0.999999] and [x + 1] that
    is nearer, and the result is [x + 1]. *)
Lemma datetime_timestamp_last_microsecond (x : Z) :
  0 <= x < 2 ^ 38 →
  py_int (datetime_timestamp x 999999) = if x <? 2 ^ 34 then x else x + 1.
Proof.
  intros Hx. unfold datetime_timestamp. rewrite last_microsecond_fraction.
  destruct (Z.eq_dec x 0) as [-> | Hnz]; [vm_compute; reflexivity |].
  unfold Qplus, inject_Z. cbn [Qnum Qden]. rewrite Z.mul_1_r.
  change (1 * 9007199254740992)%positive with 9007199254740992%positive.
  unfold round_binary64, floor_log2. cbn [Qnum Qden].
  rewrite Z.abs_eq by lia.
  replace (9007199254740992 <=? x * 9007199254740992 + 9007190247541737) with true
    by (symmetry; apply Z.leb_le; lia).
  replace ((x * 9007199254740992 + 9007190247541737) / 9007199254740992) with x
    by (Z.div_mod_to_equations; lia).
  pose proof (Z.log2_nonneg x) as Hk0.
  assert (Hk : Z.log2 x < 38) by (apply Z.log2_lt_pow2; lia).
  pose proof (Z.log2_spec x ltac:(lia)) as Hbinade.
  set (k := Z.log2 x) in *.
  rewrite Z.max_l by lia.
  replace (k - 52 <=? 0) with true by (symmetry; apply Z.leb_le; lia).
  replace (- (k - 52)) with (52 - k) by lia.
  unfold py_int. cbn [Qnum Qden].
  rewrite Z2Pos.id by (apply Z.pow_pos_nonneg; lia).
  apply last_microsecond_binade; [lia |]. replace (k + 1) with (Z.succ k) by lia. exact Hbinade.
Qed.

(** X19.  The requested window, in a zone with a fixed UTC offset, for a
    start date from 1970 on that is not after the end date.  While the last
    second of the end date lies before [2^34] seconds (30 May 2514), the
    window runs from the first second of the start date to the last second
    of the end date.  From then on, to the end of Python's dates, binary64
    rounds the end instant [x.999999] up to [x + 1], and the window ends one
    second later, on the first second of the next day. *)
Theorem request_window (user : Session) (offset : Z) :
  (∀ d s, utcoffset user d s = offset) →
  valid_date (selected_start_date user) →
  valid_date (selected_end_date user) →
  date_leb (selected_start_date user) (selected_end_date user) = true →
  0 <= local_timestamp user (selected_start_date user) 0 →
  local_timestamp user (selected_end_date user) 86399 < 2 ^ 38 →
  from_timestamp_of user = local_timestamp user (selected_start_date user) 0 ∧
  to_timestamp_of user - from_timestamp_of user =
    86400 * (days_from_civil (selected_end_date user)
             - days_from_civil (selected_start_date user))
    + (if local_timestamp user (selected_end_date user) 86399 <? 2 ^ 34
       then 86399 else 86400).
Proof.
  intros Hoffset Hstart Hend Hle Hfrom Hto.
  rewrite (date_leb_days _ _ Hstart Hend) in Hle. apply Z.leb_le in Hle.
  unfold from_timestamp_of, to_timestamp_of.
  unfold local_timestamp in *. rewrite !Hoffset in *.
  set (a := days_from_civil (selected_start_date user)) in *.
  set (b := days_from_civil (selected_end_date user)) in *.
  rewrite datetime_timestamp_whole by (change (2 ^ 38) with 274877906944 in Hto;
                                       change (2 ^ 53) with 9007199254740992; lia).
  rewrite datetime_timestamp_last_microsecond by lia.
  split; [reflexivity |].
  destruct (b * 86400 + 86399 - offset <? 2 ^ 34); lia.
Qed.

Lemma request_window_witness :
  from_timestamp_of example_session =
    local_timestamp example_session (selected_start_date example_session) 0 ∧
  to_timestamp_of example_session - from_timestamp_of example_session =
    86400 * (days_from_civil (selected_end_date example_session)
             - days_from_civil (selected_start_date example_session))
    + (if local_timestamp example_session (selected_end_date example_session) 86399 <? 2 ^ 34
       then 86399 else 86400).
Proof.
  apply (request_window example_session 0).
  - reflexivity.
  - vm_compute. repeat split; discriminate.
  - vm_compute. repeat split; discriminate.
  - vm_compute. reflexivity.
  - vm_compute. discriminate.
  - vm_compute. reflexivity.
Defined.

(** The default window of 20 November 2023, and that of 1 January 2600,
    which is a second longer. *)
Example request_window_examples :
  from_timestamp_of example_session = 1668902400 ∧
  to_timestamp_of example_session = 1700524799 ∧
  to_timestamp_of far_session - from_timestamp_of far_session = 31622400.
Proof. vm_compute. repeat split. Qed.
